(** * Policy-gated MCP tool calls: a model of [client_example.py]

    The development embeds [MCPClientWithPassport] of [client_example.py]
    (the policy lookup, the context builder, [connect] and the retry loop
    of [call_tool]) and the two wrappers built on it:
    [OpenAIWithMCPPassport] of [openai-integration-example.py]
    ([initialize_mcp], [handle_function_call],
    [chat_completion_with_tools]) and [AnthropicWithMCPPassport] of
    [anthropic-integration-example.py] ([initialize_mcp],
    [handle_tool_use], [messages_with_tools]).  It proves properties of
    the outcomes of these methods and of the traces of calls they make
    to the policy authority and to the MCP session.

    Python dictionaries are finite maps over strings; dictionaries that the
    code creates or mutates live in a store of objects, so that aliasing
    between the caller's [args], the working copy [current_args] and the
    mappings handed to the collaborators is explicit.  Python floats are
    binary64 values of [SpecFloat].  The values that the collaborators
    return are modelled with the two shapes in which they come: a reason
    of a decision is an object with a [message] attribute or a mapping,
    and an item of a tool result is a dict or an object of the MCP SDK.
    A wrapper is a record of the fields its methods read and write, and
    its methods return it as it is afterwards.

    What the model leaves out: the [print] statements; cancellation and
    other [BaseException]s, which no [except Exception] clause catches;
    mutation of a nested value by a collaborator (values are immutable
    trees here, and [call_tool] itself never mutates a nested value); the
    server parameters of [connect], which only its context managers
    read.  The policy client, the MCP session, the context managers of
    [connect] and the model endpoints are parameters: functions of their
    own state that answer with a value or raise. *)

From Stdlib Require Import ZArith String List Bool Lia.
From Stdlib Require Import Floats.SpecFloat.
From stdpp Require Import base option list gmap strings pretty.

Local Open Scope Z_scope.
Local Open Scope string_scope.

(** ** Python values *)

#[local] Set Warnings "-register-all".

(** The values an arguments mapping can hold: what [json.loads] produces. *)
Inductive value : Type :=
  | VNone
  | VBool (b : bool)
  | VInt (n : Z)
  | VFloat (f : spec_float)
  | VStr (s : string)
  | VList (l : list value)
  | VDict (d : list (string * value)).

(** A dictionary object with string keys. *)
Abbreviation dict := (gmap string value).

(** ** Exceptions *)

Record Reason := { code : string; message : string }.

(** An item of [decision.reasons]: an object with the attributes [code]
    and [message], or a mapping with these keys, which is what the APort
    client returns and which has no attribute [message]. *)
Inductive reason_item : Type :=
  | ReasonObject (r : Reason)
  | ReasonDict (d : gmap string string).

(** What [verify_policy] returns. *)
Record PolicyDecision := {
  decision_id : string;
  allow : bool;
  reasons : list reason_item;
}.

(** An item of [result.content]: a plain dict, whose entries are strings
    in the MCP schema ([type], [text], [data], [mimeType], ...), or an
    object of a class of the MCP SDK, named by [cls], with its attributes
    ([TextContent] with [type] and [text], ...), which is what the MCP
    session returns. *)
Inductive content_item : Type :=
  | CDict (d : gmap string string)
  | CObject (cls : string) (attrs : gmap string string).

(** What [session.call_tool] returns. *)
Record CallToolResult := { content : list content_item }.

(** The second argument of [PolicyDeniedError]: the denying decision
    (client side) or the tool result carrying the denial text (server
    side). *)
Inductive denial_result : Type :=
  | DeniedByDecision (decision : PolicyDecision)
  | DeniedByResult (result : CallToolResult).

(** The exceptions that occur.  [PolicyDeniedError] is the class defined
    in [client_example.py]; [External] stands for any [Exception] subclass
    raised by a collaborator (the policy client or the MCP session), which
    is never a [PolicyDeniedError]. *)
Inductive exn : Type :=
  | PolicyDeniedError (msg : string) (result : denial_result)
  | ValueError (msg : string)
  | RuntimeError (msg : string)
  | TypeError (msg : string)
  | OverflowError (msg : string)
  | AttributeError (msg : string)
  | KeyError (msg : string)
  | ImportError (msg : string)
  | Exception (msg : string)
  | External (msg : string).

(** [isinstance(error, PolicyDeniedError)], the test of the first
    [except] clause. *)
Definition is_policy_denied (e : exn) : bool :=
  match e with PolicyDeniedError _ _ => true | _ => false end.

(** [str(error)]. *)
Definition exn_str (e : exn) : string :=
  match e with
  | PolicyDeniedError m _ | ValueError m | RuntimeError m | TypeError m
  | OverflowError m | AttributeError m | ImportError m | Exception m
  | External m => m
  | KeyError k => "'" ++ k ++ "'"
  end.

(** The result of an expression that may raise. *)
Inductive res (A : Type) : Type :=
  | Ok (a : A)
  | Raise (e : exn).
Arguments Ok {A} a.
Arguments Raise {A} e.

(** ** Numbers *)

Module PyNum.

(** binary64 *)
Definition prec : Z := 53.
Definition emax : Z := 1024.

(** The literal [0.5]. *)
Definition half : spec_float := S754_finite false 4503599627370496 (-53).

(** [float(n)] for an [int]: round to nearest, ties to even; an [int]
    beyond the range of a double raises. *)
Definition float_of_int (n : Z) : res spec_float :=
  match binary_normalize prec emax n 0 false with
  | S754_infinity _ => Raise (OverflowError "int too large to convert to float")
  | f => Ok f
  end.

(** [x * y] on floats. *)
Definition fmul (x y : spec_float) : spec_float := SFmul prec emax x y.

(** [v * f] where [f] is a float: [int] and [bool] operands are
    converted, sequences and other objects are refused. *)
Definition mul_float (v : value) (f : spec_float) : res spec_float :=
  match v with
  | VInt n =>
      match float_of_int n with
      | Ok x => Ok (fmul x f)
      | Raise e => Raise e
      end
  | VBool b =>
      match float_of_int (if b then 1 else 0) with
      | Ok x => Ok (fmul x f)
      | Raise e => Raise e
      end
  | VFloat x => Ok (fmul x f)
  | VStr _ | VList _ =>
      Raise (TypeError "can't multiply sequence by non-int of type 'float'")
  | VNone =>
      Raise (TypeError "unsupported operand type(s) for *: 'NoneType' and 'float'")
  | VDict _ =>
      Raise (TypeError "unsupported operand type(s) for *: 'dict' and 'float'")
  end.

(** [f * n] where [f] is a float and [n] an [int]. *)
Definition float_mul_int (f : spec_float) (n : Z) : res spec_float :=
  match float_of_int n with
  | Ok x => Ok (fmul f x)
  | Raise e => Raise e
  end.

(** [int(f)] for a float: truncation toward zero. *)
Definition int_of_float (f : spec_float) : res Z :=
  match f with
  | S754_zero _ => Ok 0
  | S754_nan => Raise (ValueError "cannot convert float NaN to integer")
  | S754_infinity _ =>
      Raise (OverflowError "cannot convert float infinity to integer")
  | S754_finite s m e =>
      let a := match e with
               | Z0 => Zpos m
               | Zpos p => Z.shiftl (Zpos m) e
               | Zneg p => Z.shiftr (Zpos m) (Zpos p)
               end in
      Ok (if s then - a else a)
  end.

(** [int(v * 0.5)], the adjustment applied to a reducible field. *)
Definition int_times_half (v : value) : res value :=
  match mul_float v half with
  | Ok x =>
      match int_of_float x with
      | Ok n => Ok (VInt n)
      | Raise e => Raise e
      end
  | Raise e => Raise e
  end.

End PyNum.

(** ** Strings *)

(** [needle in s] on strings: [needle] occurs in [s]. *)
Fixpoint contains (needle s : string) : bool :=
  String.prefix needle s ||
  match s with
  | EmptyString => false
  | String _ s' => contains needle s'
  end.

(** ** The policy mapping and the context builder *)

(** The client object: its identity, whether the APort client was
    initialised and whether an MCP session is attached. *)
Record MCPClientWithPassport := {
  agent_id : string;
  aport_client : bool;
  session : bool;
}.

(** The dict literal of [_get_policy_id_for_tool], in its written order. *)
Definition tool_to_policy_map : list (string * string) :=
  [ ("merge_pull_request", "code.repository.merge.v1");
    ("process_refund", "finance.payment.refund.v1");
    ("export_customer_data", "data.export.create.v1");
    ("publish_release", "code.release.publish.v1");
    ("send_message", "messaging.message.send.v1");
    ("execute_transaction", "finance.transaction.execute.v1");
    ("access_data", "governance.data.access.v1");
    ("crypto_trade", "finance.crypto.trade.v1");
    ("ingest_report", "data.report.ingest.v1");
    ("review_contract", "legal.contract.review.v1") ].

(** [tool_to_policy_map.get(tool_name)] *)
Definition policy_lookup (tool_name : string) : option string :=
  (list_to_map tool_to_policy_map : gmap string string) !! tool_name.

Definition _get_policy_id_for_tool (tool_name : string) : res string :=
  let unmapped :=
    Raise (ValueError
      ("No policy mapping found for tool: " ++ tool_name ++ ". " ++
       "Available tools: " ++ String.concat ", " (tool_to_policy_map.*1))) in
  match policy_lookup tool_name with
  | Some policy_id =>
      if String.eqb policy_id EmptyString then unmapped else Ok policy_id
  | None => unmapped
  end.

(** [d.get(k, dflt)] *)
Definition get_default (d : dict) (k : string) (dflt : value) : value :=
  default dflt (d !! k).

(** [{"agent_id": self.agent_id, **args}]: the entries of [args] are
    written after the identity. *)
Definition identity_then_args (self : MCPClientWithPassport) (args : dict) : dict :=
  args ∪ {[ "agent_id" := VStr (agent_id self) ]}.

Definition _build_policy_context
    (self : MCPClientWithPassport) (tool_name : string) (args : dict) : dict :=
  let context := identity_then_args self args in
  if String.eqb tool_name "merge_pull_request" then
    <["pr_size_kb" := get_default args "pr_size_kb" (VInt 250)]>
      (<["base_branch" := get_default args "base_branch" (VStr "main")]> context)
  else if String.eqb tool_name "process_refund" then
    <["reason_code" := get_default args "reason_code" (VStr "customer_request")]>
      context
  else context.

(** [{**current_args, "agent_id": self.agent_id}] *)
Definition attach_passport (self : MCPClientWithPassport) (current_args : dict) : dict :=
  <["agent_id" := VStr (agent_id self)]> current_args.

(** [r.message] on an item of the reasons: a mapping has no such
    attribute. *)
Definition reason_message (r : reason_item) : res string :=
  match r with
  | ReasonObject r => Ok (message r)
  | ReasonDict _ => Raise (AttributeError "'dict' object has no attribute 'message'")
  end.

(** The generator [(r.message for r in decision.reasons)], consumed from
    the left by [join]: the first item without a message raises. *)
Fixpoint reason_messages (rs : list reason_item) : res (list string) :=
  match rs with
  | [] => Ok []
  | r :: rest =>
      match reason_message r with
      | Raise e => Raise e
      | Ok m =>
          match reason_messages rest with
          | Raise e => Raise e
          | Ok ms => Ok (m :: ms)
          end
      end
  end.

(** The message of a client-side denial, built inside the [try]
    statement: [f"Policy denied: {reasons}"] where [reasons] joins the
    messages of the reasons, or is [Policy denied] when there are none. *)
Definition denial_message (decision : PolicyDecision) : res string :=
  match reasons decision with
  | [] => Ok "Policy denied: Policy denied"
  | rs =>
      match reason_messages rs with
      | Ok ms => Ok ("Policy denied: " ++ String.concat ", " ms)
      | Raise e => Raise e
      end
  end.

(** A decision whose reasons all have a [message] attribute, so that the
    message of a denial can be built from it; a decision without
    reasons is one. *)
Definition reasons_have_messages (decision : PolicyDecision) : Prop :=
  Forall (λ r, ∃ r', r = ReasonObject r') (reasons decision).

(** The scan of [result.content] for a server-side denial: the text of
    the first dict item of type [text] whose text contains the marker. *)
Fixpoint find_denial_text (items : list content_item) : option string :=
  match items with
  | [] => None
  | CDict d :: rest =>
      if bool_decide (d !! "type" = Some "text") then
        let text := default EmptyString (d !! "text") in
        if contains "Policy denied" text then Some text
        else find_denial_text rest
      else find_denial_text rest
  | CObject _ _ :: rest => find_denial_text rest
  end.

(** ** The object store, the collaborators and the trace *)

(** Dict objects are identified by their position in the store; a new
    object takes the next free position. *)
Definition loc := nat.

(** What a collaborator answers: a value, or an exception with its text. *)
Inductive reply (A : Type) : Type :=
  | Replied (a : A)
  | Failed (msg : string).
Arguments Replied {A} a.
Arguments Failed {A} msg.

(** The observable actions of [call_tool], in the order they happen.  A
    call records the object it was handed, its entries at that moment and
    the answer. *)
Inductive event : Type :=
  | EVerify (agent policy_id : string) (context_obj : loc) (context : dict)
            (answer : reply PolicyDecision)
  | ECallTool (tool_name : string) (args_obj : loc) (arguments : dict)
              (answer : reply CallToolResult)
  | ESleep (delay : spec_float).

(** [range(n)] *)
Definition range (n : Z) : list Z := Z.of_nat <$> seq 0 (Z.to_nat n).

(** The state a call runs in: the dict objects, the state of the
    collaborators and the events so far. *)
Record state (World : Type) := {
  store : list dict;
  world : World;
  trace : list event;
}.
Arguments store {World} s.
Arguments world {World} s.
Arguments trace {World} s.
Arguments Build_state {World} store world trace.

(** What a step leaves behind: the objects it creates, the events it adds
    and the new state of the collaborators. *)
Record effects (World : Type) := {
  created : list dict;
  emitted : list event;
  after : World;
}.
Arguments created {World} e.
Arguments emitted {World} e.
Arguments after {World} e.
Arguments Build_effects {World} created emitted after.

(** How an iteration of the retry loop ends when it does not raise. *)
Inductive control : Type :=
  | Return (result : CallToolResult)
  | Continue (last_error : exn).

(** ** [call_tool] *)

Section Gateway.

(** The collaborators: the state [World] of the policy authority and of
    the MCP server, and the two awaited calls, which see the entries of
    the mapping they are handed. *)
Context {World : Type}.
Variable verify_policy :
  World → string → string → dict → reply PolicyDecision * World.
Variable session_call_tool :
  World → string → dict → reply CallToolResult * World.

(** Computations that read and update the state and may raise. *)
Definition M (A : Type) : Type := state World → res A * state World.

Definition ret {A} (a : A) : M A := fun st => (Ok a, st).

Definition raise {A} (e : exn) : M A := fun st => (Raise e, st).

Definition bind {A B} (m : M A) (k : A → M B) : M B :=
  fun st =>
    match m st with
    | (Ok a, st') => k a st'
    | (Raise e, st') => (Raise e, st')
    end.

Notation "x <- m ;; k" := (bind m (fun x => k))
  (at level 100, m at next level, right associativity).
Notation "m ;;; k" := (bind m (fun _ => k))
  (at level 100, right associativity).

(** [try: m except Exception as error: ...] hands the outcome of [m]
    to the handlers. *)
Definition try {A} (m : M A) : M (res A) :=
  fun st => let '(r, st') := m st in (Ok r, st').

Definition lift {A} (r : res A) : M A := fun st => (r, st).

(** A new dict object with the given entries. *)
Definition alloc (d : dict) : M loc :=
  fun st =>
    (Ok (length (store st)),
     {| store := store st ++ [d]; world := world st; trace := trace st |}).

(** The entries of a dict object. *)
Definition read (l : loc) : M dict :=
  fun st => (Ok (default ∅ (store st !! l)), st).

(** [obj[k] = v] *)
Definition setitem (l : loc) (k : string) (v : value) : M unit :=
  fun st =>
    (Ok tt,
     {| store := alter (insert k v) l (store st);
        world := world st; trace := trace st |}).

Definition emit (e : event) : M unit :=
  fun st =>
    (Ok tt,
     {| store := store st; world := world st; trace := trace st ++ [e] |}).

(** [await self.aport_client.verify_policy(agent, policy_id, context)] *)
Definition await_verify_policy
    (agent policy_id : string) (context : loc) : M PolicyDecision :=
  fun st =>
    let d := default ∅ (store st !! context) in
    let '(answer, w) := verify_policy (world st) agent policy_id d in
    let st' := {| store := store st; world := w;
                  trace := trace st ++ [EVerify agent policy_id context d answer] |} in
    match answer with
    | Replied decision => (Ok decision, st')
    | Failed msg => (Raise (External msg), st')
    end.

(** [await self.session.call_tool(tool_name, args_with_passport)] *)
Definition await_session_call_tool
    (tool_name : string) (arguments : loc) : M CallToolResult :=
  fun st =>
    let d := default ∅ (store st !! arguments) in
    let '(answer, w) := session_call_tool (world st) tool_name d in
    let st' := {| store := store st; world := w;
                  trace := trace st ++ [ECallTool tool_name arguments d answer] |} in
    match answer with
    | Replied result => (Ok result, st')
    | Failed msg => (Raise (External msg), st')
    end.

(** [await asyncio.sleep(retry_backoff * (attempt + 1))] *)
Definition sleep_backoff (retry_backoff : spec_float) (attempt : Z) : M unit :=
  delay <- lift (PyNum.float_mul_int retry_backoff (attempt + 1)) ;;
  emit (ESleep delay).

(** [obj[k]] *)
Definition getitem (l : loc) (k : string) : M value :=
  d <- read l ;;
  match d !! k with
  | Some v => ret v
  | None => raise (KeyError k)
  end.

(** [obj[k] = int(obj[k] * 0.5)] *)
Definition halve_item (l : loc) (k : string) : M unit :=
  v <- getitem l k ;;
  v' <- lift (PyNum.int_times_half v) ;;
  setitem l k v'.

Section CallTool.

Variable self : MCPClientWithPassport.
Variable tool_name : string.
Variable retry_on_denial : bool.
Variable max_retries : Z.
Variable retry_backoff : spec_float.
Variable skip_verification : bool.

(** Step 1: the policy check, ending in a raise on denial. *)
Definition verify_current (current_args : loc) : M unit :=
  policy_id <- lift (_get_policy_id_for_tool tool_name) ;;
  cur <- read current_args ;;
  context <- alloc (_build_policy_context self tool_name cur) ;;
  decision <- await_verify_policy (agent_id self) policy_id context ;;
  if negb (allow decision) then
    msg <- lift (denial_message decision) ;;
    raise (PolicyDeniedError msg (DeniedByDecision decision))
  else ret tt.

(** The server-side check of the tool result. *)
Definition check_result (result : CallToolResult) : M unit :=
  match find_denial_text (content result) with
  | Some text => raise (PolicyDeniedError text (DeniedByResult result))
  | None => ret tt
  end.

(** The body of the [try] statement. *)
Definition try_body (current_args : loc) : M CallToolResult :=
  (if negb skip_verification then verify_current current_args else ret tt) ;;;
  if negb (session self) then raise (RuntimeError "Not connected to MCP server")
  else
    cur <- read current_args ;;
    args_with_passport <- alloc (attach_passport self cur) ;;
    result <- await_session_call_tool tool_name args_with_passport ;;
    check_result result ;;;
    ret result.

(** The adjustment of the working arguments before a denial retry. *)
Definition adjust_arguments (current_args : loc) : M unit :=
  cur <- read current_args ;;
  if String.eqb tool_name "process_refund" && bool_decide (is_Some (cur !! "amount"))
  then halve_item current_args "amount"
  else if String.eqb tool_name "export_customer_data"
          && bool_decide (is_Some (cur !! "limit"))
  then halve_item current_args "limit"
  else ret tt.

(** [except PolicyDeniedError as error:] *)
Definition except_policy_denied (current_args : loc) (attempt : Z)
    (error : exn) : M control :=
  if retry_on_denial && (attempt <? max_retries - 1)%Z then
    adjust_arguments current_args ;;;
    sleep_backoff retry_backoff attempt ;;;
    ret (Continue error)
  else raise error.

(** [except Exception as error:] *)
Definition except_exception (attempt : Z) (error : exn) : M control :=
  if (attempt <? max_retries - 1)%Z then
    sleep_backoff retry_backoff attempt ;;;
    ret (Continue error)
  else raise error.

(** The first clause that matches the exception handles it. *)
Definition handle (current_args : loc) (attempt : Z) (error : exn) : M control :=
  if is_policy_denied error then except_policy_denied current_args attempt error
  else except_exception attempt error.

(** One iteration of the loop. *)
Definition loop_body (current_args : loc) (attempt : Z) : M control :=
  r <- try (try_body current_args) ;;
  match r with
  | Ok result => ret (Return result)
  | Raise error => handle current_args attempt error
  end.

(** [for attempt in attempts: ...] followed by the final [raise]. *)
Fixpoint for_attempts (current_args : loc) (attempts : list Z)
    (last_error : option exn) : M CallToolResult :=
  match attempts with
  | [] =>
      raise (default
        (Exception ("Failed to call " ++ tool_name ++ " after " ++
                    pretty max_retries ++ " attempts"))
        last_error)
  | attempt :: rest =>
      c <- loop_body current_args attempt ;;
      match c with
      | Return result => ret result
      | Continue error => for_attempts current_args rest (Some error)
      end
  end.

Definition call_tool (args : loc) : M CallToolResult :=
  if negb (aport_client self) then
    raise (RuntimeError "APort client not initialized")
  else
    d <- read args ;;
    current_args <- alloc d ;;
    for_attempts current_args (range max_retries) None.

End CallTool.

(** *** The [try] statement of [OpenAIWithMCPPassport.handle_function_call] *)

(** The literal [1.0], the default of [retry_backoff]. *)
Definition one : spec_float := S754_finite false 4503599627370496 (-52).

(** The dict literal of [_map_openai_function_to_mcp_tool]. *)
Definition openai_function_map : list (string * string) :=
  [ ("process_refund", "process_refund");
    ("merge_pull_request", "merge_pull_request");
    ("export_customer_data", "export_customer_data") ].

Definition _map_openai_function_to_mcp_tool (function_name : string) : string :=
  default function_name
    ((list_to_map openai_function_map : gmap string string) !! function_name).

(** The first text of the generator
    [(c.get("text", '') for c in content if c.get("type") == "text")], or
    the empty string; an item that is no dict has no [get]. *)
Fixpoint first_text (items : list content_item) : res string :=
  match items with
  | [] => Ok EmptyString
  | CDict d :: rest =>
      if bool_decide (d !! "type" = Some "text")
      then Ok (default EmptyString (d !! "text"))
      else first_text rest
  | CObject cls _ :: _ =>
      Raise (AttributeError ("'" ++ cls ++ "' object has no attribute 'get'"))
  end.

(** The message handed back to the model. *)
Definition function_message (function_name text : string) : gmap string string :=
  {[ "role" := "function"; "name" := function_name; "content" := text ]}.

(** What [handle_function_call] does once [self.mcp_client] is set: the
    mapping of the name and the [try] statement. *)
Definition route_function_call
    (mcp_client : MCPClientWithPassport) (function_name : string)
    (arguments : loc) : M (gmap string string) :=
  let mcp_tool_name := _map_openai_function_to_mcp_tool function_name in
  r <- try (
    result <- call_tool mcp_client mcp_tool_name true 3 one false arguments ;;
    match content result with
    | [] => ret (function_message function_name "Tool executed successfully")
    | items =>
        text_content <- lift (first_text items) ;;
        ret (function_message function_name text_content)
    end) ;;
  match r with
  | Ok msg => ret msg
  | Raise error =>
      if is_policy_denied error then
        ret (function_message function_name ("Policy denied: " ++ exn_str error))
      else
        ret (function_message function_name ("Error: " ++ exn_str error))
  end.

End Gateway.

(** ** Runs and the collaborators of the examples *)

(** The events a call adds to the trace. *)
Definition new_events {World} (st st' : state World) : list event :=
  drop (length (trace st)) (trace st').

(** A state holding the given objects, before any call. *)
Definition initial {World} (w : World) (objs : list dict) : state World :=
  {| store := objs; world := w; trace := [] |}.

Definition deny : PolicyDecision :=
  {| decision_id := "dec_deny"; allow := false;
     reasons := [ ReasonObject {| code := "oap.limit_exceeded";
                                  message := "limit exceeded" |} ] |}.

Definition permit : PolicyDecision :=
  {| decision_id := "dec_allow"; allow := true; reasons := [] |}.

(** A policy authority that denies every request. *)
Definition verify_deny_all (w : unit) (agent policy_id : string) (context : dict)
    : reply PolicyDecision * unit :=
  (Replied deny, w).

(** A policy authority that allows every request. *)
Definition verify_allow_all (w : unit) (agent policy_id : string) (context : dict)
    : reply PolicyDecision * unit :=
  (Replied permit, w).

(** An MCP server that answers every call with one text item. *)
Definition server_text (text : string) (w : unit) (tool_name : string)
    (arguments : dict) : reply CallToolResult * unit :=
  (Replied {| content := [CDict {[ "type" := "text"; "text" := text ]}] |}, w).

(** An MCP server that cannot be reached. *)
Definition server_unreachable (w : unit) (tool_name : string)
    (arguments : dict) : reply CallToolResult * unit :=
  (Failed "connection refused", w).

(** A policy authority that denies a request whose [amount] exceeds
    500000 and allows every other one. *)
Definition verify_threshold (w : unit) (agent policy_id : string) (context : dict)
    : reply PolicyDecision * unit :=
  match context !! "amount" with
  | Some (VInt n) => if (500000 <? n)%Z then (Replied deny, w) else (Replied permit, w)
  | _ => (Replied permit, w)
  end.

(** The client of the examples, with the default [AGENT_ID]. *)
Definition client : MCPClientWithPassport :=
  {| agent_id := "ap_a2d10232c6534523812423eec8a1425c";
     aport_client := true; session := true |}.

(** The arguments of the refund of [example_error_handling]. *)
Definition refund_args : dict :=
  {[ "amount" := VInt 1000000; "currency" := VStr "USD";
     "order_id" := VStr "ord_456" ]}.


(** Arguments that carry an [agent_id] entry of their own. *)
Definition spoofed_args : dict :=
  {[ "agent_id" := VStr "ap_other"; "channel" := VStr "general" ]}.

(** A tool result whose only item is a text that reports a denial. *)
Definition denied_by_server : CallToolResult :=
  {| content := [CDict {[ "type" := "text";
                          "text" := "Policy denied: refund exceeds limit" ]}] |}.

(** The literal [2.0]. *)
Definition two : spec_float := S754_finite false 4503599627370496 (-51).

(** ** Trace projections *)

(** The contexts submitted to the policy authority, in order. *)
Definition verified_contexts (tr : list event) : list dict :=
  omap (λ e, match e with EVerify _ _ _ context _ => Some context | _ => None end) tr.

(** The argument mappings dispatched to the MCP session, in order. *)
Definition dispatched_arguments (tr : list event) : list dict :=
  omap (λ e, match e with ECallTool _ _ arguments _ => Some arguments | _ => None end) tr.

(** The delays slept, in order. *)
Definition sleeps (tr : list event) : list spec_float :=
  omap (λ e, match e with ESleep delay => Some delay | _ => None end) tr.

(** The dict objects handed to a collaborator, with their entries at the
    time of the call. *)
Definition handed_objects (tr : list event) : list (loc * dict) :=
  omap (λ e, match e with
             | EVerify _ _ l context _ => Some (l, context)
             | ECallTool _ l arguments _ => Some (l, arguments)
             | ESleep _ => None
             end) tr.

(** ** The loop without the store

    The same steps as [call_tool], written over the entries [d] of the
    working arguments, the next free position [n] of the store and the
    state [w] of the collaborators.  Each step returns its outcome, the
    objects it creates, the events it adds and the new state of the
    collaborators.  The lemmas [*_pure_eq] below relate every step of
    [call_tool] to its counterpart here. *)

Section Pure.

Context {World : Type}.
Variable verify_policy :
  World → string → string → dict → reply PolicyDecision * World.
Variable session_call_tool :
  World → string → dict → reply CallToolResult * World.
Variable self : MCPClientWithPassport.
Variable tool_name : string.
Variable retry_on_denial : bool.
Variable max_retries : Z.
Variable retry_backoff : spec_float.
Variable skip_verification : bool.

Definition decision_outcome (answer : reply PolicyDecision) : res unit :=
  match answer with
  | Failed msg => Raise (External msg)
  | Replied decision =>
      if allow decision then Ok tt
      else
        match denial_message decision with
        | Ok msg => Raise (PolicyDeniedError msg (DeniedByDecision decision))
        | Raise e => Raise e
        end
  end.

Definition verify_pure (d : dict) (n : nat) (w : World)
    : res unit * effects World :=
  if skip_verification then (Ok tt, {| created := []; emitted := []; after := w |})
  else
    match _get_policy_id_for_tool tool_name with
    | Raise e => (Raise e, {| created := []; emitted := []; after := w |})
    | Ok policy_id =>
        let context := _build_policy_context self tool_name d in
        let '(answer, w') := verify_policy w (agent_id self) policy_id context in
        (decision_outcome answer,
         {| created := [context];
            emitted := [EVerify (agent_id self) policy_id n context answer];
            after := w' |})
    end.

Definition result_outcome (answer : reply CallToolResult) : res CallToolResult :=
  match answer with
  | Failed msg => Raise (External msg)
  | Replied result =>
      match find_denial_text (content result) with
      | Some text => Raise (PolicyDeniedError text (DeniedByResult result))
      | None => Ok result
      end
  end.

Definition dispatch_pure (d : dict) (n : nat) (w : World)
    : res CallToolResult * effects World :=
  if session self then
    let arguments := attach_passport self d in
    let '(answer, w') := session_call_tool w tool_name arguments in
    (result_outcome answer,
     {| created := [arguments];
        emitted := [ECallTool tool_name n arguments answer];
        after := w' |})
  else
    (Raise (RuntimeError "Not connected to MCP server"),
     {| created := []; emitted := []; after := w |}).

Definition try_pure (d : dict) (n : nat) (w : World)
    : res CallToolResult * effects World :=
  let '(r, fx) := verify_pure d n w in
  match r with
  | Raise e => (Raise e, fx)
  | Ok _ =>
      let '(r', fx') := dispatch_pure d (n + length (created fx)) (after fx) in
      (r', {| created := created fx ++ created fx';
              emitted := emitted fx ++ emitted fx';
              after := after fx' |})
  end.

(** [d[k] = int(d[k] * 0.5)] on the entries. *)
Definition halve_entry (d : dict) (k : string) : res dict :=
  match d !! k with
  | Some v =>
      match PyNum.int_times_half v with
      | Ok v' => Ok (<[k := v']> d)
      | Raise e => Raise e
      end
  | None => Raise (KeyError k)
  end.

Definition adjust_pure (d : dict) : res dict :=
  if String.eqb tool_name "process_refund" && bool_decide (is_Some (d !! "amount"))
  then halve_entry d "amount"
  else if String.eqb tool_name "export_customer_data"
          && bool_decide (is_Some (d !! "limit"))
  then halve_entry d "limit"
  else Ok d.

(** Whether the handlers go on to the next attempt. *)
Definition retries (attempt : Z) (error : exn) : bool :=
  if is_policy_denied error then retry_on_denial && (attempt <? max_retries - 1)%Z
  else (attempt <? max_retries - 1)%Z.

(** The handlers: outcome, entries of the working arguments afterwards,
    events. *)
Definition handle_pure (d : dict) (attempt : Z) (error : exn)
    : res control * dict * list event :=
  if retries attempt error then
    match (if is_policy_denied error then adjust_pure d else Ok d) with
    | Raise e => (Raise e, d, [])
    | Ok d' =>
        match PyNum.float_mul_int retry_backoff (attempt + 1) with
        | Raise e => (Raise e, d', [])
        | Ok delay => (Ok (Continue error), d', [ESleep delay])
        end
    end
  else (Raise error, d, []).

(** What a run leaves behind: the entries of the working arguments and
    the effects. *)
Definition step_pure (d : dict) (n : nat) (w : World) (attempt : Z)
    : res control * dict * effects World :=
  let '(r, fx) := try_pure d n w in
  match r with
  | Ok result => (Ok (Return result), d, fx)
  | Raise error =>
      let '(c, d', evs) := handle_pure d attempt error in
      (c, d', {| created := created fx; emitted := emitted fx ++ evs;
                 after := after fx |})
  end.

Fixpoint run_pure (attempts : list Z) (last_error : option exn)
    (d : dict) (n : nat) (w : World)
    : res CallToolResult * dict * effects World :=
  match attempts with
  | [] =>
      (Raise (default
         (Exception ("Failed to call " ++ tool_name ++ " after " ++
                     pretty max_retries ++ " attempts"))
         last_error),
       d, {| created := []; emitted := []; after := w |})
  | attempt :: rest =>
      let '(c, d', fx) := step_pure d n w attempt in
      match c with
      | Raise e => (Raise e, d', fx)
      | Ok (Return result) => (Ok result, d', fx)
      | Ok (Continue error) =>
          let '(r, d'', fx') :=
            run_pure rest (Some error) d' (n + length (created fx)) (after fx) in
          (r, d'', {| created := created fx ++ created fx';
                      emitted := emitted fx ++ emitted fx';
                      after := after fx' |})
      end
  end.

(** The run of [call_tool] on arguments with entries [d], from a store
    of [n] objects: the working copy takes position [n]. *)
Definition call_pure (d : dict) (n : nat) (w : World)
    : res CallToolResult * dict * effects World :=
  run_pure (range max_retries) None d (S n) w.

(** The state after a step with effects [fx] that leaves the entries
    [d'] in the working arguments [cur]. *)
Definition apply_fx (st : state World) (cur : loc) (d' : dict)
    (fx : effects World) : state World :=
  {| store := <[cur := d']> (store st) ++ created fx;
     world := after fx;
     trace := trace st ++ emitted fx |}.

End Pure.

(** ** Gated traces *)

(** A trace in which every dispatch to the MCP session directly follows a
    verification that was answered with an allowing decision, for the
    same tool, with the context and the dispatched arguments built from
    the same working arguments [cur]. *)
Inductive gated (self : MCPClientWithPassport) (tool_name : string)
    : list event → Prop :=
  | gated_nil : gated self tool_name []
  | gated_sleep delay tr :
      gated self tool_name tr → gated self tool_name (ESleep delay :: tr)
  | gated_verify agent policy_id l context answer tr :
      gated self tool_name tr →
      gated self tool_name (EVerify agent policy_id l context answer :: tr)
  | gated_dispatch policy_id l l' cur decision answer tr :
      _get_policy_id_for_tool tool_name = Ok policy_id →
      allow decision = true →
      gated self tool_name tr →
      gated self tool_name
        (EVerify (agent_id self) policy_id l
           (_build_policy_context self tool_name cur) (Replied decision)
         :: ECallTool tool_name l' (attach_passport self cur) answer :: tr).

(** An event of an attempt on working arguments with entries [d]: a
    verification of the context built from [d], or a dispatch of [d]
    with the passport attached. *)
Definition attempt_event (self : MCPClientWithPassport) (tool_name : string)
    (d : dict) (e : event) : Prop :=
  match e with
  | EVerify agent _ _ context _ =>
      agent = agent_id self ∧ context = _build_policy_context self tool_name d
  | ECallTool t _ arguments _ =>
      t = tool_name ∧ arguments = attach_passport self d
  | ESleep _ => False
  end.

(** What an event shows of the identity when the caller's arguments carry
    an [agent_id] entry [v] of their own: the context submitted for
    verification holds [v], the arguments dispatched hold the identity of
    the client. *)
Definition identity_event (self : MCPClientWithPassport) (v : value)
    (e : event) : Prop :=
  match e with
  | EVerify _ _ _ context _ => context !! "agent_id" = Some v
  | ECallTool _ _ arguments _ =>
      arguments !! "agent_id" = Some (VStr (agent_id self))
  | ESleep _ => True
  end.

(** Every object a step creates is handed to a collaborator once, with
    the entries it was created with; the positions follow the store from
    position [n] on. *)
Definition handed_as_created {World} (n : nat) (fx : effects World) : Prop :=
  handed_objects (emitted fx) = zip (seq n (length (created fx))) (created fx).

(** A trace that ends with the MCP session answering [r], a result free
    of the denial marker. *)
Definition returned (tool_name : string) (r : CallToolResult)
    (tr : list event) : Prop :=
  find_denial_text (content r) = None ∧
  ∃ l arguments, last tr = Some (ECallTool tool_name l arguments (Replied r)).

(** An item that the scan of [call_tool] takes for a denial: a dict item
    of type [text] whose text contains [Policy denied]. *)
Definition denial_item (item : content_item) : Prop :=
  ∃ d text, item = CDict d ∧ d !! "type" = Some "text" ∧
            d !! "text" = Some text ∧ contains "Policy denied" text = true.

(** A text item that carries the denial marker, whatever its
    representation: a dict, or an object of the MCP SDK, of type [text]
    whose text contains [Policy denied]. *)
Definition text_item_with_marker (item : content_item) : Prop :=
  ∃ text, contains "Policy denied" text = true ∧
    match item with
    | CDict d => d !! "type" = Some "text" ∧ d !! "text" = Some text
    | CObject _ attrs =>
        attrs !! "type" = Some "text" ∧ attrs !! "text" = Some text
    end.

(** ** The [try] statement of [AnthropicWithMCPPassport.handle_tool_use] *)

(** The dict literal of [_map_anthropic_tool_to_mcp_tool]. *)
Definition anthropic_tool_map : list (string * string) :=
  [ ("merge_pull_request", "merge_pull_request");
    ("process_refund", "process_refund");
    ("export_customer_data", "export_customer_data") ].

Definition _map_anthropic_tool_to_mcp_tool (tool_name : string) : string :=
  default tool_name
    ((list_to_map anthropic_tool_map : gmap string string) !! tool_name).

(** The [tool_use] mapping that [handle_tool_use] receives: what
    [tool_use.get("id")] and [tool_use.get("input")] find, if anything,
    and the name, which every caller supplies. *)
Record ToolUse := {
  tool_use_id : option string;
  tool_use_name : string;
  tool_use_input : option loc;
}.

(** The mapping [handle_tool_use] returns. *)
Record ToolResultMessage := {
  result_tool_use_id : option string;
  result_content : string;
}.

Section Anthropic.

Context {World : Type}.
Variable verify_policy :
  World → string → string → dict → reply PolicyDecision * World.
Variable session_call_tool :
  World → string → dict → reply CallToolResult * World.

(** What [handle_tool_use] does once [self.mcp_client] is set: the two
    lookups in [tool_use], the mapping of the name and the [try]
    statement.  The default [{}] of [tool_use.get("input", {})] is built
    before the lookup. *)
Definition route_tool_use (mcp_client : MCPClientWithPassport)
    (tool_use : ToolUse) : M (World:=World) ToolResultMessage :=
  let tool_name := tool_use_name tool_use in
  bind (alloc ∅) (λ empty,
  let tool_input := default empty (tool_use_input tool_use) in
  let mcp_tool_name := _map_anthropic_tool_to_mcp_tool tool_name in
  bind (try (
    bind (call_tool verify_policy session_call_tool mcp_client mcp_tool_name
            false 1 one false tool_input) (λ result,
    match content result with
    | [] => ret "Tool executed successfully"
    | items => lift (first_text items)
    end))) (λ r,
  let answer text :=
    ret {| result_tool_use_id := tool_use_id tool_use; result_content := text |} in
  match r with
  | Ok text => answer text
  | Raise error =>
      if is_policy_denied error then answer ("Policy denied: " ++ exn_str error)
      else answer ("Error: " ++ exn_str error)
  end)).

End Anthropic.

(** ** The wrappers and their MCP client *)

(** How entering [stdio_client(...)] and [ClientSession(...)] in [connect]
    ends: the session was assigned to [self.session], after which
    leaving the two context managers may still raise; or an exception
    was raised before the assignment. *)
Inductive session_outcome : Type :=
  | Entered (error : option string)
  | NotEntered (msg : string).

(** The fields of the wrapper that its methods read and write:
    [self.agent_id], whether [self.openai_client] is set, and
    [self.mcp_client]. *)
Record OpenAIWithMCPPassport := {
  openai_agent_id : string;
  openai_client : bool;
  openai_mcp_client : option MCPClientWithPassport;
}.

Record AnthropicWithMCPPassport := {
  anthropic_agent_id : string;
  anthropic_client : bool;
  anthropic_mcp_client : option MCPClientWithPassport;
}.

Section Wrappers.

Context {World : Type}.
Variable verify_policy :
  World → string → string → dict → reply PolicyDecision * World.
Variable session_call_tool :
  World → string → dict → reply CallToolResult * World.

(** Whether the imports at the top of [client_example.py] found the MCP
    SDK ([stdio_client] is set) and the APort SDK ([APortClient] is
    set). *)
Variable mcp_sdk : bool.
Variable aport_sdk : bool.

(** The two context managers of [connect], on the state of the
    collaborators. *)
Variable enter_session : World → session_outcome * World.

(** [MCPClientWithPassport(agent_id)]: no session yet, the APort client
    if its SDK was found. *)
Definition __init__ (agent : string) : MCPClientWithPassport :=
  {| agent_id := agent; aport_client := aport_sdk; session := false |}.

(** [connect]: its outcome and the client object as it is afterwards. *)
Definition connect (self : MCPClientWithPassport) (st : state World)
    : res unit * MCPClientWithPassport * state World :=
  if negb mcp_sdk then
    (Raise (ImportError "MCP SDK not installed. Install with: pip install mcp"),
     self, st)
  else
    let '(outcome, w) := enter_session (world st) in
    let st' := {| store := store st; world := w; trace := trace st |} in
    let connected :=
      {| agent_id := agent_id self; aport_client := aport_client self;
         session := true |} in
    match outcome with
    | NotEntered msg => (Raise (External msg), self, st')
    | Entered None => (Ok tt, connected, st')
    | Entered (Some msg) => (Raise (External msg), connected, st')
    end.

(** [initialize_mcp], which is the same in both wrappers: the new client
    is assigned to [self.mcp_client] before [connect] runs, so it stays
    there when [connect] raises. *)
Definition initialize_mcp (agent : string) (st : state World)
    : res unit * MCPClientWithPassport * state World :=
  connect (__init__ agent) st.

(** [if not self.mcp_client: await self.initialize_mcp()], the first
    statement of the methods below: the outcome, the client in
    [self.mcp_client] afterwards and the state. *)
Definition ensure_mcp_client (agent : string)
    (mcp_client : option MCPClientWithPassport) (st : state World)
    : res unit * MCPClientWithPassport * state World :=
  match mcp_client with
  | Some client => (Ok tt, client, st)
  | None => initialize_mcp agent st
  end.

(** The method returns its outcome and the wrapper as it is afterwards.
    An exception of the initialisation is raised before the [try]
    statement is entered. *)
Definition handle_function_call (self : OpenAIWithMCPPassport)
    (function_name : string) (arguments : loc) (st : state World)
    : res (gmap string string) * OpenAIWithMCPPassport * state World :=
  let '(r, mcp_client, st0) :=
    ensure_mcp_client (openai_agent_id self) (openai_mcp_client self) st in
  let self' := {| openai_agent_id := openai_agent_id self;
                  openai_client := openai_client self;
                  openai_mcp_client := Some mcp_client |} in
  match r with
  | Raise e => (Raise e, self', st0)
  | Ok _ =>
      let '(r', st') :=
        route_function_call verify_policy session_call_tool mcp_client
          function_name arguments st0 in
      (r', self', st')
  end.

Definition handle_tool_use (self : AnthropicWithMCPPassport)
    (tool_use : ToolUse) (st : state World)
    : res ToolResultMessage * AnthropicWithMCPPassport * state World :=
  let '(r, mcp_client, st0) :=
    ensure_mcp_client (anthropic_agent_id self) (anthropic_mcp_client self) st in
  let self' := {| anthropic_agent_id := anthropic_agent_id self;
                  anthropic_client := anthropic_client self;
                  anthropic_mcp_client := Some mcp_client |} in
  match r with
  | Raise e => (Raise e, self', st0)
  | Ok _ =>
      let '(r', st') :=
        route_tool_use verify_policy session_call_tool mcp_client tool_use st0 in
      (r', self', st')
  end.

End Wrappers.

(** ** More collaborators and arguments for the examples *)

(** A text item as the MCP session returns it: an object of the class
    [TextContent] of the SDK. *)
Definition text_content (text : string) : content_item :=
  CObject "TextContent" {[ "type" := "text"; "text" := text ]}.

(** An MCP server that answers every call with one text item, as an
    object of the SDK. *)
Definition server_object (text : string) (w : unit) (tool_name : string)
    (arguments : dict) : reply CallToolResult * unit :=
  (Replied {| content := [text_content text] |}, w).

(** A decision that denies with reasons as the APort client returns
    them: mappings. *)
Definition deny_with_dicts : PolicyDecision :=
  {| decision_id := "dec_deny"; allow := false;
     reasons := [ ReasonDict {[ "code" := "oap.limit_exceeded";
                                "message" := "limit exceeded" ]} ] |}.

(** A policy authority that denies every request in that way. *)
Definition verify_deny_with_dicts (w : unit) (agent policy_id : string)
    (context : dict) : reply PolicyDecision * unit :=
  (Replied deny_with_dicts, w).

(** A connection to the MCP server that succeeds, and one that is
    refused. *)
Definition session_entered (w : unit) : session_outcome * unit :=
  (Entered None, w).

Definition session_refused (w : unit) : session_outcome * unit :=
  (NotEntered "connection refused", w).

(** Wrappers whose MCP client is the client of the examples, and
    wrappers that have not initialised theirs yet. *)
Definition openai_wrapper : OpenAIWithMCPPassport :=
  {| openai_agent_id := "ap_a2d10232c6534523812423eec8a1425c";
     openai_client := true; openai_mcp_client := Some client |}.

Definition openai_wrapper_new : OpenAIWithMCPPassport :=
  {| openai_agent_id := "ap_a2d10232c6534523812423eec8a1425c";
     openai_client := true; openai_mcp_client := None |}.

Definition anthropic_wrapper : AnthropicWithMCPPassport :=
  {| anthropic_agent_id := "ap_a2d10232c6534523812423eec8a1425c";
     anthropic_client := true; anthropic_mcp_client := Some client |}.

Definition anthropic_wrapper_new : AnthropicWithMCPPassport :=
  {| anthropic_agent_id := "ap_a2d10232c6534523812423eec8a1425c";
     anthropic_client := true; anthropic_mcp_client := None |}.

(** A refund whose amount came as a string. *)
Definition string_amount : dict := {[ "amount" := VStr "100" ]}.

(** The arguments of the merge of [example_policy_verification]. *)
Definition merge_args : dict :=
  {[ "repository" := VStr "my-org/my-repo"; "pr_number" := VInt 1 ]}.

(** ** What the events of a call address *)

(** A verification is made under the identity of the client for the
    policy of the requested tool; a dispatch is for the requested tool
    and holds the identity under [agent_id]. *)
Definition addressed_event (self : MCPClientWithPassport) (tool_name : string)
    (e : event) : Prop :=
  match e with
  | EVerify agent policy_id _ _ _ =>
      agent = agent_id self ∧ _get_policy_id_for_tool tool_name = Ok policy_id
  | ECallTool t _ arguments _ =>
      t = tool_name ∧ arguments !! "agent_id" = Some (VStr (agent_id self))
  | ESleep _ => True
  end.

(** An exception is justified by a trace when, being a
    [PolicyDeniedError], it reports a denial that the trace records: a
    decision with [allow = false] answered to a verification, or a tool
    result whose scan finds the text of the error. *)
Definition justified (e : exn) (tr : list event) : Prop :=
  match e with
  | PolicyDeniedError msg (DeniedByDecision decision) =>
      allow decision = false ∧ denial_message decision = Ok msg ∧
      ∃ agent policy_id l context,
        EVerify agent policy_id l context (Replied decision) ∈ tr
  | PolicyDeniedError msg (DeniedByResult result) =>
      find_denial_text (content result) = Some msg ∧
      ∃ t l arguments, ECallTool t l arguments (Replied result) ∈ tr
  | _ => True
  end.

(** ** [AnthropicWithMCPPassport.messages_with_tools] *)

(** A block of [response.content]: a text, or a request to use a tool
    with its id, its name and the entries of its input mapping. *)
Inductive content_block : Type :=
  | TextBlock (text : string)
  | ToolUseBlock (id name : string) (input : dict).

(** [content.type] *)
Definition block_type (content : content_block) : string :=
  match content with
  | TextBlock _ => "text"
  | ToolUseBlock _ _ _ => "tool_use"
  end.

(** What [messages.create] returns. *)
Record Message := {
  stop_reason : string;
  message_content : list content_block;
}.

(** An entry of the [messages] list: a message that the caller wrote, or
    one of the two that [messages_with_tools] appends. *)
Inductive message_param : Type :=
  | CallerMessage (role text : string)
  | AssistantMessage (content : list content_block)
  | ToolResultsMessage (tool_results : list ToolResultMessage).

(** The ids of the tool uses among the blocks, in order. *)
Definition tool_use_ids (blocks : list content_block) : list string :=
  omap (λ content, match content with
                   | ToolUseBlock id _ _ => Some id
                   | TextBlock _ => None
                   end) blocks.

Section AnthropicMessages.

Context {World : Type}.
Variable verify_policy :
  World → string → string → dict → reply PolicyDecision * World.
Variable session_call_tool :
  World → string → dict → reply CallToolResult * World.
Variable mcp_sdk : bool.
Variable aport_sdk : bool.
Variable enter_session : World → session_outcome * World.

(** [self.anthropic_client.messages.create(model=model, max_tokens=1024,
    messages=messages, tools=tools)], for the model and the tools of the
    call. *)
Variable messages_create :
  World → list message_param → reply Message * World.

Definition await_messages_create (messages : list message_param)
    : M (World:=World) Message :=
  fun st =>
    let '(answer, w) := messages_create (world st) messages in
    let st' := {| store := store st; world := w; trace := trace st |} in
    match answer with
    | Replied response => (Ok response, st')
    | Failed msg => (Raise (External msg), st')
    end.

(** [for content in response.content: ...], with the results so far.  The
    input mapping of a block enters the store when the block is
    handled. *)
Fixpoint for_content (self : AnthropicWithMCPPassport)
    (blocks : list content_block) (tool_results : list ToolResultMessage)
    (st : state World)
    : res (list ToolResultMessage) * AnthropicWithMCPPassport * state World :=
  match blocks with
  | [] => (Ok tool_results, self, st)
  | content :: rest =>
      if String.eqb (block_type content) "tool_use" then
        match content with
        | ToolUseBlock id name input =>
            let input_obj := length (store st) in
            let st1 := {| store := (store st ++ [input])%list;
                          world := world st; trace := trace st |} in
            match handle_tool_use verify_policy session_call_tool mcp_sdk
                    aport_sdk enter_session self
                    {| tool_use_id := Some id; tool_use_name := name;
                       tool_use_input := Some input_obj |} st1 with
            | (Raise e, self', st2) => (Raise e, self', st2)
            | (Ok tool_result, self', st2) =>
                for_content self' rest (tool_results ++ [tool_result])%list st2
            end
        | TextBlock _ => for_content self rest tool_results st
        end
      else for_content self rest tool_results st
  end.

(** The [messages] list of the caller is updated in place: the method
    returns, besides its outcome, the entries of that list and the
    wrapper as they are when it ends. *)
Definition messages_with_tools (self : AnthropicWithMCPPassport)
    (messages : list message_param) (st : state World)
    : res Message * list message_param * AnthropicWithMCPPassport
      * state World :=
  if negb (anthropic_client self) then
    (Raise (RuntimeError "Anthropic client not initialized"), messages, self, st)
  else
    let '(r, mcp_client, st0) :=
      ensure_mcp_client mcp_sdk aport_sdk enter_session
        (anthropic_agent_id self) (anthropic_mcp_client self) st in
    let self0 := {| anthropic_agent_id := anthropic_agent_id self;
                    anthropic_client := anthropic_client self;
                    anthropic_mcp_client := Some mcp_client |} in
    match r with
    | Raise e => (Raise e, messages, self0, st0)
    | Ok _ =>
        match await_messages_create messages st0 with
        | (Raise e, st1) => (Raise e, messages, self0, st1)
        | (Ok response, st1) =>
            if String.eqb (stop_reason response) "tool_use" then
              match for_content self0 (message_content response) [] st1 with
              | (Raise e, self2, st2) => (Raise e, messages, self2, st2)
              | (Ok tool_results, self2, st2) =>
                  let messages' :=
                    (messages ++ [AssistantMessage (message_content response);
                                  ToolResultsMessage tool_results])%list in
                  match await_messages_create messages' st2 with
                  | (Raise e, st3) => (Raise e, messages', self2, st3)
                  | (Ok final_response, st3) =>
                      (Ok final_response, messages', self2, st3)
                  end
              end
            else (Ok response, messages, self0, st1)
        end
    end.

End AnthropicMessages.

(** ** [OpenAIWithMCPPassport.chat_completion_with_tools] *)

(** [message.function_call]: the name of the function and the text of
    its arguments. *)
Record FunctionCall := {
  function_call_name : string;
  function_call_arguments : string;
}.

(** What [chat.completions.create] returns, seen through its first
    choice: the message as [model_dump] gives it, and the function call
    of the message, if any. *)
Record ChatCompletion := {
  message_dump : gmap string string;
  message_function_call : option FunctionCall;
}.

Section OpenAIChat.

Context {World : Type}.
Variable verify_policy :
  World → string → string → dict → reply PolicyDecision * World.
Variable session_call_tool :
  World → string → dict → reply CallToolResult * World.
Variable mcp_sdk : bool.
Variable aport_sdk : bool.
Variable enter_session : World → session_outcome * World.

(** [self.openai_client.chat.completions.create(...)]: the first request
    of a call passes the functions, the second does not. *)
Variable chat_create :
  World → bool → list (gmap string string) → reply ChatCompletion * World.

(** [json.loads] on the text of the arguments: the entries of a new
    mapping, or the failure of the decoder. *)
Variable json_loads : string → reply dict.

Definition await_chat_create (with_functions : bool)
    (messages : list (gmap string string)) : M (World:=World) ChatCompletion :=
  fun st =>
    let '(answer, w) := chat_create (world st) with_functions messages in
    let st' := {| store := store st; world := w; trace := trace st |} in
    match answer with
    | Replied response => (Ok response, st')
    | Failed msg => (Raise (External msg), st')
    end.

(** The [messages] list of the caller is updated in place: the method
    returns, besides its outcome, the entries of that list and the
    wrapper as they are when it ends. *)
Definition chat_completion_with_tools (self : OpenAIWithMCPPassport)
    (messages : list (gmap string string)) (st : state World)
    : res ChatCompletion * list (gmap string string) * OpenAIWithMCPPassport
      * state World :=
  if negb (openai_client self) then
    (Raise (RuntimeError "OpenAI client not initialized"), messages, self, st)
  else
    let '(r, mcp_client, st0) :=
      ensure_mcp_client mcp_sdk aport_sdk enter_session
        (openai_agent_id self) (openai_mcp_client self) st in
    let self0 := {| openai_agent_id := openai_agent_id self;
                    openai_client := openai_client self;
                    openai_mcp_client := Some mcp_client |} in
    match r with
    | Raise e => (Raise e, messages, self0, st0)
    | Ok _ =>
        match await_chat_create true messages st0 with
        | (Raise e, st1) => (Raise e, messages, self0, st1)
        | (Ok response, st1) =>
            let messages1 := (messages ++ [message_dump response])%list in
            match message_function_call response with
            | Some function_call =>
                let function_name := function_call_name function_call in
                match json_loads (function_call_arguments function_call) with
                | Failed msg => (Raise (External msg), messages1, self0, st1)
                | Replied entries =>
                    let arguments := length (store st1) in
                    let st1' := {| store := (store st1 ++ [entries])%list;
                                   world := world st1; trace := trace st1 |} in
                    match handle_function_call verify_policy session_call_tool
                            mcp_sdk aport_sdk enter_session self0
                            function_name arguments st1' with
                    | (Raise e, self2, st2) => (Raise e, messages1, self2, st2)
                    | (Ok function_result, self2, st2) =>
                        let messages2 :=
                          (messages1 ++ [function_result])%list in
                        match await_chat_create false messages2 st2 with
                        | (Raise e, st3) => (Raise e, messages2, self2, st3)
                        | (Ok final_response, st3) =>
                            (Ok final_response, messages2, self2, st3)
                        end
                    end
                end
            | None => (Ok response, messages1, self0, st1)
            end
        end
    end.

End OpenAIChat.


(** * Properties *)

Local Open Scope list_scope.

(** ** Halving and backoff on integers below [2^53] *)

Module PyNumFacts.
Import PyNum.

Lemma digits2_pos_size m : digits2_pos m = Pos.size m.
Proof. induction m; simpl; congruence. Qed.

Lemma digits2_pos_iter_xO m k :
  digits2_pos (Pos.iter xO m k) = (digits2_pos m + k)%positive.
Proof.
  induction k using Pos.peano_ind.
  - simpl. lia.
  - rewrite Pos.iter_succ. simpl. rewrite IHk. lia.
Qed.

Lemma Zpos_iter_xO m k : Zpos (Pos.iter xO m k) = (Zpos m * 2 ^ Zpos k)%Z.
Proof.
  induction k using Pos.peano_ind.
  - simpl. lia.
  - rewrite Pos.iter_succ, Pos2Z.inj_succ, Z.pow_succ_r by lia.
    rewrite Pos2Z.inj_xO, IHk. lia.
Qed.

(** A mantissa of 53 bits with an exponent in range is kept as it is. *)
Lemma round_aux_exact s m e :
  digits2_pos m = 53%positive → (-1074 <= e <= 971)%Z →
  binary_round_aux prec emax s (Zpos m) e loc_Exact = S754_finite s m e.
Proof.
  intros Hd He. unfold binary_round_aux, shr_fexp. simpl Zdigits2.
  rewrite Hd. unfold fexp, emin, prec, emax.
  replace (Z.max (53 + e - 53) (3 - 1024 - 53) - e)%Z with 0%Z by lia.
  simpl. rewrite Hd.
  replace (Z.max (53 + e - 53) (3 - 1024 - 53) - e)%Z with 0%Z by lia.
  simpl. destruct (Z.leb_spec e (1024 - 53)); [done|lia].
Qed.

Lemma fmul_half s m e :
  digits2_pos m = 53%positive → (-1073 <= e <= 972)%Z →
  fmul (S754_finite s m e) half = S754_finite s m (e - 1).
Proof.
  intros Hd He. unfold fmul, half, SFmul.
  rewrite xorb_false_r.
  replace (m * 4503599627370496)%positive with (Pos.iter xO m 52)
    by (rewrite Pos.mul_comm; reflexivity).
  assert (Hq : digits2_pos (Pos.iter xO m 52) = 105%positive).
  { rewrite digits2_pos_iter_xO, Hd. reflexivity. }
  unfold binary_round_aux, shr_fexp.
  change (Zdigits2 (Z.pos (Pos.iter xO m 52))) with (Zpos (digits2_pos (Pos.iter xO m 52))).
  rewrite Hq. unfold fexp, emin, prec, emax.
  replace (Z.max (105 + (e + -53) - 53) (3 - 1024 - 53) - (e + -53))%Z
    with 52%Z by lia.
  cbn -[Z.add Z.sub Z.max Z.leb]. rewrite Hd.
  replace (Z.max (53 + (e + -53 + 52) - 53) (3 - 1024 - 53) - (e + -53 + 52))%Z
    with 0%Z by lia.
  cbn -[Z.add Z.sub Z.max Z.leb].
  replace (e + -53 + 52)%Z with (e - 1)%Z by lia.
  destruct (Z.leb_spec (e - 1) (1024 - 53)); [done|lia].
Qed.

(** [float(n)] for a positive [n] below [2^53]: the mantissa is [n]
    shifted to 53 bits. *)
Lemma binary_round_small s m :
  (Zpos m < 2 ^ 53)%Z →
  ∃ mz ez, binary_round prec emax s m 0 = S754_finite s mz ez ∧
           digits2_pos mz = 53%positive ∧ (-52 <= ez <= 0)%Z ∧
           (Zpos mz = Zpos m * 2 ^ (- ez))%Z.
Proof.
  intros Hm.
  assert (Hd : (Zpos (digits2_pos m) <= 53)%Z).
  { rewrite digits2_pos_size.
    destruct (Z.le_gt_cases (Zpos (Pos.size m)) 53) as [|Hgt]; [done|exfalso].
    pose proof (Pos.size_le m) as Hle.
    assert (2 ^ 54 <= Zpos (2 ^ Pos.size m))%Z.
    { rewrite Pos2Z.inj_pow. apply Z.pow_le_mono_r; lia. }
    lia. }
  unfold binary_round, shl_align, fexp, emin, prec, emax.
  rewrite Z.add_0_r, Z.sub_0_r.
  rewrite Z.max_l by lia.
  destruct (Z.pos (digits2_pos m) - 53)%Z as [|p|p] eqn:Hp; [|lia|].
  - exists m, 0%Z. split; [|split; [lia|split; [lia|simpl; lia]]].
    apply round_aux_exact; [lia|lia].
  - exists (Pos.iter xO m p), (Z.neg p). 
    assert (Hd' : digits2_pos (Pos.iter xO m p) = 53%positive).
    { rewrite digits2_pos_iter_xO. lia. }
    split; [|split; [done|split; [lia|]]].
    + apply round_aux_exact; [done|lia].
    + rewrite Zpos_iter_xO. simpl. done.
Qed.

Lemma float_of_int_small n :
  (- 2 ^ 53 < n < 2 ^ 53)%Z → ∃ x, float_of_int n = Ok x.
Proof.
  intros Hn. unfold float_of_int, binary_normalize.
  destruct n as [|m|m].
  - by eexists.
  - destruct (binary_round_small false m) as (mz & ez & -> & _); [lia|].
    by eexists.
  - destruct (binary_round_small true m) as (mz & ez & -> & _); [lia|].
    by eexists.
Qed.

Lemma float_mul_int_small b n :
  (- 2 ^ 53 < n < 2 ^ 53)%Z → ∃ delay, float_mul_int b n = Ok delay.
Proof.
  intros Hn. unfold float_mul_int.
  destruct (float_of_int_small n Hn) as [x ->]. by eexists.
Qed.

Lemma half_of_round s m :
  (Zpos m < 2 ^ 53)%Z →
  ∃ x, binary_round prec emax s m 0 = x ∧ x ≠ S754_infinity true ∧
       x ≠ S754_infinity false ∧
       int_of_float (fmul x half) =
         Ok (if s then - (Zpos m / 2) else Zpos m / 2)%Z.
Proof.
  intros Hm.
  destruct (binary_round_small s m Hm) as (mz & ez & -> & Hd & He & Hmz).
  eexists. split; [done|]. split; [done|]. split; [done|].
  rewrite fmul_half by (done || lia).
  unfold int_of_float.
  destruct (ez - 1)%Z as [|p|p] eqn:Hp; [lia|lia|].
  rewrite Z.shiftr_div_pow2 by lia.
  replace (Z.pos mz `div` 2 ^ Z.pos p)%Z with (Z.pos m `div` 2)%Z; [done|].
  rewrite Hmz. replace (Z.pos p) with (1 + - ez)%Z by lia.
  replace (2 ^ (1 + - ez))%Z with (2 * 2 ^ (- ez))%Z
    by (rewrite Z.pow_add_r by lia; reflexivity).
  rewrite Z.div_mul_cancel_r; [done|lia|].
  apply Z.pow_nonzero; lia.
Qed.

(** On an [int] below [2^53] in magnitude, [int(n * 0.5)] is the
    quotient by two, truncated toward zero. *)
Lemma int_times_half_int n :
  (- 2 ^ 53 < n < 2 ^ 53)%Z →
  int_times_half (VInt n) = Ok (VInt (Z.quot n 2)).
Proof.
  intros Hn. unfold int_times_half, mul_float, float_of_int, binary_normalize.
  destruct n as [|m|m].
  - reflexivity.
  - destruct (half_of_round false m) as (x & -> & H1 & H2 & Hx); [lia|].
    destruct x as [| [] | |]; try done; rewrite Hx;
      by rewrite Z.quot_div_nonneg by lia.
  - destruct (half_of_round true m) as (x & -> & H1 & H2 & Hx); [lia|].
    change (Z.neg m) with (- Z.pos m)%Z.
    rewrite Z.quot_opp_l, Z.quot_div_nonneg by lia.
    destruct x as [| [] | |]; try done; by rewrite Hx.
Qed.
End PyNumFacts.

(** ** [call_tool] and the loop without the store agree *)

Section Link.
Context {World : Type}.
Variable verify_policy :
  World → string → string → dict → reply PolicyDecision * World.
Variable session_call_tool :
  World → string → dict → reply CallToolResult * World.
Variable self : MCPClientWithPassport.
Variable tool_name : string.
Variable retry_on_denial : bool.
Variable max_retries : Z.
Variable retry_backoff : spec_float.
Variable skip_verification : bool.

Implicit Types (st : state World) (d : dict) (cur : loc).

Lemma apply_fx_nil st cur d :
  store st !! cur = Some d →
  apply_fx st cur d {| created := []; emitted := []; after := world st |} = st.
Proof.
  intros H. destruct st as [s w t]. unfold apply_fx. simpl in *.
  rewrite !app_nil_r, list_insert_id by done. done.
Qed.

Lemma verify_pure_eq cur st d :
  store st !! cur = Some d →
  (if negb skip_verification
   then verify_current verify_policy self tool_name cur
   else ret tt) st =
  let '(r, fx) := verify_pure verify_policy self tool_name skip_verification
                    d (length (store st)) (world st) in
  (r, apply_fx st cur d fx).
Proof.
  intros H. unfold verify_pure.
  destruct skip_verification; simpl.
  { unfold ret. by rewrite apply_fx_nil. }
  unfold verify_current, bind, lift.
  destruct (_get_policy_id_for_tool tool_name) as [pid|e].
  2:{ by rewrite apply_fx_nil. }
  unfold read, alloc, await_verify_policy. simpl.
  rewrite H. simpl.
  rewrite lookup_app_r, Nat.sub_diag by lia. simpl.
  destruct (verify_policy _ _ _ _) as [answer w].
  unfold apply_fx. simpl. rewrite list_insert_id by done.
  destruct answer as [dec|msg]; simpl; [|done].
  unfold ret, raise. destruct (allow dec); [done|]. simpl.
  by destruct (denial_message dec).
Qed.

Lemma dispatch_pure_eq cur st d :
  store st !! cur = Some d →
  (if negb (session self)
   then raise (RuntimeError "Not connected to MCP server")
   else
     bind (read cur) (λ c,
     bind (alloc (attach_passport self c)) (λ args_with_passport,
     bind (await_session_call_tool session_call_tool tool_name args_with_passport) (λ result,
     bind (check_result result) (λ _, ret result))))) st =
  let '(r, fx) := dispatch_pure session_call_tool self tool_name
                    d (length (store st)) (world st) in
  (r, apply_fx st cur d fx).
Proof.
  intros H. unfold dispatch_pure.
  destruct (session self); simpl.
  2:{ unfold raise. by rewrite apply_fx_nil. }
  unfold bind, read, alloc, await_session_call_tool. simpl.
  rewrite H. simpl.
  rewrite lookup_app_r, Nat.sub_diag by lia. simpl.
  destruct (session_call_tool _ _ _) as [answer w].
  unfold apply_fx. simpl. rewrite list_insert_id by done.
  destruct answer as [result|msg]; simpl; [|done].
  unfold check_result, ret, raise.
  destruct (find_denial_text _); done.
Qed.

Lemma apply_fx_lookup st cur d d' fx :
  store st !! cur = Some d → store (apply_fx st cur d' fx) !! cur = Some d'.
Proof.
  intros H. unfold apply_fx. simpl.
  apply lookup_lt_Some in H as Hlt.
  rewrite lookup_app_l by (by rewrite length_insert).
  by apply list_lookup_insert_eq.
Qed.

Lemma apply_fx_length st cur d' fx :
  length (store (apply_fx st cur d' fx)) = (length (store st) + length (created fx))%nat.
Proof. unfold apply_fx. simpl. by rewrite length_app, length_insert. Qed.

Lemma apply_fx_apply_fx st cur d d' d'' fx fx' :
  store st !! cur = Some d →
  apply_fx (apply_fx st cur d' fx) cur d'' fx' =
  apply_fx st cur d''
    {| created := created fx ++ created fx';
       emitted := emitted fx ++ emitted fx';
       after := after fx' |}.
Proof.
  intros H. apply lookup_lt_Some in H as Hlt.
  unfold apply_fx. simpl. f_equal.
  - rewrite insert_app_l by (by rewrite length_insert).
    by rewrite list_insert_insert_eq, app_assoc.
  - by rewrite app_assoc.
Qed.

Lemma try_pure_eq cur st d :
  store st !! cur = Some d →
  try_body verify_policy session_call_tool self tool_name skip_verification cur st =
  let '(r, fx) := try_pure verify_policy session_call_tool self tool_name
                    skip_verification d (length (store st)) (world st) in
  (r, apply_fx st cur d fx).
Proof.
  intros H. unfold try_body, try_pure.
  unfold bind at 1. rewrite (verify_pure_eq cur st d H).
  destruct (verify_pure _ _ _ _ _ _ _) as [[[]|e] fx]; [|done].
  pose proof (apply_fx_lookup st cur d d fx H) as H'.
  rewrite (dispatch_pure_eq cur _ d H').
  rewrite apply_fx_length. simpl.
  destruct (dispatch_pure _ _ _ _ _ _) as [r' fx'].
  by rewrite (apply_fx_apply_fx st cur d).
Qed.

Lemma list_alter_lookup {A} (f : A → A) (l : list A) i x :
  l !! i = Some x → alter f i l = <[i := f x]> l.
Proof.
  intros H. rewrite list_insert_alter.
  apply list_alter_ext; [|done]. intros y Hy. congruence.
Qed.

Lemma halve_pure_eq cur st d k :
  store st !! cur = Some d →
  halve_item cur k st =
  match halve_entry d k with
  | Ok d' => (Ok tt, apply_fx st cur d'
                       {| created := []; emitted := []; after := world st |})
  | Raise e => (Raise e, st)
  end.
Proof.
  intros H. unfold halve_item, halve_entry, getitem, bind, read, lift. simpl.
  rewrite H. simpl. destruct (d !! k) as [v|]; [|done]. unfold ret.
  destruct (PyNum.int_times_half v) as [v'|e]; [|done].
  unfold setitem, apply_fx. simpl.
  by rewrite (list_alter_lookup _ _ _ d), !app_nil_r.
Qed.

Lemma adjust_pure_eq cur st d :
  store st !! cur = Some d →
  adjust_arguments tool_name cur st =
  match adjust_pure tool_name d with
  | Ok d' => (Ok tt, apply_fx st cur d'
                       {| created := []; emitted := []; after := world st |})
  | Raise e => (Raise e, st)
  end.
Proof.
  intros H. unfold adjust_arguments, adjust_pure, bind at 1, read. simpl.
  rewrite H. simpl.
  destruct (_ && _); [by apply halve_pure_eq|].
  destruct (_ && _); [by apply halve_pure_eq|].
  unfold ret. by rewrite apply_fx_nil.
Qed.

Lemma sleep_backoff_eq attempt st :
  sleep_backoff retry_backoff attempt st =
  match PyNum.float_mul_int retry_backoff (attempt + 1) with
  | Ok delay =>
      (Ok tt, {| store := store st; world := world st;
                 trace := trace st ++ [ESleep delay] |})
  | Raise e => (Raise e, st)
  end.
Proof.
  unfold sleep_backoff, bind, lift.
  by destruct (PyNum.float_mul_int _ _).
Qed.

Lemma handle_pure_eq cur st d attempt error :
  store st !! cur = Some d →
  handle tool_name retry_on_denial max_retries retry_backoff cur attempt error st =
  let '(c, d', evs) := handle_pure tool_name retry_on_denial max_retries
                         retry_backoff d attempt error in
  (c, apply_fx st cur d' {| created := []; emitted := evs; after := world st |}).
Proof.
  intros H. unfold handle, except_policy_denied, except_exception.
  unfold handle_pure, retries.
  destruct (is_policy_denied error).
  - destruct (_ && _); simpl.
    2:{ unfold raise. by rewrite apply_fx_nil. }
    unfold bind at 1. rewrite (adjust_pure_eq cur st d H).
    destruct (adjust_pure tool_name d) as [d'|e]; simpl.
    2:{ by rewrite apply_fx_nil. }
    unfold bind at 1. rewrite sleep_backoff_eq.
    destruct (PyNum.float_mul_int _ _) as [delay|e]; simpl; [|done].
    unfold ret, apply_fx. simpl. by rewrite !app_nil_r.
  - destruct (_ <? _)%Z; simpl.
    2:{ unfold raise. by rewrite apply_fx_nil. }
    unfold bind at 1. rewrite sleep_backoff_eq.
    destruct (PyNum.float_mul_int _ _) as [delay|e]; simpl.
    2:{ by rewrite apply_fx_nil. }
    unfold ret, apply_fx. simpl. by rewrite !app_nil_r, list_insert_id.
Qed.

Lemma step_pure_eq cur st d attempt :
  store st !! cur = Some d →
  loop_body verify_policy session_call_tool self tool_name retry_on_denial
    max_retries retry_backoff skip_verification cur attempt st =
  let '(c, d', fx) := step_pure verify_policy session_call_tool self tool_name
                        retry_on_denial max_retries retry_backoff
                        skip_verification d (length (store st)) (world st) attempt in
  (c, apply_fx st cur d' fx).
Proof.
  intros H. unfold loop_body, step_pure, bind, try.
  rewrite (try_pure_eq cur st d H).
  destruct (try_pure _ _ _ _ _ _ _ _) as [[result|error] fx]; [done|].
  pose proof (apply_fx_lookup st cur d d fx H) as H'.
  rewrite (handle_pure_eq cur _ d attempt error H').
  destruct (handle_pure _ _ _ _ _ _ _) as [[c d'] evs].
  rewrite (apply_fx_apply_fx st cur d) by done. simpl.
  by rewrite app_nil_r.
Qed.

Lemma run_pure_eq cur attempts : ∀ last_error st d,
  store st !! cur = Some d →
  for_attempts verify_policy session_call_tool self tool_name retry_on_denial
    max_retries retry_backoff skip_verification cur attempts last_error st =
  let '(r, d', fx) := run_pure verify_policy session_call_tool self tool_name
                        retry_on_denial max_retries retry_backoff
                        skip_verification attempts last_error
                        d (length (store st)) (world st) in
  (r, apply_fx st cur d' fx).
Proof.
  induction attempts as [|attempt rest IH]; intros last_error st d H; simpl.
  { unfold raise. by rewrite apply_fx_nil. }
  unfold bind. rewrite (step_pure_eq cur st d attempt H).
  destruct (step_pure _ _ _ _ _ _ _ _ _ _ _ _) as [[c d'] fx].
  destruct c as [[result|error]|e]; [done| |done].
  pose proof (apply_fx_lookup st cur d d' fx H) as H'.
  rewrite (IH _ _ d' H'), apply_fx_length. simpl.
  destruct (run_pure _ _ _ _ _ _ _ _ _ _ _ _ _) as [[r d''] fx'].
  by rewrite (apply_fx_apply_fx st cur d).
Qed.

Lemma call_tool_pure_eq args st :
  aport_client self = true →
  call_tool verify_policy session_call_tool self tool_name retry_on_denial
    max_retries retry_backoff skip_verification args st =
  let d := default ∅ (store st !! args) in
  let '(r, d', fx) := call_pure verify_policy session_call_tool self tool_name
                        retry_on_denial max_retries retry_backoff
                        skip_verification d (length (store st)) (world st) in
  (r, {| store := store st ++ d' :: created fx;
         world := after fx;
         trace := trace st ++ emitted fx |}).
Proof.
  intros Hc. unfold call_tool, call_pure. rewrite Hc. simpl.
  unfold bind, read, alloc. simpl.
  set (d := default ∅ (store st !! args)).
  set (st1 := {| store := store st ++ [d]; world := world st; trace := trace st |}).
  assert (H : store st1 !! length (store st) = Some d).
  { simpl. by rewrite lookup_app_r, Nat.sub_diag by lia. }
  rewrite (run_pure_eq _ _ None st1 d H). simpl.
  rewrite length_app. simpl. rewrite Nat.add_1_r.
  destruct (run_pure _ _ _ _ _ _ _ _ _ _ _ _ _) as [[r d'] fx].
  unfold apply_fx. simpl. f_equal. f_equal.
  rewrite insert_app_r_alt, Nat.sub_diag by lia. simpl.
  by rewrite <- app_assoc.
Qed.
End Link.

(** ** The context builder and the adjustment *)

(** Every entry of the caller's arguments is in the context, unchanged. *)
Lemma build_policy_context_args self tool_name (args : dict) k v :
  args !! k = Some v → _build_policy_context self tool_name args !! k = Some v.
Proof.
  intros H. unfold _build_policy_context, identity_then_args, get_default.
  assert (Hu : (args ∪ {["agent_id" := VStr (agent_id self)]}) !! k = Some v).
  { by apply lookup_union_Some_l. }
  repeat case_match; rewrite ?lookup_insert; repeat case_decide;
    simplify_eq; rewrite ?H; done.
Qed.

(** The identity is in the context when the caller supplies no
    [agent_id] of their own. *)
Lemma build_policy_context_identity self tool_name (args : dict) :
  args !! "agent_id" = None →
  _build_policy_context self tool_name args !! "agent_id"
    = Some (VStr (agent_id self)).
Proof.
  intros H. unfold _build_policy_context, identity_then_args.
  assert (Hu : (args ∪ {["agent_id" := VStr (agent_id self)]}) !! "agent_id"
               = Some (VStr (agent_id self))).
  { rewrite lookup_union_r by done. by rewrite lookup_singleton_eq. }
  repeat case_match; rewrite ?lookup_insert_ne by done; done.
Qed.

(** The enrichment fills a key only with the caller's value or, when the
    caller omitted the key, with the default. *)
Lemma build_policy_context_enriched self tool_name (args : dict) k dflt :
  (tool_name = "merge_pull_request" ∧
     (k = "base_branch" ∧ dflt = VStr "main" ∨ k = "pr_size_kb" ∧ dflt = VInt 250)) ∨
  (tool_name = "process_refund" ∧ k = "reason_code" ∧ dflt = VStr "customer_request") →
  _build_policy_context self tool_name args !! k = Some (default dflt (args !! k)).
Proof.
  unfold _build_policy_context, get_default.
  intros [[-> [[-> ->]|[-> ->]]]|[-> [-> ->]]]; simpl.
  - rewrite lookup_insert_ne by done. by rewrite lookup_insert_eq.
  - by rewrite lookup_insert_eq.
  - by rewrite lookup_insert_eq.
Qed.

(** The fields that a denial retry reduces. *)
Lemma adjust_pure_reducible tool_name field (d : dict) v :
  (tool_name = "process_refund" ∧ field = "amount") ∨
  (tool_name = "export_customer_data" ∧ field = "limit") →
  d !! field = Some (VInt v) → (0 <= v < 2 ^ 53)%Z →
  adjust_pure tool_name d = Ok (<[field := VInt (v / 2)]> d).
Proof.
  intros Ht Hd Hv. unfold adjust_pure, halve_entry.
  destruct Ht as [[-> ->]|[-> ->]]; simpl; rewrite Hd; simpl.
  - rewrite PyNumFacts.int_times_half_int by lia.
    by rewrite Z.quot_div_nonneg by lia.
  - rewrite PyNumFacts.int_times_half_int by lia.
    by rewrite Z.quot_div_nonneg by lia.
Qed.

(** The adjustment touches no key but [amount] and [limit]. *)
Lemma adjust_pure_other tool_name (d d' : dict) k :
  adjust_pure tool_name d = Ok d' → k ≠ "amount" → k ≠ "limit" →
  d' !! k = d !! k.
Proof.
  unfold adjust_pure, halve_entry. intros H Ha Hl.
  repeat case_match; simplify_eq; rewrite ?lookup_insert_ne by done; done.
Qed.

Lemma reducible_mapped tool_name field :
  (tool_name = "process_refund" ∧ field = "amount") ∨
  (tool_name = "export_customer_data" ∧ field = "limit") →
  ∃ policy_id, _get_policy_id_for_tool tool_name = Ok policy_id.
Proof. intros [[-> _]|[-> _]]; by eexists. Qed.

Lemma unmapped_raises tool_name :
  policy_lookup tool_name = None →
  ∃ msg, _get_policy_id_for_tool tool_name = Raise (ValueError msg).
Proof. intros H. unfold _get_policy_id_for_tool. rewrite H. by eexists. Qed.

(** ** The message of a denial *)

Lemma reason_messages_raises rs e :
  reason_messages rs = Raise e →
  e = AttributeError "'dict' object has no attribute 'message'".
Proof.
  induction rs as [|[r|d] rs IH]; simpl; [done| |by intros [= <-]].
  destruct (reason_messages rs) as [ms|e']; [done|].
  intros [= <-]. by apply IH.
Qed.

Lemma denial_message_raises decision e :
  denial_message decision = Raise e →
  e = AttributeError "'dict' object has no attribute 'message'".
Proof.
  unfold denial_message. destruct (reasons decision) as [|r rs]; [done|].
  destruct (reason_messages (r :: rs)) as [ms|e'] eqn:Hms; [done|].
  intros [= <-]. by eapply reason_messages_raises.
Qed.

Lemma reason_messages_objects rs :
  Forall (λ r, ∃ r', r = ReasonObject r') rs ↔
  ∃ ms, reason_messages rs = Ok ms.
Proof.
  induction rs as [|r rs IH]; simpl.
  { split; [by eexists|constructor]. }
  split.
  - intros [[r' ->] Hrs]%Forall_cons. apply IH in Hrs as [ms ->]. by eexists.
  - destruct r as [r'|d]; simpl; [|by intros [ms ?]].
    destruct (reason_messages rs) as [ms|e]; [|by intros [ms' ?]].
    intros _. constructor; [by eexists|]. apply IH. by eexists.
Qed.

(** The message of a denial can be built exactly when all the reasons
    of the decision have a message. *)
Lemma denial_message_builds decision :
  reasons_have_messages decision ↔ ∃ msg, denial_message decision = Ok msg.
Proof.
  unfold reasons_have_messages, denial_message.
  destruct (reasons decision) as [|r rs]; [split; [by eexists|constructor]|].
  rewrite reason_messages_objects.
  destruct (reason_messages (r :: rs)) as [ms|e].
  - split; intros _; by eexists.
  - split; intros [x Hx]; discriminate Hx.
Qed.

(** A decision with a mapping among its reasons has no message. *)
Lemma denial_message_dict decision d :
  ReasonDict d ∈ reasons decision →
  denial_message decision =
    Raise (AttributeError "'dict' object has no attribute 'message'").
Proof.
  intros Hin. destruct (denial_message decision) as [msg|e] eqn:Hmsg.
  - assert (Hall : reasons_have_messages decision)
      by (apply denial_message_builds; by eexists).
    unfold reasons_have_messages in Hall. rewrite Forall_forall in Hall.
    by destruct (Hall _ Hin).
  - by rewrite (denial_message_raises _ _ Hmsg).
Qed.

Lemma reason_dict_no_messages decision reason :
  ReasonDict reason ∈ reasons decision → ¬ reasons_have_messages decision.
Proof.
  intros Hin Hall. unfold reasons_have_messages in Hall.
  rewrite Forall_forall in Hall. by destruct (Hall _ Hin).
Qed.

Lemma decision_outcome_ok answer :
  decision_outcome answer = Ok tt →
  ∃ decision, answer = Replied decision ∧ allow decision = true.
Proof.
  destruct answer as [decision|msg]; simpl; [|done].
  destruct (allow decision) eqn:Hallow; [by eexists|].
  by destruct (denial_message decision).
Qed.

Lemma decision_outcome_denied decision msg :
  allow decision = false → denial_message decision = Ok msg →
  decision_outcome (Replied decision) =
    Raise (PolicyDeniedError msg (DeniedByDecision decision)).
Proof. intros Hallow Hmsg. simpl. by rewrite Hallow, Hmsg. Qed.

Lemma decision_outcome_unreported decision e :
  allow decision = false → denial_message decision = Raise e →
  decision_outcome (Replied decision) = Raise e.
Proof. intros Hallow Hmsg. simpl. by rewrite Hallow, Hmsg. Qed.

(** ** Projections of a trace, event by event *)

Lemma verified_contexts_verify agent policy_id l context answer tr :
  verified_contexts (EVerify agent policy_id l context answer :: tr)
    = context :: verified_contexts tr.
Proof. reflexivity. Qed.

Lemma verified_contexts_dispatch t l arguments answer tr :
  verified_contexts (ECallTool t l arguments answer :: tr) = verified_contexts tr.
Proof. reflexivity. Qed.

Lemma verified_contexts_sleep delay tr :
  verified_contexts (ESleep delay :: tr) = verified_contexts tr.
Proof. reflexivity. Qed.

Lemma dispatched_arguments_verify agent policy_id l context answer tr :
  dispatched_arguments (EVerify agent policy_id l context answer :: tr)
    = dispatched_arguments tr.
Proof. reflexivity. Qed.

Lemma dispatched_arguments_dispatch t l arguments answer tr :
  dispatched_arguments (ECallTool t l arguments answer :: tr)
    = arguments :: dispatched_arguments tr.
Proof. reflexivity. Qed.

Lemma dispatched_arguments_sleep delay tr :
  dispatched_arguments (ESleep delay :: tr) = dispatched_arguments tr.
Proof. reflexivity. Qed.

Lemma sleeps_verify agent policy_id l context answer tr :
  sleeps (EVerify agent policy_id l context answer :: tr) = sleeps tr.
Proof. reflexivity. Qed.

Lemma sleeps_dispatch t l arguments answer tr :
  sleeps (ECallTool t l arguments answer :: tr) = sleeps tr.
Proof. reflexivity. Qed.

Lemma sleeps_sleep delay tr : sleeps (ESleep delay :: tr) = delay :: sleeps tr.
Proof. reflexivity. Qed.

(** Push the projections through the events at the head of a trace. *)
Ltac projections :=
  rewrite ?verified_contexts_verify, ?verified_contexts_dispatch,
    ?verified_contexts_sleep, ?dispatched_arguments_verify,
    ?dispatched_arguments_dispatch, ?dispatched_arguments_sleep,
    ?sleeps_verify, ?sleeps_dispatch, ?sleeps_sleep.

(** ** The scan for the server-side denial *)

(** The scan finds a text whenever some item carries the marker, and only
    then. *)
Lemma find_denial_text_marker items :
  (∃ item, item ∈ items ∧ denial_item item) ↔
  ∃ text, find_denial_text items = Some text ∧
          contains "Policy denied" text = true.
Proof.
  induction items as [|item items IH]; simpl.
  { split; [intros (item & Hin & _); by apply elem_of_nil in Hin|].
    by intros (text & ? & _). }
  split.
  - intros (item' & Hin & Hitem).
    destruct item as [d|cls].
    + case_bool_decide as Htype.
      * destruct (contains "Policy denied" (default EmptyString (d !! "text"))) eqn:Hc;
          [by eexists|].
        apply IH. apply elem_of_cons in Hin as [->|Hin]; [|by eauto].
        destruct Hitem as (d' & text & [= <-] & _ & Htext & Hc').
        rewrite Htext in Hc. simpl in Hc. congruence.
      * apply IH. apply elem_of_cons in Hin as [->|Hin]; [|by eauto].
        by destruct Hitem as (d' & text & [= <-] & Htype' & _).
    + apply IH. apply elem_of_cons in Hin as [->|Hin]; [|by eauto].
      by destruct Hitem as (d' & text & ? & _).
  - intros (text & Hfind & Hc).
    assert (Hrest : find_denial_text items = Some text →
                    ∃ item', item' ∈ item :: items ∧ denial_item item').
    { intros H. destruct IH as [_ IH].
      destruct IH as (item' & Hin & Hitem); [by eauto|].
      exists item'. split; [by right|done]. }
    destruct item as [d|cls]; [|by apply Hrest].
    case_bool_decide as Htype; [|by apply Hrest].
    destruct (contains "Policy denied" (default EmptyString (d !! "text"))) eqn:Hc';
      [|by apply Hrest].
    injection Hfind as <-.
    exists (CDict d). split; [by left|].
    destruct (d !! "text") as [text|] eqn:Htext; [|done].
    by exists d, text.
Qed.

(** ** What a run emits *)

Section Runs.
Context {World : Type}.
Variable verify_policy :
  World → string → string → dict → reply PolicyDecision * World.
Variable session_call_tool :
  World → string → dict → reply CallToolResult * World.
Variable self : MCPClientWithPassport.
Variable tool_name : string.
Variable retry_on_denial : bool.
Variable max_retries : Z.
Variable retry_backoff : spec_float.
Variable skip_verification : bool.

Implicit Types (st : state World) (d : dict) (cur : loc) (w : World).

Local Abbreviation step := (step_pure verify_policy session_call_tool self tool_name
  retry_on_denial max_retries retry_backoff skip_verification).
Local Abbreviation run := (run_pure verify_policy session_call_tool self tool_name
  retry_on_denial max_retries retry_backoff skip_verification).
Local Abbreviation tryp := (try_pure verify_policy session_call_tool self tool_name
  skip_verification).
Local Abbreviation handlep := (handle_pure tool_name retry_on_denial max_retries
  retry_backoff).
Local Abbreviation call := (call_tool verify_policy session_call_tool self tool_name
  retry_on_denial max_retries retry_backoff skip_verification).
Local Abbreviation callp := (call_pure verify_policy session_call_tool self tool_name
  retry_on_denial max_retries retry_backoff skip_verification).

(** The events of a call are those of the loop without the store. *)
Lemma call_tool_new_events args st :
  aport_client self = true →
  new_events st (call args st).2 =
  emitted (callp (default ∅ (store st !! args)) (length (store st)) (world st)).2.
Proof.
  intros Hc. rewrite call_tool_pure_eq by done. simpl.
  destruct (callp _ _ _) as [[r d'] fx]. simpl.
  unfold new_events. simpl. by rewrite drop_app_length.
Qed.

(** The outcome of a call is that of the loop without the store. *)
Lemma call_tool_outcome args st :
  aport_client self = true →
  (call args st).1 =
  (callp (default ∅ (store st !! args)) (length (store st)) (world st)).1.1.
Proof.
  intros Hc. rewrite call_tool_pure_eq by done. simpl.
  by destruct (callp _ _ _) as [[r d'] fx].
Qed.

(** The store after a call: the objects that were there, then the
    working copy, then the objects handed to the collaborators. *)
Lemma call_tool_store args st :
  aport_client self = true →
  store (call args st).2 =
  store st ++
    (callp (default ∅ (store st !! args)) (length (store st)) (world st)).1.2 ::
    created (callp (default ∅ (store st !! args)) (length (store st)) (world st)).2.
Proof.
  intros Hc. rewrite call_tool_pure_eq by done. simpl.
  by destruct (callp _ _ _) as [[r d'] fx].
Qed.

Lemma call_tool_no_client args st :
  aport_client self = false →
  call args st = (Raise (RuntimeError "APort client not initialized"), st).
Proof. intros Hc. unfold call_tool. by rewrite Hc. Qed.

Lemma new_events_same st : new_events st st = [].
Proof. unfold new_events. by rewrite drop_all. Qed.

(** A property of the entries of the working arguments that every step
    keeps, and a property of event lists that holds of each step and is
    closed under concatenation, hold of every run. *)
Lemma run_pure_emitted (Inv : dict → Prop) (Q : list event → Prop) :
  Q [] → (∀ a b, Q a → Q b → Q (a ++ b)) →
  (∀ d n w attempt, Inv d →
     Q (emitted (step d n w attempt).2) ∧ Inv (step d n w attempt).1.2) →
  ∀ attempts last_error d n w, Inv d →
    Q (emitted (run attempts last_error d n w).2) ∧
    Inv (run attempts last_error d n w).1.2.
Proof.
  intros Hnil Happ Hstep attempts.
  induction attempts as [|attempt rest IH]; intros last_error d n w Hd; simpl.
  { done. }
  specialize (Hstep d n w attempt Hd).
  destruct (step d n w attempt) as [[c d'] fx]. simpl in Hstep.
  destruct Hstep as [HQ HI].
  destruct c as [[result|error]|e]; simpl; [done| |done].
  specialize (IH (Some error) d' (n + length (created fx))%nat (after fx) HI).
  destruct (run _ _ _ _ _) as [[r d''] fx']. simpl in *.
  destruct IH as [HQ' HI']. split; [by apply Happ|done].
Qed.

(** The events of the handlers: nothing, or one sleep. *)
Lemma handle_pure_emitted d attempt error :
  (handlep d attempt error).2 = [] ∨
  ∃ delay, PyNum.float_mul_int retry_backoff (attempt + 1) = Ok delay ∧
           (attempt < max_retries - 1)%Z ∧
           (handlep d attempt error).2 = [ESleep delay] ∧
           (handlep d attempt error).1.1 = Ok (Continue error).
Proof.
  unfold handle_pure.
  destruct (retries _ _ _ _) eqn:Hr; [|by left].
  assert (attempt < max_retries - 1)%Z.
  { unfold retries in Hr. destruct (is_policy_denied error).
    - apply andb_true_iff in Hr as [_ Hr]. lia.
    - lia. }
  destruct (if is_policy_denied error then _ else _); [|by left].
  destruct (PyNum.float_mul_int _ _) as [delay|e]; [|by left].
  right. by exists delay.
Qed.

(** *** Gating *)

Lemma gated_app tr tr' :
  gated self tool_name tr → gated self tool_name tr' →
  gated self tool_name (tr ++ tr').
Proof.
  intros H H'. induction H; simpl; [done|..].
  - by constructor.
  - by constructor.
  - by apply gated_dispatch.
Qed.

Lemma gated_lookup tr i t l a answer :
  gated self tool_name tr →
  tr !! i = Some (ECallTool t l a answer) →
  ∃ j policy_id lc d decision,
    i = S j ∧
    tr !! j = Some (EVerify (agent_id self) policy_id lc
                      (_build_policy_context self tool_name d)
                      (Replied decision)) ∧
    _get_policy_id_for_tool tool_name = Ok policy_id ∧
    allow decision = true ∧
    t = tool_name ∧ a = attach_passport self d.
Proof.
  intros H. revert i.
  induction H as [|delay tr H IH|agent pid lc context ans tr H IH
                  |pid lc l' d dec ans tr Hpid Hallow H IH]; intros i Hi.
  - done.
  - destruct i as [|i]; [done|]. simpl in Hi.
    destruct (IH i Hi) as (j & pid & lc & d & dec & -> & Hj & ?).
    by exists (S j), pid, lc, d, dec.
  - destruct i as [|i]; [done|]. simpl in Hi.
    destruct (IH i Hi) as (j & pid' & lc' & d & dec & -> & Hj & ?).
    by exists (S j), pid', lc', d, dec.
  - destruct i as [|[|i]]; [done| |].
    + simpl in Hi. injection Hi as <- <- <- <-.
      by exists 0%nat, pid, lc, d, dec.
    + simpl in Hi.
      destruct (IH i Hi) as (j & pid' & lc' & d' & dec' & -> & Hj & ?).
      by exists (S (S j)), pid', lc', d', dec'.
Qed.

Lemma step_pure_gated d n w attempt :
  skip_verification = false →
  gated self tool_name (emitted (step d n w attempt).2).
Proof.
  intros Hskip. unfold step_pure, try_pure, verify_pure. rewrite Hskip.
  assert (Hh : ∀ error, gated self tool_name (handlep d attempt error).2).
  { intros error.
    destruct (handle_pure_emitted d attempt error) as [->|(delay & _ & _ & -> & _)];
      repeat constructor. }
  destruct (_get_policy_id_for_tool tool_name) as [pid|e] eqn:Hpid.
  2:{ specialize (Hh e). destruct (handlep d attempt e) as [[c d'] evs]. done. }
  destruct (verify_policy _ _ _ _) as [answer w'].
  destruct (decision_outcome answer) as [[]|error] eqn:Hout.
  2:{ specialize (Hh error).
      destruct (handlep _ _ _) as [[c d'] evs]. simpl.
      by apply gated_verify. }
  apply decision_outcome_ok in Hout as (dec & -> & Hallow). cbn [created length after].
  unfold dispatch_pure. destruct (session self).
  2:{ match goal with |- context [handlep d attempt ?e] => specialize (Hh e);
        destruct (handlep d attempt e) as [[c d'] evs] end.
      simpl. by apply gated_verify. }
  destruct (session_call_tool _ _ _) as [answer w''].
  destruct (result_outcome answer) as [result|error]; simpl.
  { apply gated_dispatch; [done|done|constructor]. }
  specialize (Hh error). destruct (handlep d attempt error) as [[c d'] evs].
  simpl. by apply gated_dispatch.
Qed.

Lemma run_pure_gated attempts last_error d n w :
  skip_verification = false →
  gated self tool_name (emitted (run attempts last_error d n w).2).
Proof.
  intros Hskip.
  apply (run_pure_emitted (λ _, True) (gated self tool_name)); try done.
  - constructor.
  - apply gated_app.
  - intros. split; [by apply step_pure_gated|done].
Qed.

Lemma call_tool_gated args st :
  skip_verification = false →
  gated self tool_name (new_events st (call args st).2).
Proof.
  intros Hskip. destruct (aport_client self) eqn:Hc.
  - rewrite call_tool_new_events by done. by apply run_pure_gated.
  - rewrite call_tool_no_client by done. simpl. rewrite new_events_same.
    constructor.
Qed.

(** *** The shape of a step *)

Lemma try_pure_events d n w : Forall (attempt_event self tool_name d) (emitted (tryp d n w).2).
Proof.
  unfold try_pure, verify_pure, dispatch_pure.
  repeat case_match; simplify_eq; simpl; repeat constructor.
Qed.

Lemma handle_pure_entries d attempt error :
  (handlep d attempt error).1.2 = d ∨
  adjust_pure tool_name d = Ok (handlep d attempt error).1.2.
Proof.
  unfold handle_pure. repeat case_match; simplify_eq; simpl; auto.
Qed.

(** A step emits the events of an attempt, then at most one sleep, and
    leaves the working arguments as they were or adjusted. *)
Lemma step_pure_shape d n w attempt :
  ∃ evs zs,
    emitted (step d n w attempt).2 = evs ++ (ESleep <$> zs) ∧
    Forall (attempt_event self tool_name d) evs ∧
    ((step d n w attempt).1.2 = d ∨
     adjust_pure tool_name d = Ok (step d n w attempt).1.2) ∧
    (zs = [] ∧ (∀ error, (step d n w attempt).1.1 ≠ Ok (Continue error)) ∨
     ∃ delay error,
       zs = [delay] ∧
       PyNum.float_mul_int retry_backoff (attempt + 1) = Ok delay ∧
       (attempt < max_retries - 1)%Z ∧
       (step d n w attempt).1.1 = Ok (Continue error)).
Proof.
  unfold step_pure.
  pose proof (try_pure_events d n w) as Hev.
  assert (Hno : ∀ (c : res control) d' (fx : effects World),
    Forall (attempt_event self tool_name d) (emitted fx) →
    (d' = d ∨ adjust_pure tool_name d = Ok d') →
    (∀ error, c ≠ Ok (Continue error)) →
    ∃ evs zs, emitted fx = evs ++ (ESleep <$> zs) ∧
      Forall (attempt_event self tool_name d) evs ∧
      (d' = d ∨ adjust_pure tool_name d = Ok d') ∧
      (zs = [] ∧ (∀ error, c ≠ Ok (Continue error)) ∨
       ∃ delay error, zs = [delay] ∧
         PyNum.float_mul_int retry_backoff (attempt + 1) = Ok delay ∧
         (attempt < max_retries - 1)%Z ∧ c = Ok (Continue error))).
  { intros c d' fx ???. exists (emitted fx), []. simpl.
    rewrite app_nil_r. split_and!; [done..|]. by left. }
  destruct (tryp d n w) as [[result|error] fx]; simpl in *.
  { apply Hno; auto. }
  pose proof (handle_pure_entries d attempt error) as Hd.
  pose proof (handle_pure_emitted d attempt error) as He.
  unfold handle_pure in *.
  destruct (retries _ _ _ _).
  2:{ simpl in *. rewrite app_nil_r.
      apply (Hno _ _ {| created := created fx; emitted := emitted fx;
                        after := after fx |}); auto. }
  destruct (if is_policy_denied error then _ else _) as [d'|e]; simpl in *.
  2:{ rewrite app_nil_r.
      apply (Hno _ _ {| created := created fx; emitted := emitted fx;
                        after := after fx |}); auto. }
  destruct (PyNum.float_mul_int _ _) as [delay|e]; simpl in *.
  2:{ rewrite app_nil_r.
      apply (Hno _ _ {| created := created fx; emitted := emitted fx;
                        after := after fx |}); auto. }
  destruct He as [?|(delay' & ? & ? & ? & ?)]; [done|]. simplify_eq.
  exists (emitted fx), [delay']. split; [done|]. split; [done|]. split; [done|].
  right. by exists delay', error.
Qed.

(** *** Sleeps *)

Lemma sleeps_app tr tr' : sleeps (tr ++ tr') = sleeps tr ++ sleeps tr'.
Proof. apply omap_app. Qed.

Lemma sleeps_attempt_events d evs :
  Forall (attempt_event self tool_name d) evs → sleeps evs = [].
Proof.
  induction 1 as [|e evs He _ IH]; [done|].
  destruct e; simpl in *; done.
Qed.

Lemma sleeps_fmap zs : sleeps (ESleep <$> zs) = zs.
Proof. induction zs as [|z zs IH]; [done|]. cbn. by f_equal. Qed.

(** The sleeps of a run are those of its first [k] attempts, one each. *)
Lemma run_pure_sleeps attempts : ∀ last_error d n w,
  ∃ k, Forall2 (λ attempt delay,
                  PyNum.float_mul_int retry_backoff (attempt + 1) = Ok delay ∧
                  (attempt < max_retries - 1)%Z)
         (take k attempts) (sleeps (emitted (run attempts last_error d n w).2)).
Proof.
  induction attempts as [|attempt rest IH]; intros last_error d n w; simpl.
  { exists 0%nat. constructor. }
  destruct (step_pure_shape d n w attempt)
    as (evs & zs & Hem & Hevs & _ & Hzs).
  destruct (step d n w attempt) as [[c d'] fx]. simpl in *.
  assert (Hs : sleeps (emitted fx) = zs).
  { by rewrite Hem, sleeps_app, (sleeps_attempt_events d), sleeps_fmap. }
  destruct Hzs as [[-> Hc]|(delay & error & -> & Hdelay & Hlt & ->)].
  - exists 0%nat. destruct c as [[result|error]|e]; simpl.
    + rewrite Hs. constructor.
    + by destruct (Hc error).
    + rewrite Hs. constructor.
  - destruct (IH (Some error) d' (n + length (created fx))%nat (after fx))
      as [k Hk].
    destruct (run rest _ _ _ _) as [[r d''] fx']. simpl in *.
    exists (S k). rewrite sleeps_app, Hs. simpl. by constructor.
Qed.

(** *** Attempts *)

Lemma try_pure_counts d n w :
  (length (verified_contexts (emitted (tryp d n w).2)) ≤ 1)%nat ∧
  (length (dispatched_arguments (emitted (tryp d n w).2)) ≤ 1)%nat.
Proof.
  unfold try_pure, verify_pure, dispatch_pure.
  repeat case_match; simplify_eq; simpl; lia.
Qed.

Lemma step_pure_counts d n w attempt :
  (length (verified_contexts (emitted (step d n w attempt).2)) ≤ 1)%nat ∧
  (length (dispatched_arguments (emitted (step d n w attempt).2)) ≤ 1)%nat.
Proof.
  unfold step_pure. pose proof (try_pure_counts d n w) as Hc.
  destruct (tryp d n w) as [[result|error] fx]; simpl in *; [done|].
  pose proof (handle_pure_emitted d attempt error) as He.
  destruct (handlep d attempt error) as [[c d'] evs]. simpl in *.
  unfold verified_contexts, dispatched_arguments in *.
  rewrite !omap_app, !length_app.
  destruct He as [->|(delay & _ & _ & -> & _)]; simpl; lia.
Qed.

(** A run verifies and dispatches at most once per attempt. *)
Lemma run_pure_counts attempts : ∀ last_error d n w,
  (length (verified_contexts (emitted (run attempts last_error d n w).2))
     ≤ length attempts)%nat ∧
  (length (dispatched_arguments (emitted (run attempts last_error d n w).2))
     ≤ length attempts)%nat.
Proof.
  induction attempts as [|attempt rest IH]; intros last_error d n w; simpl.
  { done. }
  pose proof (step_pure_counts d n w attempt) as Hc.
  destruct (step d n w attempt) as [[c d'] fx]. simpl in *.
  destruct c as [[result|error]|e]; simpl; [lia| |lia].
  specialize (IH (Some error) d' (n + length (created fx))%nat (after fx)).
  destruct (run rest _ _ _ _) as [[r d''] fx']. simpl in *.
  unfold verified_contexts, dispatched_arguments in *.
  rewrite !omap_app, !length_app. lia.
Qed.

(** *** Steps with a known outcome *)

(** A tool without a policy: nothing is verified or dispatched. *)
Lemma step_pure_unmapped d n w attempt e :
  skip_verification = false →
  _get_policy_id_for_tool tool_name = Raise e →
  step d n w attempt =
  let '(c, d', evs) := handlep d attempt e in
  (c, d', {| created := []; emitted := evs; after := w |}).
Proof.
  intros Hskip Hpid. unfold step_pure, try_pure, verify_pure.
  rewrite Hskip, Hpid. by destruct (handlep d attempt e) as [[c d'] evs].
Qed.

(** A verification that ends with an exception: the context is created
    and submitted, and the handlers take over. *)
Lemma step_pure_refused d n w attempt policy_id answer w' error :
  skip_verification = false →
  _get_policy_id_for_tool tool_name = Ok policy_id →
  verify_policy w (agent_id self) policy_id
    (_build_policy_context self tool_name d) = (answer, w') →
  decision_outcome answer = Raise error →
  step d n w attempt =
  let '(c, d', evs) := handlep d attempt error in
  (c, d',
   {| created := [_build_policy_context self tool_name d];
      emitted := EVerify (agent_id self) policy_id n
                   (_build_policy_context self tool_name d) answer :: evs;
      after := w' |}).
Proof.
  intros Hskip Hpid Hv Hout. unfold step_pure, try_pure, verify_pure.
  rewrite Hskip, Hpid, Hv, Hout.
  by destruct (handlep d attempt _) as [[c d'] evs].
Qed.

(** A denied verification whose message can be built. *)
Lemma step_pure_denied d n w attempt policy_id decision w' msg :
  skip_verification = false →
  _get_policy_id_for_tool tool_name = Ok policy_id →
  verify_policy w (agent_id self) policy_id
    (_build_policy_context self tool_name d) = (Replied decision, w') →
  allow decision = false → denial_message decision = Ok msg →
  step d n w attempt =
  let '(c, d', evs) :=
    handlep d attempt (PolicyDeniedError msg (DeniedByDecision decision)) in
  (c, d',
   {| created := [_build_policy_context self tool_name d];
      emitted := EVerify (agent_id self) policy_id n
                   (_build_policy_context self tool_name d)
                   (Replied decision) :: evs;
      after := w' |}).
Proof.
  intros Hskip Hpid Hv Hallow Hmsg.
  apply step_pure_refused; [done..|]. by apply decision_outcome_denied.
Qed.

Lemma range_length m : length (range m) = Z.to_nat m.
Proof. unfold range. by rewrite length_fmap, length_seq. Qed.

Lemma range_lookup m j a : range m !! j = Some a → a = Z.of_nat j.
Proof.
  unfold range. rewrite list_lookup_fmap. intros H.
  destruct (seq 0 (Z.to_nat m) !! j) as [x|] eqn:Hx; [|done].
  apply lookup_seq in Hx as [-> _]. simpl in H. by injection H.
Qed.

Lemma range_pos m : (1 <= m)%Z → range m = 0%Z :: (Z.of_nat <$> seq 1 (Z.to_nat (m - 1))).
Proof.
  intros Hm. unfold range.
  replace (Z.to_nat m) with (S (Z.to_nat (m - 1))) by lia. done.
Qed.

(** *** Runs with a known outcome *)

Lemma call_pure_denied_no_retry d n w policy_id decision w' msg :
  skip_verification = false → retry_on_denial = false →
  (1 <= max_retries)%Z →
  _get_policy_id_for_tool tool_name = Ok policy_id →
  verify_policy w (agent_id self) policy_id
    (_build_policy_context self tool_name d) = (Replied decision, w') →
  allow decision = false → denial_message decision = Ok msg →
  callp d n w =
  (Raise (PolicyDeniedError msg (DeniedByDecision decision)),
   d,
   {| created := [_build_policy_context self tool_name d];
      emitted := [EVerify (agent_id self) policy_id (S n)
                    (_build_policy_context self tool_name d) (Replied decision)];
      after := w' |}).
Proof.
  intros Hskip Hretry Hm Hpid Hv Hallow Hmsg. unfold call_pure.
  rewrite range_pos by done. simpl.
  rewrite (step_pure_denied _ _ _ _ policy_id decision w' msg) by done.
  unfold handle_pure, retries. simpl. by rewrite Hretry.
Qed.

(** With one attempt, a verification that ends with an exception ends
    the call with that exception. *)
Lemma call_pure_refused_once d n w policy_id answer w' error :
  skip_verification = false → max_retries = 1%Z →
  _get_policy_id_for_tool tool_name = Ok policy_id →
  verify_policy w (agent_id self) policy_id
    (_build_policy_context self tool_name d) = (answer, w') →
  decision_outcome answer = Raise error →
  callp d n w =
  (Raise error, d,
   {| created := [_build_policy_context self tool_name d];
      emitted := [EVerify (agent_id self) policy_id (S n)
                    (_build_policy_context self tool_name d) answer];
      after := w' |}).
Proof.
  intros Hskip Hm Hpid Hv Hout. unfold call_pure.
  replace (range max_retries) with [0%Z] by (by rewrite Hm).
  cbn [run_pure].
  rewrite (step_pure_refused _ _ _ _ policy_id answer w' error) by done.
  unfold handle_pure, retries.
  destruct (Z.ltb_spec 0 (max_retries - 1)); [lia|].
  by destruct (is_policy_denied error), retry_on_denial.
Qed.

(** A tool without a policy is attempted [max_retries] times, with a
    sleep after every attempt but the last. *)
Lemma run_pure_unmapped e k : ∀ i last_error d n w,
  skip_verification = false →
  _get_policy_id_for_tool tool_name = Raise e →
  is_policy_denied e = false →
  Z.of_nat (i + S k) = max_retries → (max_retries <= 2 ^ 53)%Z →
  ∃ delays,
    run (Z.of_nat <$> seq i (S k)) last_error d n w =
      (Raise e, d, {| created := []; emitted := ESleep <$> delays; after := w |}) ∧
    Forall2 (λ attempt delay,
               PyNum.float_mul_int retry_backoff (attempt + 1) = Ok delay)
      (Z.of_nat <$> seq i k) delays.
Proof.
  induction k as [|k IH]; intros i last_error d n w Hskip Hpid He Hm Hmax.
  - exists []. split; [|constructor]. simpl.
    rewrite (step_pure_unmapped _ _ _ _ e) by done.
    unfold handle_pure, retries. rewrite He.
    destruct (Z.ltb_spec (Z.of_nat i) (max_retries - 1)); [lia|done].
  - destruct (PyNumFacts.float_mul_int_small retry_backoff (Z.of_nat i + 1))
      as [delay Hdelay]; [lia|].
    destruct (IH (S i) (Some e) d (n + 0)%nat w Hskip Hpid He) as (delays & Hrun & Hd);
      [lia|done|].
    exists (delay :: delays). split; [|by constructor].
    change (Z.of_nat <$> seq i (S (S k)))
      with (Z.of_nat i :: (Z.of_nat <$> seq (S i) (S k))).
    cbn [run_pure]. rewrite (step_pure_unmapped _ _ _ _ e) by done.
    unfold handle_pure, retries. rewrite He.
    destruct (Z.ltb_spec (Z.of_nat i) (max_retries - 1)); [|lia].
    rewrite Hdelay. cbn [created emitted after length]. by rewrite Hrun.
Qed.


(** Against an authority whose denials carry a reason without a
    message, building the message of the denial raises inside the [try]
    statement: the clause [except Exception] handles the
    [AttributeError], so every attempt verifies the same context again,
    whatever [retry_on_denial] is, and the [AttributeError] is raised
    after the last attempt. *)
Lemma run_pure_unreported policy_id k : ∀ i last_error d n w,
  skip_verification = false →
  _get_policy_id_for_tool tool_name = Ok policy_id →
  (∀ w c, ∃ decision w',
     verify_policy w (agent_id self) policy_id c = (Replied decision, w') ∧
     allow decision = false ∧ ¬ reasons_have_messages decision) →
  Z.of_nat (i + S k) = max_retries → (max_retries <= 2 ^ 53)%Z →
  ∃ fx,
    run (Z.of_nat <$> seq i (S k)) last_error d n w =
      (Raise (AttributeError "'dict' object has no attribute 'message'"), d, fx) ∧
    verified_contexts (emitted fx) =
      replicate (S k) (_build_policy_context self tool_name d) ∧
    dispatched_arguments (emitted fx) = [] ∧
    length (sleeps (emitted fx)) = k.
Proof.
  set (e := AttributeError "'dict' object has no attribute 'message'").
  assert (Hout :
    (∀ w c, ∃ decision w',
       verify_policy w (agent_id self) policy_id c = (Replied decision, w') ∧
       allow decision = false ∧ ¬ reasons_have_messages decision) →
    ∀ w c, ∃ decision w',
      verify_policy w (agent_id self) policy_id c = (Replied decision, w') ∧
      decision_outcome (Replied decision) = Raise e).
  { intros Hdeny w c. destruct (Hdeny w c) as (dec & w' & Hv & Hallow & Hno).
    exists dec, w'. split; [done|].
    destruct (denial_message dec) as [msg|e'] eqn:Hmsg.
    - exfalso. apply Hno, denial_message_builds. by eexists.
    - apply decision_outcome_unreported; [done|].
      by rewrite (denial_message_raises _ _ Hmsg) in Hmsg. }
  induction k as [|k IH]; intros i last_error d n w Hskip Hpid Hdeny Hm Hmax.
  - destruct (Hout Hdeny w (_build_policy_context self tool_name d))
      as (dec & w' & Hverify & Hraise).
    eexists. simpl.
    rewrite (step_pure_refused _ _ _ _ policy_id (Replied dec) w' e) by done.
    unfold handle_pure, retries. simpl.
    destruct (Z.ltb_spec (Z.of_nat i) (max_retries - 1)); [lia|]. simpl.
    by repeat split.
  - destruct (Hout Hdeny w (_build_policy_context self tool_name d))
      as (dec & w' & Hverify & Hraise).
    destruct (PyNumFacts.float_mul_int_small retry_backoff (Z.of_nat i + 1))
      as [delay Hdelay]; [lia|].
    destruct (IH (S i) (Some e) d (n + 1)%nat w' Hskip Hpid Hdeny)
      as (fx & Hrun & Hctx & Hdisp & Hsl); [lia|done|].
    eexists.
    change (Z.of_nat <$> seq i (S (S k)))
      with (Z.of_nat i :: (Z.of_nat <$> seq (S i) (S k))).
    cbn [run_pure].
    rewrite (step_pure_refused _ _ _ _ policy_id (Replied dec) w' e) by done.
    unfold handle_pure, retries. cbn [is_policy_denied e].
    destruct (Z.ltb_spec (Z.of_nat i) (max_retries - 1)); [|lia].
    rewrite Hdelay. cbn [created emitted after length]. rewrite Hrun.
    split; [done|]. cbn [emitted app]. projections.
    rewrite Hctx, Hdisp. simpl. by rewrite Hsl.
Qed.

(** *** A caller-supplied [agent_id] *)

Lemma attempt_event_identity d v e :
  d !! "agent_id" = Some v → attempt_event self tool_name d e →
  identity_event self v e.
Proof.
  intros Hd. destruct e; simpl; [| |done].
  - intros [_ ->]. by apply build_policy_context_args.
  - intros [_ ->]. apply lookup_insert_eq.
Qed.

Lemma run_pure_identity v attempts last_error d n w :
  d !! "agent_id" = Some v →
  Forall (identity_event self v) (emitted (run attempts last_error d n w).2).
Proof.
  intros Hd.
  apply (run_pure_emitted (λ d, d !! "agent_id" = Some v)
           (Forall (identity_event self v))); [done|apply Forall_app_2| |done].
  clear. intros d n w attempt Hd.
  destruct (step_pure_shape d n w attempt) as (evs & zs & -> & Hevs & Hd' & _).
  split.
  - apply Forall_app_2.
    + eapply Forall_impl; [exact Hevs|]. intros e. by apply attempt_event_identity.
    + apply Forall_fmap, Forall_forall. done.
  - destruct Hd' as [->|Hadj]; [done|].
    by rewrite (adjust_pure_other _ _ _ _ Hadj).
Qed.

(** *** The objects handed to the collaborators *)

Lemma handed_as_created_app n (fx fx' : effects World) :
  handed_as_created n fx →
  handed_as_created (n + length (created fx)) fx' →
  handed_as_created n {| created := created fx ++ created fx';
                         emitted := emitted fx ++ emitted fx';
                         after := after fx' |}.
Proof.
  unfold handed_as_created, handed_objects. simpl. intros H H'.
  rewrite omap_app, H, H', length_app, seq_app.
  rewrite zip_with_app; [done|by rewrite length_seq].
Qed.

Lemma try_pure_handed d n w : handed_as_created n (tryp d n w).2.
Proof.
  unfold try_pure, verify_pure, dispatch_pure, handed_as_created.
  repeat case_match; simplify_eq; simpl; rewrite ?Nat.add_0_r, ?Nat.add_1_r; done.
Qed.

Lemma step_pure_handed d n w attempt : handed_as_created n (step d n w attempt).2.
Proof.
  unfold step_pure. pose proof (try_pure_handed d n w) as H.
  destruct (tryp d n w) as [[result|error] fx]; simpl in *; [done|].
  pose proof (handle_pure_emitted d attempt error) as He.
  destruct (handlep d attempt error) as [[c d'] evs]. simpl in *.
  unfold handed_as_created, handed_objects in *. simpl.
  rewrite omap_app, H.
  destruct He as [->|(delay & _ & _ & -> & _)]; simpl; by rewrite app_nil_r.
Qed.

Lemma run_pure_handed attempts : ∀ last_error d n w,
  handed_as_created n (run attempts last_error d n w).2.
Proof.
  induction attempts as [|attempt rest IH]; intros last_error d n w; simpl.
  { done. }
  pose proof (step_pure_handed d n w attempt) as H.
  destruct (step d n w attempt) as [[c d'] fx]. simpl in *.
  destruct c as [[result|error]|e]; simpl; [done| |done].
  specialize (IH (Some error) d' (n + length (created fx))%nat (after fx)).
  destruct (run rest _ _ _ _) as [[r d''] fx']. simpl in *.
  by apply handed_as_created_app.
Qed.

(** *** Normal return *)

Lemma try_pure_returned d n w r :
  (tryp d n w).1 = Ok r → returned tool_name r (emitted (tryp d n w).2).
Proof.
  unfold try_pure, verify_pure, dispatch_pure, result_outcome, decision_outcome,
    returned.
  repeat case_match; simplify_eq; simpl; intros; simplify_eq; eauto.
Qed.

Lemma handle_pure_control d attempt error r :
  (handlep d attempt error).1.1 ≠ Ok (Return r).
Proof. unfold handle_pure. repeat case_match; simplify_eq; done. Qed.

Lemma run_pure_returned attempts : ∀ last_error d n w r,
  (run attempts last_error d n w).1.1 = Ok r →
  returned tool_name r (emitted (run attempts last_error d n w).2).
Proof.
  induction attempts as [|attempt rest IH]; intros last_error d n w r; simpl.
  { done. }
  unfold step_pure. pose proof (try_pure_returned d n w) as Ht.
  destruct (tryp d n w) as [[result|error] fx]; simpl in *.
  { intros [= ->]. by apply Ht. }
  pose proof (handle_pure_control d attempt error) as Hc.
  destruct (handlep d attempt error) as [[[[result'|error']|e] d'] evs]; simpl;
    [by destruct (Hc result')| |done].
  specialize (IH (Some error') d' (n + length (created fx))%nat (after fx) r).
  destruct (run rest _ _ _ _) as [[r' d''] fx']. simpl in *.
  intros Hr. destruct (IH Hr) as (Hnone & l & a & Hlast).
  split; [done|]. exists l, a. by rewrite last_app, Hlast.
Qed.

(** *** Calls *)

Lemma call_tool_sleeps args st :
  ∃ k, Forall2 (λ attempt delay,
                  PyNum.float_mul_int retry_backoff (attempt + 1) = Ok delay ∧
                  (attempt < max_retries - 1)%Z)
         (take k (range max_retries)) (sleeps (new_events st (call args st).2)).
Proof.
  destruct (aport_client self) eqn:Hc.
  - rewrite call_tool_new_events by done. apply run_pure_sleeps.
  - rewrite call_tool_no_client by done. simpl. rewrite new_events_same.
    exists 0%nat. constructor.
Qed.

Lemma call_tool_returned args st r :
  (call args st).1 = Ok r → returned tool_name r (new_events st (call args st).2).
Proof.
  destruct (aport_client self) eqn:Hc.
  - rewrite call_tool_outcome, call_tool_new_events by done.
    apply run_pure_returned.
  - by rewrite call_tool_no_client.
Qed.

Lemma call_tool_identity args st d v :
  store st !! args = Some d → d !! "agent_id" = Some v →
  Forall (identity_event self v) (new_events st (call args st).2).
Proof.
  intros Hargs Hd. destruct (aport_client self) eqn:Hc.
  - rewrite call_tool_new_events by done. rewrite Hargs.
    by apply run_pure_identity.
  - rewrite call_tool_no_client by done. simpl. by rewrite new_events_same.
Qed.

Lemma call_tool_handed args st :
  aport_client self = true →
  handed_objects (new_events st (call args st).2) =
  zip (seq (S (length (store st)))
         (length (store (call args st).2) - S (length (store st))))
      (drop (S (length (store st))) (store (call args st).2)).
Proof.
  intros Hc. rewrite call_tool_new_events, call_tool_store by done.
  pose proof (run_pure_handed (range max_retries) None
                (default ∅ (store st !! args)) (S (length (store st)))
                (world st)) as H.
  unfold call_pure. destruct (run _ _ _ _ _) as [[r d'] fx]. simpl in *.
  rewrite (cons_middle d'), app_assoc, drop_app_length'
    by (rewrite length_app; simpl; lia).
  rewrite !length_app. simpl.
  replace (length (store st) + 1 + length (created fx) - S (length (store st)))%nat
    with (length (created fx)) by lia.
  exact H.
Qed.

(** A denial raised in the body of the [try] statement is handled by
    the first [except] clause, wherever it comes from. *)
Lemma loop_body_denied cur attempt st st1 error :
  try_body verify_policy session_call_tool self tool_name skip_verification
    cur st = (Raise error, st1) →
  is_policy_denied error = true →
  loop_body verify_policy session_call_tool self tool_name retry_on_denial
    max_retries retry_backoff skip_verification cur attempt st =
  except_policy_denied tool_name retry_on_denial max_retries retry_backoff
    cur attempt error st1.
Proof.
  intros Htry Hpd. unfold loop_body, bind, try. rewrite Htry.
  unfold handle. by rewrite Hpd.
Qed.

(** A result that carries the marker makes the body of the [try]
    statement raise [PolicyDeniedError], after a verification that
    passed or was skipped. *)
Lemma try_body_server_denied cur st st_v d result w' :
  store st !! cur = Some d →
  (if negb skip_verification
   then verify_current verify_policy self tool_name cur
   else ret tt) st = (Ok tt, st_v) →
  session self = true →
  session_call_tool (world st_v) tool_name (attach_passport self d)
    = (Replied result, w') →
  (∃ item, item ∈ content result ∧ denial_item item) →
  ∃ text st1,
    contains "Policy denied" text = true ∧
    try_body verify_policy session_call_tool self tool_name skip_verification
      cur st = (Raise (PolicyDeniedError text (DeniedByResult result)), st1) ∧
    trace st1 = trace st_v ++
      [ECallTool tool_name (length (store st_v)) (attach_passport self d)
         (Replied result)].
Proof.
  intros Hcur Hverify Hsession Hreply Hmarker.
  apply find_denial_text_marker in Hmarker as (text & Hfind & Hc).
  assert (Hcur' : store st_v !! cur = Some d).
  { rewrite (verify_pure_eq verify_policy self tool_name skip_verification
               cur st d Hcur) in Hverify.
    destruct (verify_pure _ _ _ _ _ _ _) as [r fx].
    injection Hverify as _ <-. by eapply apply_fx_lookup. }
  exists text. eexists. split; [done|].
  unfold try_body. unfold bind at 1. rewrite Hverify.
  rewrite (dispatch_pure_eq session_call_tool self tool_name cur st_v d Hcur').
  unfold dispatch_pure. rewrite Hsession, Hreply. simpl. rewrite Hfind.
  split; reflexivity.
Qed.
End Runs.


(** ** The backoff of the handlers *)

Section HandlerSleep.
Context {World : Type}.
Variable tool_name : string.
Variable retry_on_denial : bool.
Variable max_retries : Z.
Variable retry_backoff : spec_float.

Implicit Types (st : state World) (cur : loc).

Lemma adjust_arguments_trace cur st r st' :
  adjust_arguments tool_name cur st = (r, st') → trace st' = trace st.
Proof.
  unfold adjust_arguments, halve_item, getitem, setitem, bind, read, lift, ret, raise.
  intros H. repeat case_match; simplify_eq; done.
Qed.

(** Both [except] clauses sleep [retry_backoff * (attempt + 1)] before
    they let the loop continue, and they continue only before the last
    attempt. *)
Lemma handle_continue_sleeps cur attempt error st last_error st' :
  handle tool_name retry_on_denial max_retries retry_backoff cur attempt error st
    = (Ok (Continue last_error), st') →
  ∃ delay,
    PyNum.float_mul_int retry_backoff (attempt + 1) = Ok delay ∧
    trace st' = trace st ++ [ESleep delay] ∧
    (attempt < max_retries - 1)%Z ∧ last_error = error.
Proof.
  unfold handle, except_policy_denied, except_exception.
  assert (Hsleep : ∀ st1 c st2,
    bind (sleep_backoff retry_backoff attempt) (λ _, ret (Continue error)) st1
      = (Ok c, st2) →
    ∃ delay, PyNum.float_mul_int retry_backoff (attempt + 1) = Ok delay ∧
             trace st2 = trace st1 ++ [ESleep delay] ∧ c = Continue error).
  { intros st1 c st2. unfold bind. rewrite sleep_backoff_eq.
    destruct (PyNum.float_mul_int _ _) as [delay|e]; [|done].
    unfold ret. intros [= <- <-]. by exists delay. }
  destruct (is_policy_denied error).
  - destruct (retry_on_denial && _) eqn:Hr; [|done].
    apply andb_true_iff in Hr as [_ Hlt]. apply Z.ltb_lt in Hlt.
    unfold bind at 1.
    destruct (adjust_arguments tool_name cur st) as [[[]|e] st1] eqn:Hadj; [|done].
    apply adjust_arguments_trace in Hadj. intros Hc.
    destruct (Hsleep _ _ _ Hc) as (delay & Hd & Ht & [= ->]).
    exists delay. by rewrite Ht, Hadj.
  - destruct (Z.ltb_spec attempt (max_retries - 1)) as [Hlt|Hge]; [|done].
    intros Hc. destruct (Hsleep _ _ _ Hc) as (delay & Hd & Ht & [= ->]).
    by exists delay.
Qed.
End HandlerSleep.

(** ** The examples of the repository, run *)

Example int_times_half_1000000 :
  PyNum.int_times_half (VInt 1000000) = Ok (VInt 500000).
Proof. vm_compute. reflexivity. Qed.

Example int_times_half_odd : PyNum.int_times_half (VInt 5) = Ok (VInt 2).
Proof. vm_compute. reflexivity. Qed.

Example int_times_half_negative :
  PyNum.int_times_half (VInt (-3)) = Ok (VInt (-1)).
Proof. vm_compute. reflexivity. Qed.

Example int_times_half_beyond_2_53 :
  PyNum.int_times_half (VInt (2 ^ 60 + 1)) = Ok (VInt (2 ^ 59)).
Proof. vm_compute. reflexivity. Qed.

Example int_times_half_bool : PyNum.int_times_half (VBool true) = Ok (VInt 0).
Proof. vm_compute. reflexivity. Qed.

Example int_times_half_str :
  PyNum.int_times_half (VStr "12") =
    Raise (TypeError "can't multiply sequence by non-int of type 'float'").
Proof. reflexivity. Qed.

Example contains_marker :
  contains "Policy denied" "Error: Policy denied by server" = true ∧
  contains "Policy denied" "policy denied" = false.
Proof. split; reflexivity. Qed.

(** The refund of [example_error_handling] against an authority that
    denies amounts above 500000: the first attempt is denied, the second
    one submits 500000, is allowed and dispatched with the client's
    identity attached. *)
Example refund_retried_with_half :
  let st : state unit := initial tt [refund_args] in
  let run := call_tool verify_threshold (server_text "refunded") client
               "process_refund" true 3 one false 0%nat st in
  run.1 = Ok {| content := [CDict {[ "type" := "text"; "text" := "refunded" ]}] |} ∧
  (λ c : dict, c !! "amount") <$> verified_contexts (new_events st run.2) =
    [Some (VInt 1000000); Some (VInt 500000)] ∧
  dispatched_arguments (new_events st run.2) =
    [attach_passport client (<["amount" := VInt 500000]> refund_args)] ∧
  sleeps (new_events st run.2) = [one].
Proof.
  intros st run.
  split; [vm_compute; reflexivity|]. split; [vm_compute; reflexivity|].
  split; vm_compute; reflexivity.
Qed.

(** A call with no attempt allowed raises the final [Exception]. *)
Example no_attempt_allowed :
  (call_tool verify_allow_all (server_text "ok") client "process_refund"
     false 0 one false 0%nat (initial tt [refund_args])).1 =
  Raise (Exception "Failed to call process_refund after 0 attempts").
Proof. vm_compute. reflexivity. Qed.

(** The wrapper answers a denial with a message for the model. *)
Example wrapper_reports_denial :
  (handle_function_call verify_deny_all (server_text "ok") true true
     session_entered openai_wrapper "process_refund" 0%nat
     (initial tt [refund_args])).1.1 =
  Ok (function_message "process_refund"
        "Policy denied: Policy denied: limit exceeded").
Proof. vm_compute. reflexivity. Qed.

(** A denial whose reasons are mappings reaches the model as an error,
    after three verifications. *)
Example wrapper_reports_error_for_dict_reasons :
  let run := handle_function_call verify_deny_with_dicts (server_text "ok")
               true true session_entered openai_wrapper "process_refund"
               0%nat (initial tt [refund_args]) in
  run.1.1 = Ok (function_message "process_refund"
                  "Error: 'dict' object has no attribute 'message'") ∧
  length (verified_contexts (trace run.2)) = 3%nat.
Proof. split; vm_compute; reflexivity. Qed.

(** A wrapper without an MCP client whose connection is refused raises
    out of [handle_function_call]. *)
Example wrapper_raises_when_connection_refused :
  (handle_function_call verify_allow_all (server_text "ok") true true
     session_refused openai_wrapper_new "process_refund" 0%nat
     (initial tt [refund_args])).1.1 =
  Raise (External "connection refused").
Proof. vm_compute. reflexivity. Qed.

(** * Further properties of the runs and of the wrappers *)

(** ** More on what a run emits *)

Section MoreRuns.
Context {World : Type}.
Variable verify_policy :
  World → string → string → dict → reply PolicyDecision * World.
Variable session_call_tool :
  World → string → dict → reply CallToolResult * World.
Variable self : MCPClientWithPassport.
Variable tool_name : string.
Variable retry_on_denial : bool.
Variable max_retries : Z.
Variable retry_backoff : spec_float.
Variable skip_verification : bool.

Implicit Types (st : state World) (d : dict) (w : World).

Local Abbreviation step := (step_pure verify_policy session_call_tool self tool_name
  retry_on_denial max_retries retry_backoff skip_verification).
Local Abbreviation run := (run_pure verify_policy session_call_tool self tool_name
  retry_on_denial max_retries retry_backoff skip_verification).
Local Abbreviation tryp := (try_pure verify_policy session_call_tool self tool_name
  skip_verification).
Local Abbreviation handlep := (handle_pure tool_name retry_on_denial max_retries
  retry_backoff).
Local Abbreviation call := (call_tool verify_policy session_call_tool self tool_name
  retry_on_denial max_retries retry_backoff skip_verification).
Local Abbreviation callp := (call_pure verify_policy session_call_tool self tool_name
  retry_on_denial max_retries retry_backoff skip_verification).

(** A property of the events that holds of the body of the [try]
    statement and of a sleep holds of every event of a call. *)
Lemma call_tool_events_forall (P : event → Prop) args st :
  (∀ d n w, Forall P (emitted (tryp d n w).2)) →
  (∀ delay, P (ESleep delay)) →
  Forall P (new_events st (call args st).2).
Proof.
  intros Htry Hsleep. destruct (aport_client self) eqn:Hc.
  2:{ rewrite call_tool_no_client by done. simpl. by rewrite new_events_same. }
  rewrite call_tool_new_events by done.
  apply (run_pure_emitted verify_policy session_call_tool self tool_name
           retry_on_denial max_retries retry_backoff skip_verification
           (λ _, True) (Forall P)); [done|apply Forall_app_2| |done].
  intros d n w attempt _. split; [|done].
  unfold step_pure. specialize (Htry d n w).
  destruct (tryp d n w) as [[result|error] fx]; simpl in *; [done|].
  pose proof (handle_pure_emitted tool_name retry_on_denial max_retries
                retry_backoff d attempt error) as He.
  destruct (handlep d attempt error) as [[c d'] evs]. simpl in *.
  apply Forall_app_2; [done|].
  destruct He as [->|(delay & _ & _ & -> & _)]; repeat constructor. apply Hsleep.
Qed.

Lemma try_pure_addressed d n w :
  Forall (addressed_event self tool_name) (emitted (tryp d n w).2).
Proof.
  unfold try_pure, verify_pure, dispatch_pure.
  repeat case_match; simplify_eq; simpl; repeat constructor; try done;
    apply lookup_insert_eq.
Qed.

Lemma try_pure_skipped d n w :
  skip_verification = true →
  Forall (λ e, verified_contexts [e] = []) (emitted (tryp d n w).2).
Proof.
  intros Hskip. unfold try_pure, verify_pure, dispatch_pure. rewrite Hskip.
  repeat case_match; simplify_eq; simpl; repeat constructor.
Qed.

Lemma try_pure_disconnected d n w :
  session self = false →
  Forall (λ e, dispatched_arguments [e] = []) (emitted (tryp d n w).2).
Proof.
  intros Hs. unfold try_pure, verify_pure, dispatch_pure. rewrite Hs.
  repeat case_match; simplify_eq; simpl; repeat constructor.
Qed.

Lemma omap_nil_forall {A B} (f : A → option B) (l : list A) :
  Forall (λ x, omap f [x] = []) l → omap f l = [].
Proof.
  induction 1 as [|x l Hx _ IH]; [done|].
  change (x :: l) with ([x] ++ l). by rewrite omap_app, Hx, IH.
Qed.

(** *** Arguments that no retry changes *)

Lemma handle_pure_entries_fixed d attempt error :
  retry_on_denial = false ∨ (∀ d, adjust_pure tool_name d = Ok d) →
  (handlep d attempt error).1.2 = d.
Proof.
  intros Hfix. unfold handle_pure, retries.
  destruct (is_policy_denied error).
  - destruct Hfix as [->|Hadj]; [done|].
    rewrite Hadj. by repeat case_match.
  - by repeat case_match.
Qed.

Lemma step_pure_fixed d n w attempt :
  retry_on_denial = false ∨ (∀ d, adjust_pure tool_name d = Ok d) →
  (step d n w attempt).1.2 = d ∧
  Forall (λ c, c = _build_policy_context self tool_name d)
    (verified_contexts (emitted (step d n w attempt).2)) ∧
  Forall (λ a, a = attach_passport self d)
    (dispatched_arguments (emitted (step d n w attempt).2)).
Proof.
  intros Hfix. pose proof (handle_pure_entries_fixed d attempt) as Hd.
  unfold step_pure.
  assert (Htry :
    Forall (λ c, c = _build_policy_context self tool_name d)
      (verified_contexts (emitted (tryp d n w).2)) ∧
    Forall (λ a, a = attach_passport self d)
      (dispatched_arguments (emitted (tryp d n w).2))).
  { unfold try_pure, verify_pure, dispatch_pure.
    repeat case_match; simplify_eq; simpl; split; repeat constructor. }
  destruct (tryp d n w) as [[result|error] fx]; simpl in *; [done|].
  specialize (Hd error Hfix).
  pose proof (handle_pure_emitted tool_name retry_on_denial max_retries
                retry_backoff d attempt error) as He.
  destruct (handlep d attempt error) as [[c d'] evs]. simpl in *.
  split; [done|]. unfold verified_contexts, dispatched_arguments in *.
  rewrite !omap_app.
  destruct He as [->|(delay & _ & _ & -> & _)]; simpl; by rewrite !app_nil_r.
Qed.

Lemma run_pure_fixed attempts : ∀ last_error d n w,
  retry_on_denial = false ∨ (∀ d, adjust_pure tool_name d = Ok d) →
  (run attempts last_error d n w).1.2 = d ∧
  Forall (λ c, c = _build_policy_context self tool_name d)
    (verified_contexts (emitted (run attempts last_error d n w).2)) ∧
  Forall (λ a, a = attach_passport self d)
    (dispatched_arguments (emitted (run attempts last_error d n w).2)).
Proof.
  induction attempts as [|attempt rest IH]; intros last_error d n w Hfix; simpl.
  { by repeat split. }
  destruct (step_pure_fixed d n w attempt Hfix) as (Hd & Hv & Hc).
  destruct (step d n w attempt) as [[c d'] fx]. simpl in *. subst d'.
  destruct c as [[result|error]|e]; simpl; [done| |done].
  specialize (IH (Some error) d (n + length (created fx))%nat (after fx) Hfix).
  destruct (run rest _ _ _ _) as [[r d''] fx']. simpl in *.
  destruct IH as (-> & Hv' & Hc'). split; [done|].
  unfold verified_contexts, dispatched_arguments in *. rewrite !omap_app.
  split; by apply Forall_app_2.
Qed.

(** *** Denials that are raised are real *)

Lemma justified_app_l e tr tr' : justified e tr → justified e (tr ++ tr').
Proof.
  destruct e as [msg [dec|res]| | | | | | | | |]; simpl; try done.
  - intros (? & ? & ag & pid & l & c & Hin). split; [done|]. split; [done|].
    exists ag, pid, l, c. apply elem_of_app. by left.
  - intros (? & t & l & a & Hin). split; [done|].
    exists t, l, a. apply elem_of_app. by left.
Qed.

Lemma justified_app_r e tr tr' : justified e tr' → justified e (tr ++ tr').
Proof.
  destruct e as [msg [dec|res]| | | | | | | | |]; simpl; try done.
  - intros (? & ? & ag & pid & l & c & Hin). split; [done|]. split; [done|].
    exists ag, pid, l, c. apply elem_of_app. by right.
  - intros (? & t & l & a & Hin). split; [done|].
    exists t, l, a. apply elem_of_app. by right.
Qed.

Lemma get_policy_id_raises tool e :
  _get_policy_id_for_tool tool = Raise e → ∃ msg, e = ValueError msg.
Proof.
  unfold _get_policy_id_for_tool. repeat case_match; intros [= <-]; by eexists.
Qed.

Lemma try_pure_justified d n w e :
  (tryp d n w).1 = Raise e → justified e (emitted (tryp d n w).2).
Proof.
  unfold try_pure, verify_pure, dispatch_pure, decision_outcome, result_outcome.
  destruct skip_verification.
  - repeat case_match; simplify_eq; simpl; intros; simplify_eq; simpl; try done.
    split; [done|]. eexists _, _, _. apply list_elem_of_here.
  - destruct (_get_policy_id_for_tool tool_name) as [pid|e'] eqn:Hpid.
    2:{ simpl. intros [= ->]. by destruct (get_policy_id_raises _ _ Hpid) as [msg ->]. }
    repeat case_match; simplify_eq; simpl; intros; simplify_eq; simpl; try done;
      try (match goal with
           | H : denial_message _ = Raise _ |- _ =>
               by rewrite (denial_message_raises _ _ H)
           end).
    + split; [done|]. eexists _, _, _.
      apply list_elem_of_further, list_elem_of_here.
    + split; [done|]. split; [done|]. eexists _, _, _, _. apply list_elem_of_here.
Qed.

(** The exceptions that the adjustment and the backoff raise are no
    denials. *)
Lemma float_of_int_raises n e :
  PyNum.float_of_int n = Raise e → is_policy_denied e = false.
Proof.
  unfold PyNum.float_of_int.
  destruct (binary_normalize _ _ _ _ _); by intros [= <-].
Qed.

Lemma int_times_half_raises v e :
  PyNum.int_times_half v = Raise e → is_policy_denied e = false.
Proof.
  unfold PyNum.int_times_half, PyNum.mul_float.
  assert (Hint : ∀ x, match PyNum.int_of_float x with
                      | Ok n => Ok (VInt n)
                      | Raise e => Raise e
                      end = Raise e → is_policy_denied e = false).
  { intros [| | |]; simpl; by intros [= <-]. }
  destruct v as [|b|n|f|s|l|dd]; try by intros [= <-].
  - destruct (PyNum.float_of_int _) as [x|e'] eqn:Hf; [by apply Hint|].
    intros [= <-]. by eapply float_of_int_raises.
  - destruct (PyNum.float_of_int _) as [x|e'] eqn:Hf; [by apply Hint|].
    intros [= <-]. by eapply float_of_int_raises.
  - by apply Hint.
Qed.

Lemma float_mul_int_raises f n e :
  PyNum.float_mul_int f n = Raise e → is_policy_denied e = false.
Proof.
  unfold PyNum.float_mul_int.
  destruct (PyNum.float_of_int n) as [x|e'] eqn:Hf; [done|].
  intros [= <-]. by eapply float_of_int_raises.
Qed.

Lemma adjust_pure_raises d e :
  adjust_pure tool_name d = Raise e → is_policy_denied e = false.
Proof.
  unfold adjust_pure, halve_entry.
  repeat case_match; simplify_eq; intros; simplify_eq; try done;
    by eapply int_times_half_raises.
Qed.

Lemma handle_pure_raises d attempt error e :
  (handlep d attempt error).1.1 = Raise e →
  e = error ∨ is_policy_denied e = false.
Proof.
  unfold handle_pure.
  destruct (retries _ _ _ _); [|by intros [= <-]; left].
  destruct (is_policy_denied error).
  - destruct (adjust_pure tool_name d) as [d'|e'] eqn:Hadj.
    + destruct (PyNum.float_mul_int _ _) as [delay|e''] eqn:Hf; [done|].
      intros [= <-]. right. by eapply float_mul_int_raises.
    + intros [= <-]. right. by eapply adjust_pure_raises.
  - destruct (PyNum.float_mul_int _ _) as [delay|e''] eqn:Hf; [done|].
    intros [= <-]. right. by eapply float_mul_int_raises.
Qed.

Lemma handle_pure_continues d attempt error error' :
  (handlep d attempt error).1.1 = Ok (Continue error') → error' = error.
Proof. unfold handle_pure. repeat case_match; by intros [= <-]. Qed.

Lemma justified_not_denied e tr : is_policy_denied e = false → justified e tr.
Proof. by destruct e. Qed.

(** Whatever a run raises is justified by the events emitted up to
    then, given that the error of the attempts before it was. *)
Lemma run_pure_justified attempts : ∀ pre last_error d n w e,
  (∀ e0, last_error = Some e0 → justified e0 pre) →
  (run attempts last_error d n w).1.1 = Raise e →
  justified e (pre ++ emitted (run attempts last_error d n w).2).
Proof.
  induction attempts as [|attempt rest IH];
    intros pre last_error d n w e Hlast; simpl.
  { intros [= <-]. rewrite app_nil_r.
    destruct last_error as [e0|]; simpl; [by apply Hlast|done]. }
  unfold step_pure. pose proof (try_pure_justified d n w) as Ht.
  destruct (tryp d n w) as [[result|error] fx]; simpl in *; [done|].
  specialize (Ht error eq_refl).
  pose proof (handle_pure_raises d attempt error) as Hr.
  pose proof (handle_pure_continues d attempt error) as Hk.
  destruct (handlep d attempt error) as [[[[result'|error']|e'] d'] evs];
    simpl in *.
  - done.
  - rewrite (Hk error' eq_refl).
    specialize (IH (pre ++ emitted fx ++ evs) (Some error) d'
                  (n + length (created fx))%nat (after fx) e).
    destruct (run rest _ _ _ _) as [[r d''] fx']. simpl in *.
    intros Hr'. rewrite app_assoc. apply IH; [|done].
    intros e0 [= <-]. apply justified_app_r. by apply justified_app_l.
  - intros [= ->]. apply justified_app_r. destruct (Hr e eq_refl) as [->|Hnd].
    + by apply justified_app_l.
    + by apply justified_not_denied.
Qed.

Lemma call_tool_justified args st e :
  (call args st).1 = Raise e → justified e (new_events st (call args st).2).
Proof.
  destruct (aport_client self) eqn:Hc.
  - rewrite call_tool_outcome, call_tool_new_events by done.
    intros H. by apply (run_pure_justified _ [] None).
  - rewrite call_tool_no_client by done. simpl. by intros [= <-].
Qed.

(** *** Runs with a known outcome *)

Lemma try_pure_allowed d n w policy_id decision w1 :
  skip_verification = false → session self = true →
  _get_policy_id_for_tool tool_name = Ok policy_id →
  verify_policy w (agent_id self) policy_id
    (_build_policy_context self tool_name d) = (Replied decision, w1) →
  allow decision = true →
  tryp d n w =
  let '(answer, w2) :=
    session_call_tool w1 tool_name (attach_passport self d) in
  (result_outcome answer,
   {| created := [_build_policy_context self tool_name d; attach_passport self d];
      emitted := [EVerify (agent_id self) policy_id n
                    (_build_policy_context self tool_name d) (Replied decision);
                  ECallTool tool_name (n + 1)%nat (attach_passport self d) answer];
      after := w2 |}).
Proof.
  intros Hskip Hs Hpid Hv Hallow. unfold try_pure, verify_pure, dispatch_pure.
  rewrite Hskip, Hpid, Hv, Hs. simpl. rewrite Hallow. simpl.
  by destruct (session_call_tool _ _ _).
Qed.

(** An allowed call that the MCP session answers without a denial
    returns at the first attempt. *)
Lemma call_pure_first_success d n w policy_id decision w1 result w2 :
  skip_verification = false → session self = true →
  (1 <= max_retries)%Z →
  _get_policy_id_for_tool tool_name = Ok policy_id →
  verify_policy w (agent_id self) policy_id
    (_build_policy_context self tool_name d) = (Replied decision, w1) →
  allow decision = true →
  session_call_tool w1 tool_name (attach_passport self d) = (Replied result, w2) →
  find_denial_text (content result) = None →
  callp d n w =
  (Ok result, d,
   {| created := [_build_policy_context self tool_name d; attach_passport self d];
      emitted := [EVerify (agent_id self) policy_id (S n)
                    (_build_policy_context self tool_name d) (Replied decision);
                  ECallTool tool_name (S n + 1)%nat (attach_passport self d)
                    (Replied result)];
      after := w2 |}).
Proof.
  intros Hskip Hs Hm Hpid Hv Hallow Hcall Hfind. unfold call_pure.
  rewrite range_pos by done. simpl. unfold step_pure.
  rewrite (try_pure_allowed _ _ _ policy_id decision w1) by done.
  rewrite Hcall. simpl. by rewrite Hfind.
Qed.

(** A denial retry on a field that cannot be halved raises the exception
    of the halving out of the call. *)
Lemma call_pure_halving_raises field d n w policy_id decision w' v e :
  skip_verification = false → retry_on_denial = true →
  (2 <= max_retries)%Z →
  (tool_name = "process_refund" ∧ field = "amount") ∨
  (tool_name = "export_customer_data" ∧ field = "limit") →
  _get_policy_id_for_tool tool_name = Ok policy_id →
  verify_policy w (agent_id self) policy_id
    (_build_policy_context self tool_name d) = (Replied decision, w') →
  allow decision = false → reasons_have_messages decision →
  d !! field = Some v → PyNum.int_times_half v = Raise e →
  callp d n w =
  (Raise e, d,
   {| created := [_build_policy_context self tool_name d];
      emitted := [EVerify (agent_id self) policy_id (S n)
                    (_build_policy_context self tool_name d) (Replied decision)];
      after := w' |}).
Proof.
  intros Hskip Hretry Hm Hred Hpid Hv Hallow [msg Hmsg]%denial_message_builds
    Hd He.
  unfold call_pure. rewrite range_pos by lia. simpl.
  rewrite (step_pure_denied _ _ _ _ _ _ _ _ _ _ _ _ policy_id decision w' msg)
    by done.
  unfold handle_pure, retries. simpl. rewrite Hretry. simpl.
  destruct (Z.ltb_spec 0 (max_retries - 1)); [|lia].
  assert (Hadj : adjust_pure tool_name d = Raise e).
  { unfold adjust_pure, halve_entry.
    destruct Hred as [[-> ->]|[-> ->]]; simpl; rewrite Hd; simpl; by rewrite He. }
  by rewrite Hadj.
Qed.

Lemma step_pure_exec_failed d n w attempt policy_id decision w1 msg w2 :
  skip_verification = false → session self = true →
  _get_policy_id_for_tool tool_name = Ok policy_id →
  verify_policy w (agent_id self) policy_id
    (_build_policy_context self tool_name d) = (Replied decision, w1) →
  allow decision = true →
  session_call_tool w1 tool_name (attach_passport self d) = (Failed msg, w2) →
  step d n w attempt =
  let '(c, d', evs) := handlep d attempt (External msg) in
  (c, d',
   {| created := [_build_policy_context self tool_name d; attach_passport self d];
      emitted := [EVerify (agent_id self) policy_id n
                    (_build_policy_context self tool_name d) (Replied decision);
                  ECallTool tool_name (n + 1)%nat (attach_passport self d)
                    (Failed msg)] ++ evs;
      after := w2 |}).
Proof.
  intros Hskip Hs Hpid Hv Hallow Hcall. unfold step_pure.
  rewrite (try_pure_allowed _ _ _ policy_id decision w1) by done.
  rewrite Hcall. simpl. by destruct (handlep d attempt _) as [[c d'] evs].
Qed.

(** Against an MCP session that fails every call, every attempt verifies
    afresh and dispatches the same arguments, and the failure of the last
    attempt is raised. *)
Lemma run_pure_exec_failing policy_id msg k : ∀ i last_error d n w,
  skip_verification = false → session self = true →
  _get_policy_id_for_tool tool_name = Ok policy_id →
  (∀ w c, ∃ decision w',
     verify_policy w (agent_id self) policy_id c = (Replied decision, w') ∧
     allow decision = true) →
  (∀ w a, ∃ w', session_call_tool w tool_name a = (Failed msg, w')) →
  Z.of_nat (i + S k) = max_retries → (max_retries <= 2 ^ 53)%Z →
  ∃ fx,
    run (Z.of_nat <$> seq i (S k)) last_error d n w = (Raise (External msg), d, fx) ∧
    verified_contexts (emitted fx) =
      replicate (S k) (_build_policy_context self tool_name d) ∧
    dispatched_arguments (emitted fx) = replicate (S k) (attach_passport self d) ∧
    length (sleeps (emitted fx)) = k.
Proof.
  induction k as [|k IH];
    intros i last_error d n w Hskip Hs Hpid Hallow Hfail Hm Hmax.
  - destruct (Hallow w (_build_policy_context self tool_name d))
      as (dec & w1 & Hv & Ha).
    destruct (Hfail w1 (attach_passport self d)) as [w2 Hc].
    eexists. simpl.
    rewrite (step_pure_exec_failed _ _ _ _ policy_id dec w1 msg w2) by done.
    unfold handle_pure, retries. simpl.
    destruct (Z.ltb_spec (Z.of_nat i) (max_retries - 1)); [lia|]. simpl.
    by repeat split.
  - destruct (Hallow w (_build_policy_context self tool_name d))
      as (dec & w1 & Hv & Ha).
    destruct (Hfail w1 (attach_passport self d)) as [w2 Hc].
    destruct (PyNumFacts.float_mul_int_small retry_backoff (Z.of_nat i + 1))
      as [delay Hdelay]; [lia|].
    destruct (IH (S i) (Some (External msg)) d (n + 2)%nat w2
                Hskip Hs Hpid Hallow Hfail)
      as (fx & Hrun & Hctx & Hdisp & Hsl); [lia|done|].
    eexists.
    change (Z.of_nat <$> seq i (S (S k)))
      with (Z.of_nat i :: (Z.of_nat <$> seq (S i) (S k))).
    cbn [run_pure].
    rewrite (step_pure_exec_failed _ _ _ _ policy_id dec w1 msg w2) by done.
    unfold handle_pure, retries. cbn [is_policy_denied].
    destruct (Z.ltb_spec (Z.of_nat i) (max_retries - 1)); [|lia].
    rewrite Hdelay. cbn [created emitted after length]. rewrite Hrun.
    split; [done|]. cbn [emitted app]. projections.
    rewrite Hctx, Hdisp. simpl. by rewrite Hsl.
Qed.
End MoreRuns.

(** ** Retries that end in an accepted request *)

Section Degrade.
Context {World : Type}.
Variable verify_policy :
  World → string → string → dict → reply PolicyDecision * World.
Variable session_call_tool :
  World → string → dict → reply CallToolResult * World.
Variable self : MCPClientWithPassport.
Variable tool_name : string.
Variable max_retries : Z.
Variable retry_backoff : spec_float.

Implicit Types (d : dict) (w : World).

Local Abbreviation run := (run_pure verify_policy session_call_tool self tool_name
  true max_retries retry_backoff false).

(** Against an authority that decides by the value of the reducible
    field, the field is halved until the authority accepts it, and the
    accepted value is dispatched. *)
Lemma run_pure_halving_until_allowed field policy_id (accepts : Z → bool) j :
  ∀ v i k last_error d n w,
  session self = true →
  (tool_name = "process_refund" ∧ field = "amount") ∨
  (tool_name = "export_customer_data" ∧ field = "limit") →
  _get_policy_id_for_tool tool_name = Ok policy_id →
  (∀ w c x, c !! field = Some (VInt x) →
     ∃ decision w',
       verify_policy w (agent_id self) policy_id c = (Replied decision, w') ∧
       allow decision = accepts x ∧ reasons_have_messages decision) →
  (∀ w a, ∃ result w',
     session_call_tool w tool_name a = (Replied result, w') ∧
     find_denial_text (content result) = None) →
  d !! field = Some (VInt v) → (0 <= v < 2 ^ 53)%Z →
  (∀ m : nat, (m < j)%nat → accepts (v / 2 ^ Z.of_nat m)%Z = false) →
  accepts (v / 2 ^ Z.of_nat j)%Z = true →
  (j < k)%nat → Z.of_nat (i + k) = max_retries → (max_retries <= 2 ^ 53)%Z →
  ∃ result fx,
    run (Z.of_nat <$> seq i k) last_error d n w =
      (Ok result, <[field := VInt (v / 2 ^ Z.of_nat j)]> d, fx) ∧
    (λ c : dict, c !! field) <$> verified_contexts (emitted fx) =
      (λ m : nat, Some (VInt (v / 2 ^ Z.of_nat m))) <$> seq 0 (S j) ∧
    dispatched_arguments (emitted fx) =
      [attach_passport self (<[field := VInt (v / 2 ^ Z.of_nat j)]> d)] ∧
    length (sleeps (emitted fx)) = j.
Proof.
  induction j as [|j IH];
    intros v i k last_error d n w Hs Hred Hpid Hauth Hcall Hd Hv Hden Hacc
      Hjk Hm Hmax;
    (destruct k as [|k]; [lia|]);
    change (Z.of_nat <$> seq i (S k))
      with (Z.of_nat i :: (Z.of_nat <$> seq (S i) k));
    pose proof (build_policy_context_args self tool_name d field _ Hd) as Hctx;
    destruct (Hauth w _ v Hctx)
      as (dec & w1 & Hverify & Hallow & [msg Hmsg]%denial_message_builds).
  - change (Z.of_nat 0) with 0%Z in *. rewrite Z.pow_0_r, Z.div_1_r in *.
    rewrite Hacc in Hallow.
    destruct (Hcall w1 (attach_passport self d)) as (result & w2 & Hc & Hfind).
    rewrite (insert_id d field (VInt v)) by done.
    eexists result, _. cbn [run_pure]. unfold step_pure.
    rewrite (try_pure_allowed _ _ _ _ _ _ _ _ policy_id dec w1) by done.
    rewrite Hc. cbn. rewrite Hfind. split; [done|]. cbn. rewrite Hctx.
    change (Z.of_nat 0) with 0%Z. by rewrite Z.pow_0_r, Z.div_1_r.
  - pose proof (Hden 0%nat ltac:(lia)) as Hden0.
    change (Z.of_nat 0) with 0%Z in Hden0. rewrite Z.pow_0_r, Z.div_1_r in Hden0.
    rewrite Hden0 in Hallow.
    destruct (PyNumFacts.float_mul_int_small retry_backoff (Z.of_nat i + 1))
      as [delay Hdelay]; [lia|].
    pose proof (adjust_pure_reducible _ _ _ _ Hred Hd Hv) as Hadj.
    set (d1 := <[field := VInt (v / 2)]> d) in *.
    assert (Hd1 : d1 !! field = Some (VInt (v / 2))) by apply lookup_insert_eq.
    assert (Hv1 : (0 <= v / 2 < 2 ^ 53)%Z).
    { split; [apply Z.div_pos; lia|]. apply Z.div_lt_upper_bound; lia. }
    assert (Hpow : ∀ m : nat, (v / 2 / 2 ^ Z.of_nat m = v / 2 ^ Z.of_nat (S m))%Z).
    { intros m. rewrite Z.div_div by lia. f_equal.
      rewrite <- Z.pow_succ_r by lia. f_equal. lia. }
    destruct (IH (v / 2)%Z (S i) k
                (Some (PolicyDeniedError msg (DeniedByDecision dec)))
                d1 (n + 1)%nat w1 Hs Hred Hpid Hauth Hcall Hd1 Hv1)
      as (result & fx & Hrun & Hctxs & Hdisp & Hsl);
      [intros m Hlt; rewrite Hpow; apply Hden; lia|by rewrite Hpow|lia|lia|done|].
    rewrite Hpow in Hrun, Hdisp. unfold d1 in Hrun, Hdisp.
    rewrite insert_insert_eq in Hrun, Hdisp. fold d1 in Hrun.
    exists result. eexists. cbn [run_pure].
    rewrite (step_pure_denied _ _ _ _ _ _ _ _ _ _ _ _ policy_id dec w1 msg)
      by done.
    unfold handle_pure, retries. cbn [is_policy_denied andb].
    destruct (Z.ltb_spec (Z.of_nat i) (max_retries - 1)); [|lia].
    rewrite Hadj, Hdelay. cbn [created emitted after length]. rewrite Hrun.
    split; [done|]. cbn [emitted app]. projections.
    rewrite fmap_cons, Hctx. split; [|split].
    + change (seq 0 (S (S j))) with (0%nat :: seq 1 (S j)). rewrite fmap_cons.
      f_equal; [by rewrite Z.div_1_r|].
      rewrite Hctxs. change (seq 1 (S j)) with (seq (1 + 0) (S j)).
      rewrite <- (fmap_add_seq 1 0), <- list_fmap_compose.
      apply list_fmap_ext. intros _ m _. simpl. do 2 f_equal. apply Hpow.
    + done.
    + simpl. by rewrite Hsl.
Qed.
End Degrade.

(** ** The tables and the substring test *)

Lemma tool_to_policy_map_keys : NoDup tool_to_policy_map.*1.
Proof. apply (bool_decide_unpack _). vm_compute. exact I. Qed.

Lemma policy_lookup_elem tool policy_id :
  policy_lookup tool = Some policy_id ↔ (tool, policy_id) ∈ tool_to_policy_map.
Proof.
  unfold policy_lookup. symmetry.
  apply elem_of_list_to_map. apply tool_to_policy_map_keys.
Qed.

Lemma tool_to_policy_map_nonempty tool policy_id :
  (tool, policy_id) ∈ tool_to_policy_map → policy_id ≠ EmptyString.
Proof.
  unfold tool_to_policy_map. intros H.
  repeat (apply elem_of_cons in H as [[= -> ->]|H]; [done|]).
  by apply elem_of_nil in H.
Qed.

Lemma map_lookup_identity (table : list (string * string)) name :
  Forall (λ kv, kv.1 = kv.2) table →
  default name ((list_to_map table : gmap string string) !! name) = name.
Proof.
  intros Hid.
  destruct ((list_to_map table : gmap string string) !! name) as [v|] eqn:Hv;
    [|done].
  apply elem_of_list_to_map_2 in Hv. simpl.
  rewrite Forall_forall in Hid. symmetry. exact (Hid _ Hv).
Qed.

Lemma prefix_app needle s :
  String.prefix needle s = true ↔ ∃ post, s = (needle ++ post)%string.
Proof.
  revert s. induction needle as [|a needle IH]; intros s; simpl.
  { split; [by exists s|by destruct s]. }
  destruct s as [|b s]; simpl; [split; [done|by intros [post ?]]|].
  destruct (Ascii.ascii_dec a b) as [->|Hne].
  - rewrite IH. split; intros [post Hs]; exists post.
    + simpl. by rewrite Hs.
    + simpl in Hs. by injection Hs.
  - split; [done|]. intros [post Hs]. simpl in Hs. by injection Hs.
Qed.

(** [contains needle s] holds exactly when [needle] occurs in [s]. *)
Lemma contains_app needle s :
  contains needle s = true ↔
  ∃ pre post, s = (pre ++ needle ++ post)%string.
Proof.
  induction s as [|b s IH]; cbn [contains].
  - rewrite orb_false_r, prefix_app. split.
    + intros [post Hs]. by exists EmptyString, post.
    + intros (pre & post & Hs). destruct pre as [|a pre]; [by exists post|done].
  - rewrite orb_true_iff, prefix_app, IH. split.
    + intros [[post Hs]|(pre & post & Hs)].
      * by exists EmptyString, post.
      * exists (String b pre), post. simpl. by rewrite Hs.
    + intros (pre & post & Hs). destruct pre as [|a pre].
      * left. by exists post.
      * right. injection Hs as _ Hs. by exists pre, post.
Qed.

(** ** The [try] statements of the wrappers *)

Section Routes.
Context {World : Type}.
Variable verify_policy :
  World → string → string → dict → reply PolicyDecision * World.
Variable session_call_tool :
  World → string → dict → reply CallToolResult * World.

Implicit Types (st : state World).

Lemma first_text_raises items e :
  first_text items = Raise e → is_policy_denied e = false.
Proof.
  induction items as [|[d|cls] items IH]; simpl; [done| |by intros [= <-]].
  by case_bool_decide.
Qed.

(** The text a wrapper reports for an outcome of [call_tool]. *)
Lemma route_function_call_eq mcp_client function_name args st :
  route_function_call verify_policy session_call_tool mcp_client
    function_name args st =
  let '(r, st') := call_tool verify_policy session_call_tool mcp_client
                     (_map_openai_function_to_mcp_tool function_name)
                     true 3 one false args st in
  (Ok (function_message function_name
         match r with
         | Ok result =>
             match content result with
             | [] => "Tool executed successfully"
             | items =>
                 match first_text items with
                 | Ok text => text
                 | Raise e => "Error: " +:+ exn_str e
                 end
             end
         | Raise e =>
             (if is_policy_denied e then "Policy denied: " else "Error: ")
             +:+ exn_str e
         end), st').
Proof.
  unfold route_function_call, bind, try.
  destruct (call_tool _ _ _ _ _ _ _ _ _ _) as [[r|e] st'].
  - destruct (content r) as [|item items]; [done|].
    unfold lift. destruct (first_text (item :: items)) as [text|e] eqn:Hft;
      simpl; [done|].
    by rewrite (first_text_raises _ _ Hft).
  - simpl. by destruct (is_policy_denied e).
Qed.

Lemma route_tool_use_eq mcp_client tool_use st :
  route_tool_use verify_policy session_call_tool mcp_client tool_use st =
  let st1 := {| store := store st ++ [∅]; world := world st; trace := trace st |} in
  let '(r, st') := call_tool verify_policy session_call_tool mcp_client
                     (_map_anthropic_tool_to_mcp_tool (tool_use_name tool_use))
                     false 1 one false
                     (default (length (store st)) (tool_use_input tool_use)) st1 in
  (Ok {| result_tool_use_id := tool_use_id tool_use;
         result_content :=
           match r with
           | Ok result =>
               match content result with
               | [] => "Tool executed successfully"
               | items =>
                   match first_text items with
                   | Ok text => text
                   | Raise e => "Error: " +:+ exn_str e
                   end
               end
           | Raise e =>
               (if is_policy_denied e then "Policy denied: " else "Error: ")
               +:+ exn_str e
           end |}, st').
Proof.
  unfold route_tool_use. unfold bind at 1, alloc at 1. cbv zeta.
  unfold bind at 1, try, bind.
  destruct (call_tool _ _ _ _ _ _ _ _ _ _) as [[r|e] st'].
  - destruct (content r) as [|item items]; [done|].
    unfold lift. destruct (first_text (item :: items)) as [text|e] eqn:Hft;
      simpl; [done|].
    by rewrite (first_text_raises _ _ Hft).
  - simpl. by destruct (is_policy_denied e).
Qed.
End Routes.

(** ** More on calls *)

Lemma adjust_pure_unadjusted tool_name (d : dict) :
  tool_name ≠ "process_refund" → tool_name ≠ "export_customer_data" →
  adjust_pure tool_name d = Ok d.
Proof.
  intros Hr He. unfold adjust_pure.
  destruct (String.eqb_spec tool_name "process_refund"); [done|].
  by destruct (String.eqb_spec tool_name "export_customer_data").
Qed.

Lemma dispatched_arguments_last tr t l a answer :
  last tr = Some (ECallTool t l a answer) → dispatched_arguments tr ≠ [].
Proof.
  intros [tr' ->]%last_Some. unfold dispatched_arguments.
  rewrite omap_app. simpl. by destruct (omap _ tr').
Qed.

Lemma new_events_trace {World} (st st1 st' : state World) :
  trace st1 = trace st → new_events st1 st' = new_events st st'.
Proof. unfold new_events. by intros ->. Qed.

Section MoreCalls.
Context {World : Type}.
Variable verify_policy :
  World → string → string → dict → reply PolicyDecision * World.
Variable session_call_tool :
  World → string → dict → reply CallToolResult * World.
Variable self : MCPClientWithPassport.
Variable tool_name : string.
Variable retry_on_denial : bool.
Variable max_retries : Z.
Variable retry_backoff : spec_float.
Variable skip_verification : bool.

Implicit Types (st : state World) (d : dict) (w : World).

Local Abbreviation call := (call_tool verify_policy session_call_tool self tool_name
  retry_on_denial max_retries retry_backoff skip_verification).

Lemma call_tool_counts args st :
  (length (verified_contexts (new_events st (call args st).2))
     ≤ Z.to_nat max_retries)%nat ∧
  (length (dispatched_arguments (new_events st (call args st).2))
     ≤ Z.to_nat max_retries)%nat.
Proof.
  destruct (aport_client self) eqn:Hc.
  - rewrite call_tool_new_events by done. unfold call_pure.
    rewrite <- (range_length max_retries). apply run_pure_counts.
  - rewrite call_tool_no_client by done. simpl. rewrite new_events_same.
    simpl. lia.
Qed.

(** The first event of a call that verifies: the authority is asked
    about the caller's arguments. *)
Lemma call_tool_first_event args st policy_id :
  aport_client self = true → skip_verification = false →
  (1 <= max_retries)%Z →
  _get_policy_id_for_tool tool_name = Ok policy_id →
  let context :=
    _build_policy_context self tool_name (default ∅ (store st !! args)) in
  ∃ rest,
    new_events st (call args st).2 =
    EVerify (agent_id self) policy_id (S (length (store st))) context
      (verify_policy (world st) (agent_id self) policy_id context).1 :: rest.
Proof.
  intros Hc Hskip Hm Hpid context. rewrite call_tool_new_events by done.
  unfold call_pure. rewrite range_pos by done. cbn [run_pure].
  unfold step_pure, try_pure, verify_pure. rewrite Hskip, Hpid. fold context.
  destruct (verify_policy _ _ _ _) as [answer w'] eqn:Hv. cbn [fst].
  destruct (decision_outcome answer) as [[]|e].
  - destruct (dispatch_pure _ _ _ _ _ _) as [[r|e] fx']; cbn.
    + by eexists.
    + destruct (handle_pure _ _ _ _ _ _ _) as [[[[r|e']|e'] d'] evs]; cbn;
        try by eexists.
      destruct (run_pure _ _ _ _ _ _ _ _ _ _ _ _ _) as [[r d''] fx'']. cbn.
      by eexists.
  - cbn. destruct (handle_pure _ _ _ _ _ _ _) as [[[[r|e']|e'] d'] evs]; cbn;
      try by eexists.
    destruct (run_pure _ _ _ _ _ _ _ _ _ _ _ _ _) as [[r d''] fx'']. cbn.
    by eexists.
Qed.
End MoreCalls.

(** ** More on the scan and on the first text *)

Lemma contains_marker_empty : contains "Policy denied" EmptyString = false.
Proof. reflexivity. Qed.

Lemma denial_item_dict (d : gmap string string) :
  denial_item (CDict d) ↔
  d !! "type" = Some "text"%string ∧
  contains "Policy denied" (default EmptyString (d !! "text")) = true.
Proof.
  split.
  - intros (d' & text & [= <-] & Htype & Htext & Hc). by rewrite Htext.
  - intros [Htype Hc]. destruct (d !! "text") as [text|] eqn:Htext; [|done].
    by exists d, text.
Qed.

Lemma denial_item_object cls attrs : ¬ denial_item (CObject cls attrs).
Proof. by intros (d & text & ? & _). Qed.

(** The scan passes over every item that is an object of the SDK. *)
Lemma find_denial_text_objects items :
  Forall (λ item, ∃ cls attrs, item = CObject cls attrs) items →
  find_denial_text items = None.
Proof. induction 1 as [|item items (cls & attrs & ->) _ IH]; by simpl. Qed.

Lemma first_text_object pre cls attrs post :
  Forall (λ item, ∃ d, item = CDict d ∧ d !! "type" ≠ Some "text"%string) pre →
  first_text (pre ++ CObject cls attrs :: post) =
    Raise (AttributeError ("'" +:+ cls +:+ "' object has no attribute 'get'")).
Proof.
  induction 1 as [|item pre (d & -> & Htype) _ IH]; simpl; [done|].
  by rewrite bool_decide_eq_false_2.
Qed.

Lemma adjust_pure_quot tool_name field (d : dict) n :
  (tool_name = "process_refund" ∧ field = "amount") ∨
  (tool_name = "export_customer_data" ∧ field = "limit") →
  d !! field = Some (VInt n) → (- 2 ^ 53 < n < 2 ^ 53)%Z →
  adjust_pure tool_name d = Ok (<[field := VInt (Z.quot n 2)]> d).
Proof.
  intros Ht Hd Hn. unfold adjust_pure, halve_entry.
  destruct Ht as [[-> ->]|[-> ->]]; simpl; rewrite Hd; simpl;
    by rewrite PyNumFacts.int_times_half_int by lia.
Qed.

Lemma float_mul_int_one_1 : PyNum.float_mul_int one 1 = Ok one.
Proof. vm_compute. reflexivity. Qed.

Lemma float_mul_int_one_2 : PyNum.float_mul_int one 2 = Ok two.
Proof. vm_compute. reflexivity. Qed.

(** ** What the wrappers add to the trace *)

Lemma new_events_app {World} (st st' : state World) evs :
  trace st' = trace st ++ evs → new_events st st' = evs.
Proof. unfold new_events. intros ->. by rewrite drop_app_length. Qed.

Lemma verified_contexts_app tr tr' :
  verified_contexts (tr ++ tr') = verified_contexts tr ++ verified_contexts tr'.
Proof. apply omap_app. Qed.

Lemma dispatched_arguments_app tr tr' :
  dispatched_arguments (tr ++ tr') =
  dispatched_arguments tr ++ dispatched_arguments tr'.
Proof. apply omap_app. Qed.

Section WrapperTraces.
Context {World : Type}.
Variable verify_policy :
  World → string → string → dict → reply PolicyDecision * World.
Variable session_call_tool :
  World → string → dict → reply CallToolResult * World.

Implicit Types (st : state World).

Lemma call_tool_trace self tool_name retry_on_denial max_retries retry_backoff
    skip_verification args st :
  let st' := (call_tool verify_policy session_call_tool self tool_name
                retry_on_denial max_retries retry_backoff skip_verification
                args st).2 in
  trace st' = trace st ++ new_events st st'.
Proof.
  intros st'. unfold st'. destruct (aport_client self) eqn:Hc.
  - rewrite call_tool_pure_eq by done. cbv zeta.
    destruct (call_pure _ _ _ _ _ _ _ _ _ _ _) as [[r d'] fx]. cbn [snd trace].
    unfold new_events. cbn [trace]. by rewrite drop_app_length.
  - rewrite call_tool_no_client by done. cbn [snd].
    by rewrite new_events_same, app_nil_r.
Qed.

(** The [try] statement of [handle_function_call]: the message it returns and the events
    it adds. *)
Lemma route_function_call_attempts mcp_client function_name args st :
  ∃ text evs,
    (route_function_call verify_policy session_call_tool mcp_client
       function_name args st).1 = Ok (function_message function_name text) ∧
    trace (route_function_call verify_policy session_call_tool mcp_client
             function_name args st).2 = trace st ++ evs ∧
    store st `prefix_of`
      store (route_function_call verify_policy session_call_tool mcp_client
               function_name args st).2 ∧
    (length (verified_contexts evs) ≤ 3)%nat ∧
    (length (dispatched_arguments evs) ≤ 3)%nat ∧
    ∃ k, sleeps evs = take k [one; two].
Proof.
  rewrite route_function_call_eq.
  pose proof (call_tool_counts verify_policy session_call_tool mcp_client
                (_map_openai_function_to_mcp_tool function_name) true 3 one
                false args st) as [Hv Hd].
  pose proof (call_tool_trace mcp_client
                (_map_openai_function_to_mcp_tool function_name) true 3 one
                false args st) as Htr.
  assert (Hst : store st `prefix_of`
                store (call_tool verify_policy session_call_tool mcp_client
                         (_map_openai_function_to_mcp_tool function_name)
                         true 3 one false args st).2).
  { destruct (aport_client mcp_client) eqn:Hc.
    - rewrite call_tool_store by done. by eexists.
    - by rewrite call_tool_no_client. }
  destruct (call_tool_sleeps verify_policy session_call_tool mcp_client
              (_map_openai_function_to_mcp_tool function_name) true 3 one
              false args st) as [k Hk].
  cbv zeta in Htr.
  destruct (call_tool _ _ _ _ _ _ _ _ _ _) as [r st']. cbn [fst snd] in *.
  eexists _, (new_events st st'). split; [done|]. split; [done|].
  split; [done|]. split; [exact Hv|]. split; [exact Hd|].
  change (range 3) with [0; 1; 2]%Z in Hk.
  destruct k as [|[|[|k]]]; cbn [take] in Hk.
  - apply Forall2_nil_inv_l in Hk. exists 0%nat. by rewrite Hk.
  - apply Forall2_cons_inv_l in Hk as (d0 & ds & [H0 _] & Hk & ->).
    apply Forall2_nil_inv_l in Hk as ->.
    change (PyNum.float_mul_int one 1 = Ok d0) in H0.
    rewrite float_mul_int_one_1 in H0. injection H0 as <-. by exists 1%nat.
  - apply Forall2_cons_inv_l in Hk as (d0 & ds & [H0 _] & Hk & ->).
    apply Forall2_cons_inv_l in Hk as (d1 & ds' & [H1 _] & Hk & ->).
    apply Forall2_nil_inv_l in Hk as ->.
    change (PyNum.float_mul_int one 1 = Ok d0) in H0.
    change (PyNum.float_mul_int one 2 = Ok d1) in H1.
    rewrite float_mul_int_one_1 in H0. rewrite float_mul_int_one_2 in H1.
    injection H0 as <-. injection H1 as <-. by exists 2%nat.
  - apply Forall2_cons_inv_l in Hk as (d0 & ds & _ & Hk & _).
    apply Forall2_cons_inv_l in Hk as (d1 & ds' & _ & Hk & _).
    apply Forall2_cons_inv_l in Hk as (d2 & ds'' & [_ H2] & _). lia.
Qed.

(** The [try] statement of [handle_tool_use]: the message it returns and the events it
    adds. *)
Lemma route_tool_use_attempt mcp_client tool_use st :
  ∃ text evs,
    (route_tool_use verify_policy session_call_tool mcp_client
       tool_use st).1 =
      Ok {| result_tool_use_id := tool_use_id tool_use;
            result_content := text |} ∧
    trace (route_tool_use verify_policy session_call_tool mcp_client
             tool_use st).2 = trace st ++ evs ∧
    (length (verified_contexts evs) ≤ 1)%nat ∧
    (length (dispatched_arguments evs) ≤ 1)%nat ∧
    sleeps evs = [].
Proof.
  rewrite route_tool_use_eq. cbv zeta.
  set (st1 := {| store := store st ++ [∅]; world := world st;
                 trace := trace st |}).
  set (input := default (length (store st)) (tool_use_input tool_use)).
  pose proof (call_tool_counts verify_policy session_call_tool mcp_client
                (_map_anthropic_tool_to_mcp_tool (tool_use_name tool_use))
                false 1 one false input st1) as [Hv Hd].
  pose proof (call_tool_trace mcp_client
                (_map_anthropic_tool_to_mcp_tool (tool_use_name tool_use))
                false 1 one false input st1) as Htr.
  destruct (call_tool_sleeps verify_policy session_call_tool mcp_client
              (_map_anthropic_tool_to_mcp_tool (tool_use_name tool_use))
              false 1 one false input st1) as [k Hk].
  cbv zeta in Htr.
  destruct (call_tool _ _ _ _ _ _ _ _ _ _) as [r st']. cbn [fst snd] in *.
  eexists _, (new_events st1 st'). split; [done|]. split; [done|].
  split; [exact Hv|]. split; [exact Hd|].
  change (range 1) with [0%Z] in Hk.
  destruct k as [|k]; cbn [take] in Hk.
  - by apply Forall2_nil_inv_l in Hk.
  - apply Forall2_cons_inv_l in Hk as (d0 & ds & [_ H0] & _). lia.
Qed.
End WrapperTraces.

(** ** The wrappers, with the initialisation of their MCP client *)

Section WrapperCalls.
Context {World : Type}.
Variable verify_policy :
  World → string → string → dict → reply PolicyDecision * World.
Variable session_call_tool :
  World → string → dict → reply CallToolResult * World.
Variable mcp_sdk : bool.
Variable aport_sdk : bool.
Variable enter_session : World → session_outcome * World.

Implicit Types (st : state World).

Local Abbreviation ensure := (ensure_mcp_client mcp_sdk aport_sdk enter_session).

(** The initialisation touches neither the objects nor the trace. *)
Lemma connect_frame self st :
  store (connect mcp_sdk enter_session self st).2 = store st ∧
  trace (connect mcp_sdk enter_session self st).2 = trace st.
Proof.
  unfold connect. destruct mcp_sdk; [|done]. cbn [negb].
  by destruct (enter_session (world st)) as [[[msg|]|msg] w].
Qed.

Lemma ensure_mcp_client_frame agent mcp_client st :
  store (ensure agent mcp_client st).2 = store st ∧
  trace (ensure agent mcp_client st).2 = trace st.
Proof.
  destruct mcp_client as [client|]; [done|]. apply connect_frame.
Qed.

(** A wrapper whose client is set is left as it is. *)
Lemma handle_function_call_initialised self mcp_client function_name args st :
  openai_mcp_client self = Some mcp_client →
  handle_function_call verify_policy session_call_tool mcp_sdk aport_sdk
    enter_session self function_name args st =
  let '(r, st') := route_function_call verify_policy session_call_tool
                     mcp_client function_name args st in
  (r, self, st').
Proof.
  intros Hc. destruct self as [agent llm c].
  cbn [openai_mcp_client] in Hc. subst c.
  unfold handle_function_call, ensure_mcp_client.
  cbn [openai_mcp_client openai_agent_id openai_client].
  by destruct (route_function_call verify_policy session_call_tool mcp_client
                 function_name args st).
Qed.

Lemma handle_tool_use_initialised self mcp_client tool_use st :
  anthropic_mcp_client self = Some mcp_client →
  handle_tool_use verify_policy session_call_tool mcp_sdk aport_sdk
    enter_session self tool_use st =
  let '(r, st') := route_tool_use verify_policy session_call_tool
                     mcp_client tool_use st in
  (r, self, st').
Proof.
  intros Hc. destruct self as [agent llm c].
  cbn [anthropic_mcp_client] in Hc. subst c.
  unfold handle_tool_use, ensure_mcp_client.
  cbn [anthropic_mcp_client anthropic_agent_id anthropic_client].
  by destruct (route_tool_use verify_policy session_call_tool mcp_client
                 tool_use st).
Qed.

(** One [handle_function_call]: it raises only what the initialisation
    of the client raises, and then before anything else happens;
    otherwise it returns a message. *)
Lemma handle_function_call_attempts self function_name args st :
  let run := handle_function_call verify_policy session_call_tool mcp_sdk
               aport_sdk enter_session self function_name args st in
  let ensured := ensure (openai_agent_id self) (openai_mcp_client self) st in
  ∃ evs,
    trace run.2 = trace st ++ evs ∧
    match ensured.1.1 with
    | Raise e => run.1.1 = Raise e ∧ run.2 = ensured.2 ∧ evs = []
    | Ok _ => ∃ text, run.1.1 = Ok (function_message function_name text)
    end ∧
    openai_mcp_client run.1.2 = Some ensured.1.2 ∧
    (length (verified_contexts evs) ≤ 3)%nat ∧
    (length (dispatched_arguments evs) ≤ 3)%nat ∧
    ∃ k, sleeps evs = take k [one; two].
Proof.
  intros run ensured. unfold run, handle_function_call. fold ensured.
  destruct (ensure_mcp_client_frame (openai_agent_id self)
              (openai_mcp_client self) st) as [_ Htr0]. fold ensured in Htr0.
  destruct ensured as [[[[]|e] mcp_client] st0]; cbn [fst snd] in *.
  - destruct (route_function_call_attempts verify_policy session_call_tool
                mcp_client function_name args st0)
      as (text & evs & Hr & Htr & _ & Hv & Hd & Hk).
    destruct (route_function_call _ _ _ _ _ _) as [r st']. cbn [fst snd] in *.
    exists evs. rewrite <- Htr0. split; [done|]. split; [by exists text|].
    done.
  - exists []. rewrite app_nil_r. split; [done|]. split; [done|].
    split; [done|]. cbn. split; [lia|]. split; [lia|]. by exists 0%nat.
Qed.

(** One [handle_tool_use], likewise. *)
Lemma handle_tool_use_attempt self tool_use st :
  let run := handle_tool_use verify_policy session_call_tool mcp_sdk
               aport_sdk enter_session self tool_use st in
  let ensured :=
    ensure (anthropic_agent_id self) (anthropic_mcp_client self) st in
  ∃ evs,
    trace run.2 = trace st ++ evs ∧
    match ensured.1.1 with
    | Raise e => run.1.1 = Raise e ∧ run.2 = ensured.2 ∧ evs = []
    | Ok _ =>
        ∃ text, run.1.1 = Ok {| result_tool_use_id := tool_use_id tool_use;
                                result_content := text |}
    end ∧
    anthropic_mcp_client run.1.2 = Some ensured.1.2 ∧
    (length (verified_contexts evs) ≤ 1)%nat ∧
    (length (dispatched_arguments evs) ≤ 1)%nat ∧
    sleeps evs = [].
Proof.
  intros run ensured. unfold run, handle_tool_use. fold ensured.
  destruct (ensure_mcp_client_frame (anthropic_agent_id self)
              (anthropic_mcp_client self) st) as [_ Htr0]. fold ensured in Htr0.
  destruct ensured as [[[[]|e] mcp_client] st0]; cbn [fst snd] in *.
  - destruct (route_tool_use_attempt verify_policy session_call_tool
                mcp_client tool_use st0)
      as (text & evs & Hr & Htr & Hv & Hd & Hsl).
    destruct (route_tool_use _ _ _ _ _) as [r st']. cbn [fst snd] in *.
    exists evs. rewrite <- Htr0. split; [done|]. split; [by exists text|].
    done.
  - exists []. rewrite app_nil_r. split; [done|]. split; [done|].
    split; [done|]. cbn. split; [lia|]. split; [lia|done].
Qed.
End WrapperCalls.

(** ** The conversation loops *)

Section Loops.
Context {World : Type}.
Variable verify_policy :
  World → string → string → dict → reply PolicyDecision * World.
Variable session_call_tool :
  World → string → dict → reply CallToolResult * World.
Variable mcp_sdk : bool.
Variable aport_sdk : bool.
Variable enter_session : World → session_outcome * World.

Implicit Types (st : state World).

Lemma await_messages_create_eq
    (messages_create : World → list message_param → reply Message * World)
    messages st :
  await_messages_create messages_create messages st =
  (match (messages_create (world st) messages).1 with
   | Replied response => Ok response
   | Failed msg => Raise (External msg)
   end,
   {| store := store st; world := (messages_create (world st) messages).2;
      trace := trace st |}).
Proof.
  unfold await_messages_create.
  by destruct (messages_create _ _) as [[response|msg] w].
Qed.

Lemma await_chat_create_eq
    (chat_create : World → bool → list (gmap string string)
                   → reply ChatCompletion * World)
    with_functions messages st :
  await_chat_create chat_create with_functions messages st =
  (match (chat_create (world st) with_functions messages).1 with
   | Replied response => Ok response
   | Failed msg => Raise (External msg)
   end,
   {| store := store st;
      world := (chat_create (world st) with_functions messages).2;
      trace := trace st |}).
Proof.
  unfold await_chat_create.
  by destruct (chat_create _ _ _) as [[response|msg] w].
Qed.

(** The loop over the blocks, run by a wrapper whose client is set,
    answers every tool use once, in order, and makes one attempt for
    each. *)
Lemma for_content_answers self mcp_client blocks :
  anthropic_mcp_client self = Some mcp_client →
  ∀ tool_results st,
  ∃ results evs st',
    for_content verify_policy session_call_tool mcp_sdk aport_sdk
      enter_session self blocks tool_results st =
      (Ok (tool_results ++ results), self, st') ∧
    result_tool_use_id <$> results = Some <$> tool_use_ids blocks ∧
    trace st' = trace st ++ evs ∧
    (length (verified_contexts evs) ≤ length (tool_use_ids blocks))%nat ∧
    (length (dispatched_arguments evs) ≤ length (tool_use_ids blocks))%nat ∧
    sleeps evs = [].
Proof.
  intros Hc.
  induction blocks as [|[text|id name input] blocks IH];
    intros tool_results st.
  - exists [], [], st. rewrite !app_nil_r. by repeat split.
  - destruct (IH tool_results st) as (results & evs & st' & H).
    by exists results, evs, st'.
  - cbn [for_content block_type].
    change (String.eqb "tool_use" "tool_use") with true. cbv iota zeta.
    set (st0 := {| store := store st ++ [input]; world := world st;
                   trace := trace st |}).
    rewrite (handle_tool_use_initialised _ _ _ _ _ _ mcp_client) by done.
    destruct (route_tool_use_attempt verify_policy session_call_tool mcp_client
                {| tool_use_id := Some id; tool_use_name := name;
                   tool_use_input := Some (length (store st)) |} st0)
      as (text & evs1 & Hrun & Htr & Hv & Hd & Hsl).
    destruct (route_tool_use _ _ _ _ _) as [r st1].
    cbn [fst snd tool_use_id] in *. subst r.
    destruct (IH (tool_results ++
                  [{| result_tool_use_id := Some id; result_content := text |}])
                st1)
      as (results & evs & st' & Hfor & Hids & Htr' & Hv' & Hd' & Hsl').
    exists ({| result_tool_use_id := Some id; result_content := text |}
            :: results), (evs1 ++ evs), st'.
    rewrite Hfor, <- app_assoc. split; [done|]. split.
    { cbn. by rewrite Hids. }
    split; [by rewrite Htr', Htr, app_assoc|].
    rewrite verified_contexts_app, dispatched_arguments_app, sleeps_app.
    rewrite !length_app, Hsl, Hsl'.
    change (tool_use_ids (ToolUseBlock id name input :: blocks))
      with (id :: tool_use_ids blocks).
    cbn [length]. split; [lia|]. split; [lia|done].
Qed.
End Loops.

(** * The claims *)

(** C1: in a call with [skip_verification = false], every dispatch to the
    MCP session is the event right after a verification of the same
    attempt that the policy authority answered with an allowing decision;
    the verified context and the dispatched arguments are built from the
    same working arguments [cur], and the tool is the one requested. *)
Theorem C1_dispatch_only_after_allow {World : Type}
    (verify_policy : World → string → string → dict → reply PolicyDecision * World)
    (session_call_tool : World → string → dict → reply CallToolResult * World)
    (self : MCPClientWithPassport) (tool_name : string) (retry_on_denial : bool)
    (max_retries : Z) (retry_backoff : spec_float) (args : loc) (st : state World)
    (i : nat) (t : string) (l : loc) (a : dict) (answer : reply CallToolResult) :
  let st' := (call_tool verify_policy session_call_tool self tool_name
                retry_on_denial max_retries retry_backoff false args st).2 in
  new_events st st' !! i = Some (ECallTool t l a answer) →
  ∃ j policy_id lc cur decision,
    i = S j ∧
    new_events st st' !! j =
      Some (EVerify (agent_id self) policy_id lc
              (_build_policy_context self tool_name cur) (Replied decision)) ∧
    _get_policy_id_for_tool tool_name = Ok policy_id ∧
    allow decision = true ∧
    t = tool_name ∧ a = attach_passport self cur.
Proof.
  intros st' Hi. eapply gated_lookup; [|exact Hi].
  by apply call_tool_gated.
Qed.

Lemma C1_witness :
  let st : state unit := initial tt [refund_args] in
  let st' := (call_tool verify_allow_all (server_text "refunded") client
                "process_refund" false 3 one false 0%nat st).2 in
  new_events st st' !! 1%nat =
    Some (ECallTool "process_refund" 3%nat (attach_passport client refund_args)
            (Replied {| content := [CDict {[ "type" := "text"; "text" := "refunded" ]}] |})) ∧
  ∃ j policy_id lc cur decision,
    1%nat = S j ∧
    new_events st st' !! j =
      Some (EVerify (agent_id client) policy_id lc
              (_build_policy_context client "process_refund" cur) (Replied decision)) ∧
    _get_policy_id_for_tool "process_refund" = Ok policy_id ∧
    allow decision = true ∧
    "process_refund" = "process_refund" ∧
    attach_passport client refund_args = attach_passport client cur.
Proof.
  intros st st'. split; [vm_compute; reflexivity|].
  eapply (C1_dispatch_only_after_allow verify_allow_all (server_text "refunded")
            client "process_refund" false 3 one 0%nat st 1%nat).
  vm_compute. reflexivity.
Defined.

(** C2 (as amended): for a tool name absent from the mapping, with
    verification not skipped and [1 <= max_retries <= 2^53], [call_tool]
    raises the [ValueError] of the lookup without any call to the policy
    client or to the MCP session; the failure is retried like any other
    exception, so the run makes [max_retries] attempts and sleeps the
    backoff after each of them but the last. *)
Theorem C2_unmapped_no_calls_but_retried {World : Type}
    (verify_policy : World → string → string → dict → reply PolicyDecision * World)
    (session_call_tool : World → string → dict → reply CallToolResult * World)
    (self : MCPClientWithPassport) (tool_name : string) (retry_on_denial : bool)
    (max_retries : Z) (retry_backoff : spec_float) (args : loc) (st : state World) :
  policy_lookup tool_name = None →
  aport_client self = true →
  (1 <= max_retries <= 2 ^ 53)%Z →
  ∃ msg delays st',
    call_tool verify_policy session_call_tool self tool_name retry_on_denial
      max_retries retry_backoff false args st = (Raise (ValueError msg), st') ∧
    new_events st st' = ESleep <$> delays ∧
    verified_contexts (new_events st st') = [] ∧
    dispatched_arguments (new_events st st') = [] ∧
    Forall2 (λ attempt delay,
               PyNum.float_mul_int retry_backoff (attempt + 1) = Ok delay)
      (range (max_retries - 1)) delays.
Proof.
  intros Hlookup Hclient Hmax.
  destruct (unmapped_raises tool_name Hlookup) as [msg Hpid].
  destruct (run_pure_unmapped verify_policy session_call_tool self tool_name
              retry_on_denial max_retries retry_backoff false (ValueError msg)
              (Z.to_nat (max_retries - 1)) 0 None
              (default ∅ (store st !! args)) (S (length (store st))) (world st))
    as (delays & Hrun & Hdelays); [done|done|done|lia|lia|].
  exists msg, delays. eexists.
  rewrite call_tool_pure_eq by done. unfold call_pure, range.
  replace (Z.to_nat max_retries) with (S (Z.to_nat (max_retries - 1))) by lia.
  cbv zeta. rewrite Hrun. split; [done|].
  unfold new_events. cbn [trace emitted]. rewrite drop_app_length.
  split; [done|]. split; [|split; [|done]].
  - clear. by induction delays.
  - clear. by induction delays.
Qed.

Lemma C2_witness :
  policy_lookup "nonexistent_tool" = None ∧
  aport_client client = true ∧
  (1 <= 3 <= 2 ^ 53)%Z ∧
  ∃ msg delays st',
    call_tool verify_allow_all (server_text "ok") client "nonexistent_tool" false
      3 one false 0%nat (initial tt [∅]) = (Raise (ValueError msg), st') ∧
    new_events (initial tt [∅]) st' = ESleep <$> delays ∧
    verified_contexts (new_events (initial tt [∅]) st') = [] ∧
    dispatched_arguments (new_events (initial tt [∅]) st') = [] ∧
    Forall2 (λ attempt delay, PyNum.float_mul_int one (attempt + 1) = Ok delay)
      (range (3 - 1)) delays.
Proof.
  split; [reflexivity|]. split; [reflexivity|]. split; [lia|].
  apply (C2_unmapped_no_calls_but_retried verify_allow_all (server_text "ok")
           client "nonexistent_tool" false 3 one 0%nat (initial tt [∅]));
    [reflexivity|reflexivity|lia].
Defined.

(** C2 fails as stated: the call for an unmapped tool with
    [max_retries = 3] is retried twice, sleeping 1.0 and 2.0 seconds,
    before the [ValueError] reaches the caller. *)
Lemma C2_counterexample :
  let st : state unit := initial tt [∅] in
  let run := call_tool verify_allow_all (server_text "ok") client
               "nonexistent_tool" false 3 one false 0%nat st in
  policy_lookup "nonexistent_tool" = None ∧
  (∃ msg, run.1 = Raise (ValueError msg)) ∧
  new_events st run.2 = [ESleep one; ESleep two] ∧
  sleeps (new_events st run.2) ≠ [].
Proof.
  vm_compute. split; [reflexivity|]. split; [by eexists|].
  split; [reflexivity|discriminate].
Qed.

(** C3 (failing input): a denying decision with a mapping among its
    reasons, which is what the APort client returns.  The message of
    the denial is built inside the [try] statement and reads
    [r.message], which a mapping does not have: the [AttributeError] is
    handled by the clause [except Exception], which retries.  With
    [retry_on_denial = false] the call therefore does not end after one
    verification: it verifies [max_retries] times, sleeps after every
    attempt but the last and raises the [AttributeError], not a
    [PolicyDeniedError]. *)
Theorem C3_denial_retried_as_error {World : Type}
    (verify_policy : World → string → string → dict → reply PolicyDecision * World)
    (session_call_tool : World → string → dict → reply CallToolResult * World)
    (self : MCPClientWithPassport) (tool_name : string)
    (max_retries : Z) (retry_backoff : spec_float) (args : loc) (st : state World)
    (d : dict) (policy_id : string) :
  aport_client self = true →
  (1 <= max_retries <= 2 ^ 53)%Z →
  store st !! args = Some d →
  _get_policy_id_for_tool tool_name = Ok policy_id →
  (∀ w c, ∃ decision w' reason,
     verify_policy w (agent_id self) policy_id c = (Replied decision, w') ∧
     allow decision = false ∧ ReasonDict reason ∈ reasons decision) →
  let run := call_tool verify_policy session_call_tool self tool_name false
               max_retries retry_backoff false args st in
  run.1 = Raise (AttributeError "'dict' object has no attribute 'message'") ∧
  verified_contexts (new_events st run.2) =
    replicate (Z.to_nat max_retries) (_build_policy_context self tool_name d) ∧
  dispatched_arguments (new_events st run.2) = [] ∧
  length (sleeps (new_events st run.2)) = (Z.to_nat max_retries - 1)%nat.
Proof.
  intros Hclient Hmax Hargs Hpid Hdeny run. unfold run.
  rewrite call_tool_outcome, call_tool_new_events by done. rewrite Hargs.
  cbn [default from_option id]. unfold call_pure, range.
  replace (Z.to_nat max_retries) with (S (Z.to_nat (max_retries - 1))) by lia.
  destruct (run_pure_unreported verify_policy session_call_tool self tool_name
              false max_retries retry_backoff false policy_id
              (Z.to_nat (max_retries - 1)) 0 None d (S (length (store st)))
              (world st))
    as (fx & Hrun & Hctx & Hdisp & Hsl); [done|done| |lia|lia|].
  { intros w c. destruct (Hdeny w c) as (dec & w' & reason & Hv & Hallow & Hin).
    exists dec, w'. split; [done|]. split; [done|].
    by eapply reason_dict_no_messages. }
  rewrite Hrun. cbn [fst snd]. split; [done|]. split; [done|]. split; [done|].
  rewrite Hsl. lia.
Qed.

Lemma C3_witness :
  let st : state unit := initial tt [merge_args] in
  let run := call_tool verify_deny_with_dicts (server_text "merged") client
               "merge_pull_request" false 3 one false 0%nat st in
  aport_client client = true ∧
  (1 <= 3 <= 2 ^ 53)%Z ∧
  store st !! 0%nat = Some merge_args ∧
  _get_policy_id_for_tool "merge_pull_request" = Ok "code.repository.merge.v1" ∧
  allow deny_with_dicts = false ∧
  run.1 = Raise (AttributeError "'dict' object has no attribute 'message'") ∧
  verified_contexts (new_events st run.2) =
    replicate 3 (_build_policy_context client "merge_pull_request" merge_args) ∧
  dispatched_arguments (new_events st run.2) = [] ∧
  length (sleeps (new_events st run.2)) = 2%nat.
Proof.
  intros st run.
  split; [reflexivity|]. split; [lia|]. split; [reflexivity|].
  split; [reflexivity|]. split; [reflexivity|].
  apply (C3_denial_retried_as_error verify_deny_with_dicts (server_text "merged")
           client "merge_pull_request" 3 one 0%nat st merge_args
           "code.repository.merge.v1");
    [reflexivity|lia|reflexivity|reflexivity|].
  intros w c.
  exists deny_with_dicts, w,
    {[ "code" := "oap.limit_exceeded"; "message" := "limit exceeded" ]}.
  split; [reflexivity|]. split; [reflexivity|]. apply list_elem_of_here.
Defined.




(** C5 (as amended): every terminal failure of [call_tool] reaches the
    caller as a raised exception, never as a returned value: [call_tool]
    returns only a result that the MCP session answered at the end of
    the run and in which the scan finds no denial.  It is the integration
    wrapper [handle_function_call] that turns the outcome of [call_tool]
    into a typed message: a [PolicyDeniedError] into the text
    [Policy denied: ...] and any other exception into [Error: ...].  The
    wrapper itself raises in one case only: when it has no MCP client
    yet and the initialisation of one, which runs before the [try]
    statement, raises; then nothing else happens.  A wrapper whose MCP
    client is set always returns a message. *)
Theorem C5_failures_raised_wrapper_returns {World : Type}
    (verify_policy : World → string → string → dict → reply PolicyDecision * World)
    (session_call_tool : World → string → dict → reply CallToolResult * World)
    (mcp_sdk aport_sdk : bool)
    (enter_session : World → session_outcome * World)
    (self : MCPClientWithPassport) (tool_name : string) (retry_on_denial : bool)
    (max_retries : Z) (retry_backoff : spec_float) (skip_verification : bool)
    (wrapper : OpenAIWithMCPPassport) (function_name : string)
    (args : loc) (st : state World) :
  let run := call_tool verify_policy session_call_tool self tool_name
               retry_on_denial max_retries retry_backoff skip_verification
               args st in
  let wrapped := handle_function_call verify_policy session_call_tool mcp_sdk
                   aport_sdk enter_session wrapper function_name args st in
  let ensured := ensure_mcp_client mcp_sdk aport_sdk enter_session
                   (openai_agent_id wrapper) (openai_mcp_client wrapper) st in
  (∀ r, run.1 = Ok r → returned tool_name r (new_events st run.2)) ∧
  (∀ mcp_client, openai_mcp_client wrapper = Some mcp_client →
     ensured = (Ok tt, mcp_client, st)) ∧
  match ensured.1.1 with
  | Raise e => wrapped.1.1 = Raise e ∧ wrapped.2 = ensured.2
  | Ok _ =>
      let inner := call_tool verify_policy session_call_tool ensured.1.2
                     (_map_openai_function_to_mcp_tool function_name)
                     true 3 one false args ensured.2 in
      wrapped.2 = inner.2 ∧
      match inner.1 with
      | Raise e =>
          wrapped.1.1 =
            Ok (function_message function_name
                  ((if is_policy_denied e then "Policy denied: " else "Error: ")
                   +:+ exn_str e))
      | Ok r => ∃ text, wrapped.1.1 = Ok (function_message function_name text)
      end
  end.
Proof.
  intros run wrapped ensured.
  split; [by intros r; apply call_tool_returned|].
  split; [by intros mcp_client Hc; unfold ensured; rewrite Hc|].
  clear run. subst wrapped. unfold handle_function_call. fold ensured.
  destruct ensured as [[[[]|e] mcp_client] st0]; cbn [fst snd]; [|done].
  rewrite route_function_call_eq.
  destruct (call_tool _ _ _ _ _ _ _ _ _ _) as [[r|e] st']; cbn [fst snd].
  - split; [done|]. by eexists.
  - done.
Qed.

Lemma C5_witness :
  let st : state unit := initial tt [refund_args] in
  let run := call_tool verify_allow_all (server_text "refunded") client
               "process_refund" false 3 one false 0%nat st in
  let r := {| content := [CDict {[ "type" := "text"; "text" := "refunded" ]}] |} in
  run.1 = Ok r ∧ returned "process_refund" r (new_events st run.2).
Proof.
  intros st run r. split; [vm_compute; reflexivity|].
  apply (C5_failures_raised_wrapper_returns verify_allow_all
           (server_text "refunded") true true session_entered client
           "process_refund" false 3 one false openai_wrapper
           "process_refund" 0%nat st).
  vm_compute. reflexivity.
Defined.

(** C5 fails as stated: a denied call and a call to an unreachable server
    both end with an exception raised out of [call_tool]; nothing is
    returned. *)
Lemma C5_counterexample :
  let st : state unit := initial tt [refund_args] in
  (call_tool verify_deny_all (server_text "ok") client "process_refund"
     false 3 one false 0%nat st).1 =
    Raise (PolicyDeniedError "Policy denied: limit exceeded" (DeniedByDecision deny)) ∧
  (call_tool verify_allow_all server_unreachable client "process_refund"
     false 1 one false 0%nat st).1 = Raise (External "connection refused").
Proof. vm_compute. split; reflexivity. Qed.

(** C6 (failing input): a tool result whose text item with the marker is
    an object of the MCP SDK ([TextContent]), which is how the MCP
    session returns the items of a result.  The scan looks at dicts
    only, so it passes over the item: after an allowing verification the
    call returns the result as a success at its first attempt, without
    [PolicyDeniedError], adjustment, sleep or retry, whatever
    [retry_on_denial] is. *)
Theorem C6_object_text_item_not_detected {World : Type}
    (verify_policy : World → string → string → dict → reply PolicyDecision * World)
    (session_call_tool : World → string → dict → reply CallToolResult * World)
    (self : MCPClientWithPassport) (tool_name : string) (retry_on_denial : bool)
    (max_retries : Z) (retry_backoff : spec_float) (args : loc) (st : state World)
    (d : dict) (policy_id : string) (decision : PolicyDecision) (w1 w2 : World)
    (result : CallToolResult) :
  aport_client self = true → session self = true → (1 <= max_retries)%Z →
  store st !! args = Some d →
  _get_policy_id_for_tool tool_name = Ok policy_id →
  verify_policy (world st) (agent_id self) policy_id
    (_build_policy_context self tool_name d) = (Replied decision, w1) →
  allow decision = true →
  session_call_tool w1 tool_name (attach_passport self d) = (Replied result, w2) →
  (∃ item, item ∈ content result ∧ text_item_with_marker item) →
  Forall (λ item, ∃ cls attrs, item = CObject cls attrs) (content result) →
  let run := call_tool verify_policy session_call_tool self tool_name
               retry_on_denial max_retries retry_backoff false args st in
  run.1 = Ok result ∧
  new_events st run.2 =
    [EVerify (agent_id self) policy_id (S (length (store st)))
       (_build_policy_context self tool_name d) (Replied decision);
     ECallTool tool_name (S (S (length (store st))))
       (attach_passport self d) (Replied result)].
Proof.
  intros Hc Hs Hm Hargs Hpid Hv Hallow Hcall _ Hobjects run. unfold run.
  rewrite call_tool_pure_eq by done. cbv zeta. rewrite Hargs.
  cbn [default from_option id].
  rewrite (call_pure_first_success _ _ _ _ _ _ _ _ _ _ _ policy_id decision w1
             result w2);
    [|done..|by apply find_denial_text_objects].
  cbn [fst snd created emitted after]. split; [done|].
  unfold new_events. cbn [trace]. rewrite drop_app_length.
  by rewrite Nat.add_1_r.
Qed.

Lemma C6_witness :
  let server := server_object "Policy denied: refund exceeds limit" in
  let result :=
    {| content := [text_content "Policy denied: refund exceeds limit"] |} in
  let st : state unit := initial tt [refund_args] in
  let run := call_tool verify_allow_all server client "process_refund"
               true 3 one false 0%nat st in
  aport_client client = true ∧ session client = true ∧ (1 <= 3)%Z ∧
  store st !! 0%nat = Some refund_args ∧
  _get_policy_id_for_tool "process_refund" = Ok "finance.payment.refund.v1" ∧
  allow permit = true ∧
  (∃ item, item ∈ content result ∧ text_item_with_marker item) ∧
  Forall (λ item, ∃ cls attrs, item = CObject cls attrs) (content result) ∧
  run.1 = Ok result ∧
  new_events st run.2 =
    [EVerify (agent_id client) "finance.payment.refund.v1" 2%nat
       (_build_policy_context client "process_refund" refund_args)
       (Replied permit);
     ECallTool "process_refund" 3%nat (attach_passport client refund_args)
       (Replied result)].
Proof.
  intros server result st run.
  assert (Hmarker : ∃ item, item ∈ content result ∧ text_item_with_marker item).
  { exists (text_content "Policy denied: refund exceeds limit").
    split; [apply list_elem_of_here|].
    exists "Policy denied: refund exceeds limit"%string.
    split; [reflexivity|]. split; reflexivity. }
  assert (Hobjects : Forall (λ item, ∃ cls attrs, item = CObject cls attrs)
                       (content result)).
  { repeat constructor. by eexists _, _. }
  split; [reflexivity|]. split; [reflexivity|]. split; [lia|].
  split; [reflexivity|]. split; [reflexivity|]. split; [reflexivity|].
  split; [exact Hmarker|]. split; [exact Hobjects|].
  apply (C6_object_text_item_not_detected verify_allow_all server client
           "process_refund" true 3 one 0%nat st refund_args
           "finance.payment.refund.v1" permit tt tt result);
    [reflexivity|reflexivity|lia|reflexivity|reflexivity|reflexivity|
     reflexivity|reflexivity|exact Hmarker|exact Hobjects].
Defined.

(** C7: whenever a handler lets the loop go on after attempt [attempt],
    after a denial with retry enabled or after any other exception, it has
    slept [retry_backoff * (attempt + 1)] just before, and [attempt] is
    not the last attempt allowed.  In a call, the [j]-th sleep (counting
    from 0) is the one that follows attempt [j], since every attempt that
    goes on to another one sleeps exactly once; its delay is
    [retry_backoff * (j + 1)]. *)
Theorem C7_linear_backoff {World : Type}
    (verify_policy : World → string → string → dict → reply PolicyDecision * World)
    (session_call_tool : World → string → dict → reply CallToolResult * World)
    (self : MCPClientWithPassport) (tool_name : string) (retry_on_denial : bool)
    (max_retries : Z) (retry_backoff : spec_float) (skip_verification : bool)
    (args : loc) (st : state World) :
  let st' := (call_tool verify_policy session_call_tool self tool_name
                retry_on_denial max_retries retry_backoff skip_verification
                args st).2 in
  (∀ current_args attempt error (st1 st2 : state World) last_error,
     handle tool_name retry_on_denial max_retries retry_backoff current_args
       attempt error st1 = (Ok (Continue last_error), st2) →
     ∃ delay,
       PyNum.float_mul_int retry_backoff (attempt + 1) = Ok delay ∧
       trace st2 = trace st1 ++ [ESleep delay] ∧
       (attempt < max_retries - 1)%Z) ∧
  (∀ (j : nat) delay,
     sleeps (new_events st st') !! j = Some delay →
     PyNum.float_mul_int retry_backoff (Z.of_nat j + 1) = Ok delay ∧
     (Z.of_nat j < max_retries - 1)%Z).
Proof.
  intros st'. split.
  - intros current_args attempt error st1 st2 last_error Hc.
    destruct (handle_continue_sleeps _ _ _ _ _ _ _ _ _ _ Hc)
      as (delay & Hd & Ht & Hlt & _).
    by exists delay.
  - intros j delay Hj.
    destruct (call_tool_sleeps verify_policy session_call_tool self tool_name
                retry_on_denial max_retries retry_backoff skip_verification args st)
      as [k Hk].
    destruct (Forall2_lookup_r _ _ _ _ _ Hk Hj) as (attempt & Hattempt & Hdelay).
    apply lookup_take_Some in Hattempt as [Hattempt _].
    apply range_lookup in Hattempt as ->. exact Hdelay.
Qed.

Lemma C7_witness :
  let st : state unit := initial tt [refund_args] in
  let st' := (call_tool verify_deny_all (server_text "ok") client "process_refund"
                true 3 one false 0%nat st).2 in
  sleeps (new_events st st') !! 1%nat = Some two ∧
  PyNum.float_mul_int one (Z.of_nat 1 + 1) = Ok two ∧
  (Z.of_nat 1 < 3 - 1)%Z.
Proof.
  intros st st'. split; [vm_compute; reflexivity|].
  apply (proj2 (C7_linear_backoff verify_deny_all (server_text "ok") client
                  "process_refund" true 3 one false 0%nat st) 1%nat two).
  vm_compute. reflexivity.
Defined.

(** C8 (failing input): for arguments that carry an [agent_id] entry, the
    context built for verification holds the caller's value and not the
    identity of the client, while the arguments dispatched hold the
    identity. *)
Theorem C8_identity_missing_from_context :
  _build_policy_context client "send_message" spoofed_args !! "agent_id"
    = Some (VStr "ap_other") ∧
  _build_policy_context client "send_message" spoofed_args !! "agent_id"
    ≠ Some (VStr (agent_id client)) ∧
  attach_passport client spoofed_args !! "agent_id" = Some (VStr (agent_id client)).
Proof. vm_compute. split; [reflexivity|]. split; [discriminate|reflexivity]. Qed.

(** C10: when the caller's arguments hold an [agent_id] entry [v], every
    context submitted for verification during the call holds [v] under
    [agent_id], and every argument mapping dispatched to the MCP session
    holds the identity of the client: the two collaborators can see
    different identities in the same attempt. *)
Theorem C10_identities_diverge {World : Type}
    (verify_policy : World → string → string → dict → reply PolicyDecision * World)
    (session_call_tool : World → string → dict → reply CallToolResult * World)
    (self : MCPClientWithPassport) (tool_name : string) (retry_on_denial : bool)
    (max_retries : Z) (retry_backoff : spec_float) (skip_verification : bool)
    (args : loc) (st : state World) (d : dict) (v : value) :
  store st !! args = Some d → d !! "agent_id" = Some v →
  let st' := (call_tool verify_policy session_call_tool self tool_name
                retry_on_denial max_retries retry_backoff skip_verification
                args st).2 in
  _build_policy_context self tool_name d !! "agent_id" = Some v ∧
  attach_passport self d !! "agent_id" = Some (VStr (agent_id self)) ∧
  Forall (λ c : dict, c !! "agent_id" = Some v)
    (verified_contexts (new_events st st')) ∧
  Forall (λ a : dict, a !! "agent_id" = Some (VStr (agent_id self)))
    (dispatched_arguments (new_events st st')).
Proof.
  intros Hargs Hd st'.
  split; [by apply build_policy_context_args|]. split; [apply lookup_insert_eq|].
  pose proof (call_tool_identity verify_policy session_call_tool self tool_name
                retry_on_denial max_retries retry_backoff skip_verification
                args st d v Hargs Hd) as H.
  fold st' in H. clearbody st'. clear -H.
  induction H as [|e tr He _ IH]; [by split|].
  destruct IH as [IH1 IH2].
  destruct e; simpl in He; projections; split; try done; by constructor.
Qed.

Lemma C10_witness :
  let st : state unit := initial tt [spoofed_args] in
  let st' := (call_tool verify_allow_all (server_text "sent") client "send_message"
                false 3 one false 0%nat st).2 in
  store st !! 0%nat = Some spoofed_args ∧
  spoofed_args !! "agent_id" = Some (VStr "ap_other") ∧
  length (verified_contexts (new_events st st')) = 1%nat ∧
  length (dispatched_arguments (new_events st st')) = 1%nat ∧
  _build_policy_context client "send_message" spoofed_args !! "agent_id"
    = Some (VStr "ap_other") ∧
  attach_passport client spoofed_args !! "agent_id" = Some (VStr (agent_id client)) ∧
  Forall (λ c : dict, c !! "agent_id" = Some (VStr "ap_other"))
    (verified_contexts (new_events st st')) ∧
  Forall (λ a : dict, a !! "agent_id" = Some (VStr (agent_id client)))
    (dispatched_arguments (new_events st st')).
Proof.
  intros st st'. split; [reflexivity|]. split; [reflexivity|].
  split; [vm_compute; reflexivity|]. split; [vm_compute; reflexivity|].
  apply (C10_identities_diverge verify_allow_all (server_text "sent") client
           "send_message" false 3 one false 0%nat st spoofed_args (VStr "ap_other"));
    reflexivity.
Defined.

(** C9 (as amended): a call leaves every object that existed before it
    unchanged, in particular the caller's [args].  Besides the objects it
    hands to the collaborators it creates exactly one object, the working
    copy of the arguments, which all attempts share and which the denial
    adjustment updates in place.  Each object handed to a collaborator (a
    verification context or the arguments of a dispatch) is new, is
    handed over once, and still has at the end of the call the entries it
    was handed over with. *)
Theorem C9_args_unchanged_working_copy_shared {World : Type}
    (verify_policy : World → string → string → dict → reply PolicyDecision * World)
    (session_call_tool : World → string → dict → reply CallToolResult * World)
    (self : MCPClientWithPassport) (tool_name : string) (retry_on_denial : bool)
    (max_retries : Z) (retry_backoff : spec_float) (skip_verification : bool)
    (args : loc) (st : state World) :
  let st' := (call_tool verify_policy session_call_tool self tool_name
                retry_on_denial max_retries retry_backoff skip_verification
                args st).2 in
  (∀ l, (l < length (store st))%nat → store st' !! l = store st !! l) ∧
  (is_Some (store st !! args) → store st' !! args = store st !! args) ∧
  (∀ l entries, (l, entries) ∈ handed_objects (new_events st st') →
     (length (store st) < l)%nat ∧ store st' !! l = Some entries) ∧
  NoDup (handed_objects (new_events st st')).*1 ∧
  (aport_client self = true →
   length (store st') =
     S (length (store st) + length (handed_objects (new_events st st')))).
Proof.
  intros st'.
  assert (Hold : ∀ l, (l < length (store st))%nat → store st' !! l = store st !! l).
  { intros l Hl. unfold st'. destruct (aport_client self) eqn:Hc.
    - rewrite call_tool_store by done. by rewrite lookup_app_l.
    - by rewrite call_tool_no_client. }
  split; [exact Hold|]. split.
  { intros Hargs. apply Hold. by apply lookup_lt_is_Some. }
  destruct (aport_client self) eqn:Hc.
  2:{ unfold st'. rewrite call_tool_no_client by done. simpl.
      rewrite new_events_same. split; [|split; [constructor|done]].
      intros l entries Hin. by apply elem_of_nil in Hin. }
  pose proof (call_tool_handed verify_policy session_call_tool self tool_name
                retry_on_denial max_retries retry_backoff skip_verification
                args st Hc) as Hhanded.
  pose proof (call_tool_store verify_policy session_call_tool self tool_name
                retry_on_denial max_retries retry_backoff skip_verification
                args st Hc) as Hstore.
  fold st' in Hhanded, Hstore. rewrite Hhanded.
  assert (Hlen : length (drop (S (length (store st))) (store st')) =
                 (length (store st') - S (length (store st)))%nat)
    by apply length_drop.
  split; [|split].
  - intros l entries Hin.
    apply list_elem_of_lookup in Hin as [i Hi].
    apply lookup_zip_with_Some in Hi as (l' & entries' & [= -> ->] & Hl & He).
    apply lookup_seq in Hl as [-> _]. rewrite lookup_drop in He.
    split; [lia|done].
  - rewrite fst_zip by (rewrite length_seq; lia). apply NoDup_seq.
  - intros _. rewrite length_zip_with, length_seq, Hlen.
    rewrite Hstore, length_app. simpl. lia.
Qed.

Lemma C9_witness :
  let st : state unit := initial tt [refund_args] in
  let st' := (call_tool verify_deny_all (server_text "ok") client "process_refund"
                true 3 one false 0%nat st).2 in
  is_Some (store st !! 0%nat) ∧ store st' !! 0%nat = store st !! 0%nat.
Proof.
  intros st st'.
  assert (H : is_Some (store st !! 0%nat)) by (by eexists).
  split; [exact H|].
  exact (proj1 (proj2 (C9_args_unchanged_working_copy_shared verify_deny_all
                         (server_text "ok") client "process_refund" true 3 one
                         false 0%nat st)) H).
Defined.

(** C9 fails as stated: the denial adjustment replaces an entry of the
    working arguments in place and creates no object, and a call of three
    denied attempts keeps a single working copy, which ends with the
    amount of the last attempt, while the contexts submitted held the
    amounts 1000000, 500000 and 250000. *)
Lemma C9_counterexample :
  let st : state unit := initial tt [refund_args] in
  let st' := (call_tool verify_deny_all (server_text "ok") client "process_refund"
                true 3 one false 0%nat st).2 in
  adjust_arguments "process_refund" 0%nat st =
    (Ok tt, initial tt [<["amount" := VInt 500000]> refund_args]) ∧
  length (store st') = 5%nat ∧
  store st' !! 1%nat = Some (<["amount" := VInt 250000]> refund_args) ∧
  (λ c : dict, c !! "amount") <$> verified_contexts (new_events st st') =
    [Some (VInt 1000000); Some (VInt 500000); Some (VInt 250000)] ∧
  (default ∅ (store st' !! 1%nat) : dict) !! "amount" = Some (VInt 250000) ∧
  (handed_objects (new_events st st')).*1 = [2%nat; 3%nat; 4%nat].
Proof.
  intros st st'.
  split; [vm_compute; reflexivity|]. split; [vm_compute; reflexivity|].
  split; [vm_compute; reflexivity|]. split; [vm_compute; reflexivity|].
  split; vm_compute; reflexivity.
Qed.

(** * Further properties, one by one *)

(** X1: [_get_policy_id_for_tool] returns a policy id exactly for the
    tools of its table, the id the table gives, which is never empty; for
    every other name it raises the [ValueError] that lists the available
    tools. *)
Theorem X1_policy_id_lookup (tool_name : string) :
  (∀ policy_id,
     _get_policy_id_for_tool tool_name = Ok policy_id ↔
     (tool_name, policy_id) ∈ tool_to_policy_map) ∧
  (∀ policy_id,
     _get_policy_id_for_tool tool_name = Ok policy_id → policy_id ≠ EmptyString) ∧
  (tool_name ∉ tool_to_policy_map.*1 →
   _get_policy_id_for_tool tool_name =
     Raise (ValueError
       ("No policy mapping found for tool: " +:+ tool_name +:+
        ". Available tools: merge_pull_request, process_refund, " +:+
        "export_customer_data, publish_release, send_message, " +:+
        "execute_transaction, access_data, crypto_trade, ingest_report, " +:+
        "review_contract"))).
Proof.
  assert (Hok : ∀ policy_id,
    _get_policy_id_for_tool tool_name = Ok policy_id ↔
    (tool_name, policy_id) ∈ tool_to_policy_map).
  { intros policy_id. rewrite <- policy_lookup_elem.
    unfold _get_policy_id_for_tool.
    destruct (policy_lookup tool_name) as [p|] eqn:Hp; [|done].
    apply policy_lookup_elem, tool_to_policy_map_nonempty in Hp.
    destruct (String.eqb_spec p EmptyString) as [->|_]; [done|].
    split; by intros [= ->]. }
  split; [exact Hok|]. split.
  - intros policy_id H. apply Hok in H. by eapply tool_to_policy_map_nonempty.
  - intros Hnot. unfold _get_policy_id_for_tool.
    destruct (policy_lookup tool_name) as [p|] eqn:Hp.
    + exfalso. apply Hnot. apply policy_lookup_elem in Hp.
      apply list_elem_of_fmap. by exists (tool_name, p).
    + reflexivity.
Qed.

Lemma X1_witness :
  ("nonexistent_tool" ∉ tool_to_policy_map.*1) ∧
  ∃ msg, _get_policy_id_for_tool "nonexistent_tool" = Raise (ValueError msg).
Proof.
  assert (H : "nonexistent_tool" ∉ tool_to_policy_map.*1).
  { apply (bool_decide_unpack _). vm_compute. exact I. }
  split; [exact H|]. eexists.
  exact (proj2 (proj2 (X1_policy_id_lookup "nonexistent_tool")) H).
Defined.

(** X2: every entry of the caller's arguments is in the policy context
    with the value the caller gave, whatever the tool: neither the
    identity nor the enrichment replaces it. *)
Theorem X2_context_keeps_arguments (self : MCPClientWithPassport)
    (tool_name : string) (args : dict) (k : string) (v : value) :
  args !! k = Some v →
  _build_policy_context self tool_name args !! k = Some v.
Proof. apply build_policy_context_args. Qed.

Lemma X2_witness :
  refund_args !! "amount" = Some (VInt 1000000) ∧
  _build_policy_context client "process_refund" refund_args !! "amount"
    = Some (VInt 1000000).
Proof.
  split; [reflexivity|].
  apply (X2_context_keeps_arguments client "process_refund" refund_args
           "amount" (VInt 1000000)).
  reflexivity.
Defined.

(** X3: for a key that the caller's arguments do not hold, the policy
    context holds the identity under [agent_id], [main] and 250 under
    [base_branch] and [pr_size_kb] for [merge_pull_request],
    [customer_request] under [reason_code] for [process_refund], and
    nothing under any other key. *)
Theorem X3_context_fills_missing_keys (self : MCPClientWithPassport)
    (tool_name : string) (args : dict) (k : string) :
  args !! k = None →
  _build_policy_context self tool_name args !! k =
    if decide (k = "agent_id") then Some (VStr (agent_id self))
    else if decide (tool_name = "merge_pull_request" ∧ k = "base_branch")
    then Some (VStr "main")
    else if decide (tool_name = "merge_pull_request" ∧ k = "pr_size_kb")
    then Some (VInt 250)
    else if decide (tool_name = "process_refund" ∧ k = "reason_code")
    then Some (VStr "customer_request")
    else None.
Proof.
  intros Hk. unfold _build_policy_context, identity_then_args, get_default.
  assert (Hu : (args ∪ {["agent_id" := VStr (agent_id self)]}) !! k =
               if decide (k = "agent_id") then Some (VStr (agent_id self))
               else None).
  { rewrite lookup_union_r by done. rewrite lookup_singleton.
    repeat case_decide; congruence. }
  destruct (String.eqb_spec tool_name "merge_pull_request") as [->|Hm].
  - rewrite !lookup_insert, Hu.
    repeat case_decide; subst; rewrite ?Hk; try done; exfalso;
      intuition congruence.
  - destruct (String.eqb_spec tool_name "process_refund") as [->|Hr].
    + rewrite !lookup_insert, Hu.
      repeat case_decide; subst; rewrite ?Hk; try done; exfalso;
        intuition congruence.
    + rewrite Hu. repeat case_decide; subst; try done; exfalso;
        intuition congruence.
Qed.

Lemma X3_witness :
  merge_args !! "base_branch" = None ∧
  _build_policy_context client "merge_pull_request" merge_args !! "base_branch"
    = Some (VStr "main").
Proof.
  split; [reflexivity|].
  apply (X3_context_fills_missing_keys client "merge_pull_request" merge_args
           "base_branch").
  reflexivity.
Defined.

(** X4: with [skip_verification] set, a call never consults the policy
    authority, whatever the collaborators answer and however often it
    retries. *)
Theorem X4_skip_never_verifies {World : Type}
    (verify_policy : World → string → string → dict → reply PolicyDecision * World)
    (session_call_tool : World → string → dict → reply CallToolResult * World)
    (self : MCPClientWithPassport) (tool_name : string) (retry_on_denial : bool)
    (max_retries : Z) (retry_backoff : spec_float) (args : loc) (st : state World) :
  verified_contexts
    (new_events st
       (call_tool verify_policy session_call_tool self tool_name retry_on_denial
          max_retries retry_backoff true args st).2) = [].
Proof.
  unfold verified_contexts. apply omap_nil_forall.
  apply call_tool_events_forall; [|done].
  intros d n w. by apply try_pure_skipped.
Qed.

(** X5: a client without an MCP session never dispatches a tool call and
    never returns a result: every call ends with an exception. *)
Theorem X5_disconnected_never_dispatches {World : Type}
    (verify_policy : World → string → string → dict → reply PolicyDecision * World)
    (session_call_tool : World → string → dict → reply CallToolResult * World)
    (self : MCPClientWithPassport) (tool_name : string) (retry_on_denial : bool)
    (max_retries : Z) (retry_backoff : spec_float) (skip_verification : bool)
    (args : loc) (st : state World) :
  session self = false →
  let run := call_tool verify_policy session_call_tool self tool_name
               retry_on_denial max_retries retry_backoff skip_verification
               args st in
  dispatched_arguments (new_events st run.2) = [] ∧
  ∃ e, run.1 = Raise e.
Proof.
  intros Hs run.
  assert (Hnone : dispatched_arguments (new_events st run.2) = []).
  { unfold dispatched_arguments. apply omap_nil_forall.
    apply call_tool_events_forall; [|done].
    intros d n w. by apply try_pure_disconnected. }
  split; [exact Hnone|].
  destruct run.1 as [r|e] eqn:Hr; [|by exists e]. exfalso.
  apply call_tool_returned in Hr as (_ & l & a & Hlast).
  by apply dispatched_arguments_last in Hlast.
Qed.

Lemma X5_witness :
  let offline := {| agent_id := "ap_a2d10232c6534523812423eec8a1425c";
                    aport_client := true; session := false |} in
  let run := call_tool verify_allow_all (server_text "merged") offline
               "merge_pull_request" false 3 one false 0%nat
               (initial tt [merge_args]) in
  session offline = false ∧
  dispatched_arguments (new_events (initial tt [merge_args]) run.2) = [] ∧
  ∃ e, run.1 = Raise e.
Proof.
  intros offline run. split; [reflexivity|].
  apply (X5_disconnected_never_dispatches verify_allow_all (server_text "merged")
           offline "merge_pull_request" false 3 one false 0%nat
           (initial tt [merge_args])).
  reflexivity.
Defined.

(** X6: with [max_retries <= 0] the loop makes no attempt: an initialised
    client contacts neither collaborator, copies the arguments and raises
    the generic [Exception] that names the tool and the number of
    attempts. *)
Theorem X6_no_attempt_without_retries {World : Type}
    (verify_policy : World → string → string → dict → reply PolicyDecision * World)
    (session_call_tool : World → string → dict → reply CallToolResult * World)
    (self : MCPClientWithPassport) (tool_name : string) (retry_on_denial : bool)
    (max_retries : Z) (retry_backoff : spec_float) (skip_verification : bool)
    (args : loc) (st : state World) :
  aport_client self = true → (max_retries <= 0)%Z →
  call_tool verify_policy session_call_tool self tool_name retry_on_denial
    max_retries retry_backoff skip_verification args st =
  (Raise (Exception ("Failed to call " +:+ tool_name +:+ " after " +:+
                     pretty max_retries +:+ " attempts")),
   {| store := store st ++ [default ∅ (store st !! args)];
      world := world st; trace := trace st |}).
Proof.
  intros Hc Hm. rewrite call_tool_pure_eq by done. cbv zeta.
  unfold call_pure, range. replace (Z.to_nat max_retries) with 0%nat by lia.
  simpl. by rewrite app_nil_r.
Qed.

Lemma X6_witness :
  aport_client client = true ∧ (-1 <= 0)%Z ∧
  call_tool verify_allow_all (server_text "merged") client "merge_pull_request"
    false (-1) one false 0%nat (initial tt [merge_args]) =
  (Raise (Exception "Failed to call merge_pull_request after -1 attempts"),
   {| store := [merge_args; merge_args]; world := tt; trace := [] |}).
Proof.
  split; [reflexivity|]. split; [lia|].
  apply (X6_no_attempt_without_retries verify_allow_all (server_text "merged")
           client "merge_pull_request" false (-1) one false 0%nat
           (initial tt [merge_args])); [reflexivity|lia].
Defined.

(** X7: when the authority allows the caller's arguments and the MCP
    session answers with a result free of the denial marker, the call
    returns that result at the first attempt, whatever [retry_on_denial],
    [max_retries >= 1] and [retry_backoff] are: one verification, one
    dispatch, no sleep, and three new objects (the working copy, the
    context and the arguments with the passport). *)
Theorem X7_first_attempt_success {World : Type}
    (verify_policy : World → string → string → dict → reply PolicyDecision * World)
    (session_call_tool : World → string → dict → reply CallToolResult * World)
    (self : MCPClientWithPassport) (tool_name : string) (retry_on_denial : bool)
    (max_retries : Z) (retry_backoff : spec_float) (args : loc) (st : state World)
    (d : dict) (policy_id : string) (decision : PolicyDecision) (w1 w2 : World)
    (result : CallToolResult) :
  aport_client self = true → session self = true → (1 <= max_retries)%Z →
  store st !! args = Some d →
  _get_policy_id_for_tool tool_name = Ok policy_id →
  verify_policy (world st) (agent_id self) policy_id
    (_build_policy_context self tool_name d) = (Replied decision, w1) →
  allow decision = true →
  session_call_tool w1 tool_name (attach_passport self d) = (Replied result, w2) →
  find_denial_text (content result) = None →
  call_tool verify_policy session_call_tool self tool_name retry_on_denial
    max_retries retry_backoff false args st =
  (Ok result,
   {| store := store st ++
        [d; _build_policy_context self tool_name d; attach_passport self d];
      world := w2;
      trace := trace st ++
        [EVerify (agent_id self) policy_id (S (length (store st)))
           (_build_policy_context self tool_name d) (Replied decision);
         ECallTool tool_name (S (S (length (store st))))
           (attach_passport self d) (Replied result)] |}).
Proof.
  intros Hc Hs Hm Hargs Hpid Hv Hallow Hcall Hfind.
  rewrite call_tool_pure_eq by done. cbv zeta. rewrite Hargs.
  cbn [default from_option id].
  rewrite (call_pure_first_success _ _ _ _ _ _ _ _ _ _ _ policy_id decision w1
             result w2) by done.
  cbn [created emitted after]. by rewrite Nat.add_1_r.
Qed.

Lemma X7_witness :
  let result := {| content := [CDict {[ "type" := "text"; "text" := "merged" ]}] |} in
  aport_client client = true ∧ session client = true ∧ (1 <= 3)%Z ∧
  store (initial tt [merge_args]) !! 0%nat = Some merge_args ∧
  _get_policy_id_for_tool "merge_pull_request" = Ok "code.repository.merge.v1" ∧
  verify_allow_all tt (agent_id client) "code.repository.merge.v1"
    (_build_policy_context client "merge_pull_request" merge_args)
    = (Replied permit, tt) ∧
  allow permit = true ∧
  server_text "merged" tt "merge_pull_request" (attach_passport client merge_args)
    = (Replied result, tt) ∧
  find_denial_text (content result) = None ∧
  (call_tool verify_allow_all (server_text "merged") client "merge_pull_request"
     false 3 one false 0%nat (initial tt [merge_args])).1 = Ok result.
Proof.
  intros result.
  assert (Hfind : find_denial_text (content result) = None)
    by (vm_compute; reflexivity).
  split; [reflexivity|]. split; [reflexivity|]. split; [lia|].
  split; [reflexivity|]. split; [reflexivity|]. split; [reflexivity|].
  split; [reflexivity|]. split; [reflexivity|]. split; [exact Hfind|].
  rewrite (X7_first_attempt_success verify_allow_all (server_text "merged")
             client "merge_pull_request" false 3 one 0%nat
             (initial tt [merge_args]) merge_args "code.repository.merge.v1"
             permit tt tt result);
    [reflexivity|reflexivity|reflexivity|lia|reflexivity|reflexivity|
     reflexivity|reflexivity|reflexivity|exact Hfind].
Defined.

(** X8: the working arguments are adjusted only on a denial retry of
    [process_refund] or [export_customer_data].  With [retry_on_denial]
    unset, or for any other tool, every attempt of a call verifies the
    context built from the caller's arguments and dispatches the caller's
    arguments with the passport attached. *)
Theorem X8_arguments_fixed {World : Type}
    (verify_policy : World → string → string → dict → reply PolicyDecision * World)
    (session_call_tool : World → string → dict → reply CallToolResult * World)
    (self : MCPClientWithPassport) (tool_name : string) (retry_on_denial : bool)
    (max_retries : Z) (retry_backoff : spec_float) (skip_verification : bool)
    (args : loc) (st : state World) (d : dict) :
  store st !! args = Some d →
  retry_on_denial = false ∨
    (tool_name ≠ "process_refund" ∧ tool_name ≠ "export_customer_data") →
  let run := call_tool verify_policy session_call_tool self tool_name
               retry_on_denial max_retries retry_backoff skip_verification
               args st in
  Forall (λ c, c = _build_policy_context self tool_name d)
    (verified_contexts (new_events st run.2)) ∧
  Forall (λ a, a = attach_passport self d)
    (dispatched_arguments (new_events st run.2)).
Proof.
  intros Hargs Hfix run. unfold run. destruct (aport_client self) eqn:Hc.
  - rewrite call_tool_new_events by done. rewrite Hargs.
    cbn [default from_option id]. unfold call_pure.
    apply run_pure_fixed. destruct Hfix as [->|[Hr He]]; [by left|right].
    intros d'. by apply adjust_pure_unadjusted.
  - rewrite call_tool_no_client by done. simpl. rewrite new_events_same.
    by split.
Qed.

Lemma X8_witness :
  let run := call_tool verify_deny_all (server_text "merged") client
               "merge_pull_request" true 3 one false 0%nat
               (initial tt [merge_args]) in
  store (initial tt [merge_args]) !! 0%nat = Some merge_args ∧
  (true = false ∨
   ("merge_pull_request" ≠ "process_refund" ∧
    "merge_pull_request" ≠ "export_customer_data")) ∧
  Forall (λ c, c = _build_policy_context client "merge_pull_request" merge_args)
    (verified_contexts (new_events (initial tt [merge_args]) run.2)) ∧
  Forall (λ a, a = attach_passport client merge_args)
    (dispatched_arguments (new_events (initial tt [merge_args]) run.2)).
Proof.
  intros run.
  assert (H : true = false ∨
              ("merge_pull_request" ≠ "process_refund" ∧
               "merge_pull_request" ≠ "export_customer_data"))
    by (right; split; discriminate).
  split; [reflexivity|]. split; [exact H|].
  apply (X8_arguments_fixed verify_deny_all (server_text "merged") client
           "merge_pull_request" true 3 one false 0%nat
           (initial tt [merge_args]) merge_args); [reflexivity|exact H].
Defined.

(** X9: every verification of a call is made under the identity of the
    client and for the policy of the requested tool, and every dispatch
    is for the requested tool and carries the identity of the client
    under [agent_id], whatever the caller's arguments hold. *)
Theorem X9_events_addressed {World : Type}
    (verify_policy : World → string → string → dict → reply PolicyDecision * World)
    (session_call_tool : World → string → dict → reply CallToolResult * World)
    (self : MCPClientWithPassport) (tool_name : string) (retry_on_denial : bool)
    (max_retries : Z) (retry_backoff : spec_float) (skip_verification : bool)
    (args : loc) (st : state World) :
  Forall (addressed_event self tool_name)
    (new_events st
       (call_tool verify_policy session_call_tool self tool_name retry_on_denial
          max_retries retry_backoff skip_verification args st).2).
Proof.
  apply call_tool_events_forall; [|done].
  intros d n w. apply try_pure_addressed.
Qed.

(** X10: a [PolicyDeniedError] that a call raises reports a denial that
    happened in this call: either its result is a decision with
    [allow = false] that the authority answered to a verification of the
    call and its message is the one built from that decision, or its
    result is a tool result that the MCP session answered in the call and
    its message is the text that the scan finds in that result. *)
Theorem X10_denial_justified {World : Type}
    (verify_policy : World → string → string → dict → reply PolicyDecision * World)
    (session_call_tool : World → string → dict → reply CallToolResult * World)
    (self : MCPClientWithPassport) (tool_name : string) (retry_on_denial : bool)
    (max_retries : Z) (retry_backoff : spec_float) (skip_verification : bool)
    (args : loc) (st : state World) (msg : string) (result : denial_result) :
  let run := call_tool verify_policy session_call_tool self tool_name
               retry_on_denial max_retries retry_backoff skip_verification
               args st in
  run.1 = Raise (PolicyDeniedError msg result) →
  match result with
  | DeniedByDecision decision =>
      allow decision = false ∧ denial_message decision = Ok msg ∧
      ∃ agent policy_id l context,
        EVerify agent policy_id l context (Replied decision)
          ∈ new_events st run.2
  | DeniedByResult r =>
      find_denial_text (content r) = Some msg ∧
      ∃ t l arguments,
        ECallTool t l arguments (Replied r) ∈ new_events st run.2
  end.
Proof.
  intros run Hrun. apply call_tool_justified in Hrun. exact Hrun.
Qed.

Lemma X10_witness :
  let run := call_tool verify_deny_all (server_text "merged") client
               "merge_pull_request" false 3 one false 0%nat
               (initial tt [merge_args]) in
  run.1 = Raise (PolicyDeniedError "Policy denied: limit exceeded"
                   (DeniedByDecision deny)) ∧
  allow deny = false ∧
  denial_message deny = Ok "Policy denied: limit exceeded"%string ∧
  ∃ agent policy_id l context,
    EVerify agent policy_id l context (Replied deny)
      ∈ new_events (initial tt [merge_args]) run.2.
Proof.
  intros run.
  assert (H : run.1 = Raise (PolicyDeniedError "Policy denied: limit exceeded"
                                               (DeniedByDecision deny)))
    by (vm_compute; reflexivity).
  split; [exact H|].
  exact (X10_denial_justified verify_deny_all (server_text "merged") client
           "merge_pull_request" false 3 one false 0%nat
           (initial tt [merge_args]) "Policy denied: limit exceeded"
           (DeniedByDecision deny) H).
Defined.

(** X11: when a denial is to be retried (a denial whose reasons all
    have a message, or that has none, so that its message is built and
    [PolicyDeniedError] raised) and the field to halve holds a value
    that [int(value * 0.5)] rejects (a string, a list, [None], a number
    out of range), the exception of the halving leaves the call in place
    of the denial: the caller sees no [PolicyDeniedError], and the call
    ends after its first verification without a sleep. *)
Theorem X11_halving_error_masks_denial {World : Type}
    (verify_policy : World → string → string → dict → reply PolicyDecision * World)
    (session_call_tool : World → string → dict → reply CallToolResult * World)
    (self : MCPClientWithPassport) (tool_name field : string)
    (max_retries : Z) (retry_backoff : spec_float) (args : loc) (st : state World)
    (d : dict) (v : value) (e : exn) (policy_id : string)
    (decision : PolicyDecision) (w' : World) :
  aport_client self = true → (2 <= max_retries)%Z →
  (tool_name = "process_refund" ∧ field = "amount") ∨
  (tool_name = "export_customer_data" ∧ field = "limit") →
  store st !! args = Some d → d !! field = Some v →
  PyNum.int_times_half v = Raise e →
  _get_policy_id_for_tool tool_name = Ok policy_id →
  verify_policy (world st) (agent_id self) policy_id
    (_build_policy_context self tool_name d) = (Replied decision, w') →
  allow decision = false → reasons_have_messages decision →
  is_policy_denied e = false ∧
  call_tool verify_policy session_call_tool self tool_name true
    max_retries retry_backoff false args st =
  (Raise e,
   {| store := store st ++ [d; _build_policy_context self tool_name d];
      world := w';
      trace := trace st ++
        [EVerify (agent_id self) policy_id (S (length (store st)))
           (_build_policy_context self tool_name d) (Replied decision)] |}).
Proof.
  intros Hc Hm Hred Hargs Hd He Hpid Hv Hallow Hreasons.
  split; [by eapply int_times_half_raises|].
  rewrite call_tool_pure_eq by done. cbv zeta. rewrite Hargs.
  cbn [default from_option id].
  by rewrite (call_pure_halving_raises _ _ _ _ _ _ _ _ field _ _ _ policy_id
                decision w' v e) by done.
Qed.

Lemma X11_witness :
  let e := TypeError "can't multiply sequence by non-int of type 'float'" in
  aport_client client = true ∧ (2 <= 3)%Z ∧
  ("process_refund" = "process_refund" ∧ "amount" = "amount" ∨
   "process_refund" = "export_customer_data" ∧ "amount" = "limit") ∧
  store (initial tt [string_amount]) !! 0%nat = Some string_amount ∧
  string_amount !! "amount" = Some (VStr "100") ∧
  PyNum.int_times_half (VStr "100") = Raise e ∧
  _get_policy_id_for_tool "process_refund" = Ok "finance.payment.refund.v1" ∧
  verify_deny_all tt (agent_id client) "finance.payment.refund.v1"
    (_build_policy_context client "process_refund" string_amount)
    = (Replied deny, tt) ∧
  allow deny = false ∧ reasons_have_messages deny ∧
  is_policy_denied e = false ∧
  (call_tool verify_deny_all (server_text "refunded") client "process_refund"
     true 3 one false 0%nat (initial tt [string_amount])).1 = Raise e.
Proof.
  intros e.
  assert (Hreasons : reasons_have_messages deny)
    by (repeat constructor; by eexists).
  assert (Hred : "process_refund" = "process_refund" ∧ "amount" = "amount" ∨
                 "process_refund" = "export_customer_data" ∧ "amount" = "limit")
    by (left; split; reflexivity).
  split; [reflexivity|]. split; [lia|]. split; [exact Hred|].
  split; [reflexivity|]. split; [reflexivity|]. split; [reflexivity|].
  split; [reflexivity|]. split; [reflexivity|]. split; [reflexivity|].
  split; [exact Hreasons|].
  destruct (X11_halving_error_masks_denial verify_deny_all
              (server_text "refunded") client "process_refund" "amount" 3 one
              0%nat (initial tt [string_amount]) string_amount (VStr "100") e
              "finance.payment.refund.v1" deny tt)
    as [Hnd Hrun];
    [reflexivity|lia|exact Hred|reflexivity|reflexivity|reflexivity|
     reflexivity|reflexivity|reflexivity|exact Hreasons|].
  split; [exact Hnd|]. rewrite Hrun. reflexivity.
Defined.

(** X12: against an MCP session that fails every call, with an authority
    that allows every request, a call makes [max_retries] attempts: each
    attempt consults the authority afresh on the same context and
    dispatches the same arguments, the call sleeps after every attempt
    but the last, and the failure of the session is raised. *)
Theorem X12_failing_session_retried {World : Type}
    (verify_policy : World → string → string → dict → reply PolicyDecision * World)
    (session_call_tool : World → string → dict → reply CallToolResult * World)
    (self : MCPClientWithPassport) (tool_name : string) (retry_on_denial : bool)
    (max_retries : Z) (retry_backoff : spec_float) (args : loc) (st : state World)
    (d : dict) (policy_id msg : string) :
  aport_client self = true → session self = true →
  (1 <= max_retries <= 2 ^ 53)%Z →
  store st !! args = Some d →
  _get_policy_id_for_tool tool_name = Ok policy_id →
  (∀ w c, ∃ decision w',
     verify_policy w (agent_id self) policy_id c = (Replied decision, w') ∧
     allow decision = true) →
  (∀ w a, ∃ w', session_call_tool w tool_name a = (Failed msg, w')) →
  let run := call_tool verify_policy session_call_tool self tool_name
               retry_on_denial max_retries retry_backoff false args st in
  run.1 = Raise (External msg) ∧
  verified_contexts (new_events st run.2) =
    replicate (Z.to_nat max_retries) (_build_policy_context self tool_name d) ∧
  dispatched_arguments (new_events st run.2) =
    replicate (Z.to_nat max_retries) (attach_passport self d) ∧
  length (sleeps (new_events st run.2)) = (Z.to_nat max_retries - 1)%nat.
Proof.
  intros Hc Hs Hm Hargs Hpid Hallow Hfail run. unfold run.
  rewrite call_tool_outcome, call_tool_new_events by done. rewrite Hargs.
  cbn [default from_option id]. unfold call_pure, range.
  replace (Z.to_nat max_retries) with (S (Z.to_nat (max_retries - 1))) by lia.
  destruct (run_pure_exec_failing verify_policy session_call_tool self tool_name
              retry_on_denial max_retries retry_backoff false policy_id msg
              (Z.to_nat (max_retries - 1)) 0 None d (S (length (store st)))
              (world st))
    as (fx & Hrun & Hctx & Hdisp & Hsl); try done; [lia|lia|].
  rewrite Hrun. cbn [fst snd]. split; [done|]. split; [done|]. split; [done|].
  rewrite Hsl. lia.
Qed.

Lemma X12_witness :
  let run := call_tool verify_allow_all server_unreachable client
               "merge_pull_request" false 3 one false 0%nat
               (initial tt [merge_args]) in
  aport_client client = true ∧ session client = true ∧
  (1 <= 3 <= 2 ^ 53)%Z ∧
  store (initial tt [merge_args]) !! 0%nat = Some merge_args ∧
  _get_policy_id_for_tool "merge_pull_request" = Ok "code.repository.merge.v1" ∧
  run.1 = Raise (External "connection refused") ∧
  verified_contexts (new_events (initial tt [merge_args]) run.2) =
    replicate 3 (_build_policy_context client "merge_pull_request" merge_args) ∧
  dispatched_arguments (new_events (initial tt [merge_args]) run.2) =
    replicate 3 (attach_passport client merge_args) ∧
  length (sleeps (new_events (initial tt [merge_args]) run.2)) = 2%nat.
Proof.
  intros run.
  split; [reflexivity|]. split; [reflexivity|]. split; [lia|].
  split; [reflexivity|]. split; [reflexivity|].
  apply (X12_failing_session_retried verify_allow_all server_unreachable client
           "merge_pull_request" false 3 one 0%nat (initial tt [merge_args])
           merge_args "code.repository.merge.v1" "connection refused");
    [reflexivity|reflexivity|lia|reflexivity|reflexivity| |].
  - intros w c. exists permit, w. split; reflexivity.
  - intros w a. exists w. reflexivity.
Defined.

(** X13: the adjustment before a denial retry, on the dict object of the
    working arguments: for [process_refund] with an integer [amount], or
    [export_customer_data] with an integer [limit], of absolute value
    below [2^53], the field is replaced by its half rounded toward zero
    (so [-3] becomes [-1]); every other entry of the object, every other
    object and the trace are left as they are. *)
Theorem X13_adjustment_truncates {World : Type}
    (tool_name field : string) (cur : loc) (st : state World) (d : dict) (n : Z) :
  (tool_name = "process_refund" ∧ field = "amount") ∨
  (tool_name = "export_customer_data" ∧ field = "limit") →
  store st !! cur = Some d → d !! field = Some (VInt n) →
  (- 2 ^ 53 < n < 2 ^ 53)%Z →
  adjust_arguments tool_name cur st =
  (Ok tt,
   {| store := <[cur := <[field := VInt (Z.quot n 2)]> d]> (store st);
      world := world st; trace := trace st |}).
Proof.
  intros Hred Hcur Hd Hn. rewrite (adjust_pure_eq _ _ _ d) by done.
  rewrite (adjust_pure_quot _ field _ n) by done.
  unfold apply_fx. simpl. by rewrite !app_nil_r.
Qed.

Lemma X13_witness :
  let d : dict := {[ "amount" := VInt (-3) ]} in
  ("process_refund" = "process_refund" ∧ "amount" = "amount" ∨
   "process_refund" = "export_customer_data" ∧ "amount" = "limit") ∧
  store (initial tt [d]) !! 0%nat = Some d ∧
  d !! "amount" = Some (VInt (-3)) ∧
  (- 2 ^ 53 < -3 < 2 ^ 53)%Z ∧
  adjust_arguments "process_refund" 0%nat (initial tt [d]) =
  (Ok tt,
   {| store := <[0%nat := <["amount" := VInt (Z.quot (-3) 2)]> d]> [d];
      world := tt; trace := [] |}).
Proof.
  intros d.
  assert (Hred : "process_refund" = "process_refund" ∧ "amount" = "amount" ∨
                 "process_refund" = "export_customer_data" ∧ "amount" = "limit")
    by (left; split; reflexivity).
  split; [exact Hred|]. split; [reflexivity|]. split; [reflexivity|].
  split; [lia|].
  apply (X13_adjustment_truncates "process_refund" "amount" 0%nat
           (initial tt [d]) d (-3)); [exact Hred|reflexivity|reflexivity|lia].
Defined.

(** X14: the scan of a tool result for a server-side denial finds the
    text of the first item that is a dict of type [text] whose text has
    [Policy denied] as a substring, and nothing when there is no such
    item; items that are no dicts are passed over. *)
Theorem X14_denial_scan_first_match (items : list content_item) (text : string) :
  find_denial_text items = Some text ↔
  ∃ pre d post,
    items = pre ++ CDict d :: post ∧
    d !! "type" = Some "text"%string ∧ d !! "text" = Some text ∧
    (∃ a b, text = a +:+ "Policy denied" +:+ b) ∧
    Forall (λ item, ¬ denial_item item) pre.
Proof.
  induction items as [|item items IH].
  { split; [done|]. intros (pre & d & post & H & _). by destruct pre. }
  assert (Hskip : ¬ denial_item item →
                  find_denial_text items = Some text →
                  ∃ pre d post,
                    item :: items = pre ++ CDict d :: post ∧
                    d !! "type" = Some "text"%string ∧ d !! "text" = Some text ∧
                    (∃ a b, text = a +:+ "Policy denied" +:+ b) ∧
                    Forall (λ item, ¬ denial_item item) pre).
  { intros Hitem (pre & d & post & -> & Htype & Htext & Hsub & Hpre)%IH.
    exists (item :: pre), d, post. split; [done|]. by repeat constructor. }
  split.
  - destruct item as [d|cls]; simpl.
    2:{ apply Hskip, denial_item_object. }
    case_bool_decide as Htype.
    2:{ apply Hskip. rewrite denial_item_dict. by intros [? _]. }
    destruct (contains "Policy denied" (default EmptyString (d !! "text")))
      eqn:Hc.
    2:{ apply Hskip. rewrite denial_item_dict. intros [_ ?]. congruence. }
    intros [= <-]. exists [], d, items. split; [done|]. split; [done|].
    destruct (d !! "text") as [t|] eqn:Htext; [|done]. simpl in *.
    split; [done|]. split; [by apply contains_app|constructor].
  - intros (pre & d & post & Hitems & Htype & Htext & Hsub & Hpre).
    destruct pre as [|item' pre].
    + injection Hitems as -> ->. simpl.
      rewrite bool_decide_eq_true_2 by done. rewrite Htext. simpl.
      apply contains_app in Hsub. by rewrite Hsub.
    + injection Hitems as <- ->. apply Forall_cons in Hpre as [Hitem Hpre].
      assert (Hrest : find_denial_text (pre ++ CDict d :: post) = Some text).
      { apply IH. by exists pre, d, post. }
      destruct item as [d0|cls]; simpl; [|done].
      rewrite denial_item_dict in Hitem.
      case_bool_decide as Htype0; [|done].
      destruct (contains "Policy denied" (default EmptyString (d0 !! "text")))
        eqn:Hc; [|done].
      by destruct Hitem.
Qed.

(** X15: the name maps of both wrappers are the identity: every function
    name of OpenAI and every tool name of Anthropic is passed to
    [call_tool] as it is, whether it is in the table or not. *)
Theorem X15_name_maps_identity (name : string) :
  _map_openai_function_to_mcp_tool name = name ∧
  _map_anthropic_tool_to_mcp_tool name = name.
Proof.
  split.
  - unfold _map_openai_function_to_mcp_tool. apply map_lookup_identity.
    unfold openai_function_map. by repeat constructor.
  - unfold _map_anthropic_tool_to_mcp_tool. apply map_lookup_identity.
    unfold anthropic_tool_map. by repeat constructor.
Qed.

(** X16: [handle_function_call] reads the items of a result with
    [c.get], which only a dict has.  When [call_tool] returns a result in
    which an item that is no dict comes before every dict of type [text],
    the wrapper reports the [AttributeError] as an error to the model,
    although the MCP session executed the tool and answered: the
    dispatch is the last event of the call.  This holds for a wrapper
    whose MCP client is set and for one that initialises it first. *)
Theorem X16_object_item_reported_as_error {World : Type}
    (verify_policy : World → string → string → dict → reply PolicyDecision * World)
    (session_call_tool : World → string → dict → reply CallToolResult * World)
    (mcp_sdk aport_sdk : bool)
    (enter_session : World → session_outcome * World)
    (self : OpenAIWithMCPPassport) (function_name : string)
    (args : loc) (st : state World)
    (mcp_client : MCPClientWithPassport) (st0 : state World)
    (result : CallToolResult)
    (pre post : list content_item) (cls : string) (attrs : gmap string string) :
  ensure_mcp_client mcp_sdk aport_sdk enter_session (openai_agent_id self)
    (openai_mcp_client self) st = (Ok tt, mcp_client, st0) →
  (call_tool verify_policy session_call_tool mcp_client
     (_map_openai_function_to_mcp_tool function_name) true 3 one false
     args st0).1 = Ok result →
  content result = pre ++ CObject cls attrs :: post →
  Forall (λ item, ∃ d, item = CDict d ∧ d !! "type" ≠ Some "text"%string) pre →
  let run := handle_function_call verify_policy session_call_tool mcp_sdk
               aport_sdk enter_session self function_name args st in
  run.1.1 = Ok (function_message function_name
                  ("Error: '" +:+ cls +:+ "' object has no attribute 'get'")) ∧
  ∃ l arguments,
    last (new_events st run.2) =
      Some (ECallTool (_map_openai_function_to_mcp_tool function_name) l
              arguments (Replied result)).
Proof.
  intros Hens Hcall Hcontent Hpre run. unfold run, handle_function_call.
  pose proof (ensure_mcp_client_frame mcp_sdk aport_sdk enter_session
                (openai_agent_id self) (openai_mcp_client self) st) as [_ Htr0].
  rewrite Hens in Htr0 |- *. cbn [fst snd] in Htr0.
  pose proof (call_tool_returned verify_policy session_call_tool mcp_client
                (_map_openai_function_to_mcp_tool function_name) true 3 one
                false args st0 result Hcall) as [_ Hlast].
  rewrite route_function_call_eq.
  destruct (call_tool _ _ _ _ _ _ _ _ _ _) as [r st'].
  simpl in Hcall, Hlast. subst r. cbn [fst snd]. split.
  - rewrite Hcontent.
    destruct (pre ++ CObject cls attrs :: post) as [|item items] eqn:Hitems;
      [by destruct pre|].
    rewrite <- Hitems. by rewrite first_text_object.
  - by rewrite <- (new_events_trace st st0 st').
Qed.

Lemma X16_witness :
  let st : state unit := initial tt [merge_args] in
  let result := {| content := [text_content "merged"] |} in
  ensure_mcp_client true true session_entered (openai_agent_id openai_wrapper)
    (openai_mcp_client openai_wrapper) st = (Ok tt, client, st) ∧
  (call_tool verify_allow_all (server_object "merged") client
     (_map_openai_function_to_mcp_tool "merge_pull_request") true 3 one false
     0%nat st).1 = Ok result ∧
  content result =
    [] ++ CObject "TextContent" {[ "type" := "text"; "text" := "merged" ]} :: [] ∧
  (handle_function_call verify_allow_all (server_object "merged") true true
     session_entered openai_wrapper "merge_pull_request" 0%nat st).1.1 =
  Ok (function_message "merge_pull_request"
        "Error: 'TextContent' object has no attribute 'get'").
Proof.
  intros st result.
  assert (Hcall : (call_tool verify_allow_all (server_object "merged") client
                     (_map_openai_function_to_mcp_tool "merge_pull_request")
                     true 3 one false 0%nat st).1 = Ok result)
    by (vm_compute; reflexivity).
  split; [reflexivity|]. split; [exact Hcall|]. split; [reflexivity|].
  exact (proj1 (X16_object_item_reported_as_error verify_allow_all
                  (server_object "merged") true true session_entered
                  openai_wrapper "merge_pull_request" 0%nat st client st result
                  [] [] "TextContent" _ eq_refl Hcall eq_refl (Forall_nil_2 _))).
Defined.

(** X17: whatever the collaborators answer, and whether the wrapper has
    its MCP client or initialises it first, one [handle_function_call]
    consults the policy authority at most three times, dispatches to the
    MCP session at most three times, and sleeps for one second and then
    for two at most: its delays are a prefix of [1.0; 2.0]. *)
Theorem X17_function_call_bounded {World : Type}
    (verify_policy : World → string → string → dict → reply PolicyDecision * World)
    (session_call_tool : World → string → dict → reply CallToolResult * World)
    (mcp_sdk aport_sdk : bool)
    (enter_session : World → session_outcome * World)
    (self : OpenAIWithMCPPassport) (function_name : string)
    (args : loc) (st : state World) :
  let run := handle_function_call verify_policy session_call_tool mcp_sdk
               aport_sdk enter_session self function_name args st in
  (length (verified_contexts (new_events st run.2)) ≤ 3)%nat ∧
  (length (dispatched_arguments (new_events st run.2)) ≤ 3)%nat ∧
  ∃ k, sleeps (new_events st run.2) = take k [one; two].
Proof.
  intros run. unfold run.
  destruct (handle_function_call_attempts verify_policy session_call_tool
              mcp_sdk aport_sdk enter_session self function_name args st)
    as (evs & Htr & _ & _ & Hv & Hd & Hk).
  by rewrite (new_events_app _ _ _ Htr).
Qed.

(** X18: [handle_tool_use] raises in one case only: when the wrapper has
    no MCP client yet and the initialisation of one, which runs before
    the [try] statement, raises; then nothing else happens.  Otherwise,
    and always when the MCP client is set, it answers with a message
    that carries the id of the tool use it was given.  It makes a single
    attempt: at most one verification, at most one dispatch, and no
    sleep. *)
Theorem X18_tool_use_single_attempt {World : Type}
    (verify_policy : World → string → string → dict → reply PolicyDecision * World)
    (session_call_tool : World → string → dict → reply CallToolResult * World)
    (mcp_sdk aport_sdk : bool)
    (enter_session : World → session_outcome * World)
    (self : AnthropicWithMCPPassport) (tool_use : ToolUse) (st : state World) :
  let run := handle_tool_use verify_policy session_call_tool mcp_sdk aport_sdk
               enter_session self tool_use st in
  let ensured := ensure_mcp_client mcp_sdk aport_sdk enter_session
                   (anthropic_agent_id self) (anthropic_mcp_client self) st in
  match ensured.1.1 with
  | Raise e => run.1.1 = Raise e ∧ run.2 = ensured.2
  | Ok _ =>
      ∃ text, run.1.1 = Ok {| result_tool_use_id := tool_use_id tool_use;
                              result_content := text |}
  end ∧
  (∀ mcp_client, anthropic_mcp_client self = Some mcp_client →
     ∃ text, run.1.1 = Ok {| result_tool_use_id := tool_use_id tool_use;
                             result_content := text |}) ∧
  (length (verified_contexts (new_events st run.2)) ≤ 1)%nat ∧
  (length (dispatched_arguments (new_events st run.2)) ≤ 1)%nat ∧
  sleeps (new_events st run.2) = [].
Proof.
  intros run ensured.
  destruct (handle_tool_use_attempt verify_policy session_call_tool mcp_sdk
              aport_sdk enter_session self tool_use st)
    as (evs & Htr & Hrun & _ & Hv & Hd & Hsl).
  fold run ensured in Htr, Hrun.
  rewrite (new_events_app _ _ _ Htr). split.
  { destruct ensured.1.1 as [[]|e]; [done|]. by destruct Hrun as (? & ? & _). }
  split; [|done].
  intros mcp_client Hc. unfold ensured in Hrun. by rewrite Hc in Hrun.
Qed.

(** X19: a tool use that the authority denies is answered after a single
    verification and without a dispatch.  When the reasons of the
    decision all have a message, or there are none, the text carries
    the prefix twice, once from [call_tool] and once from the wrapper,
    before the reasons.  When a reason is a mapping, the denial reaches
    the model as an error about the missing attribute. *)
Theorem X19_tool_use_denial_text {World : Type}
    (verify_policy : World → string → string → dict → reply PolicyDecision * World)
    (session_call_tool : World → string → dict → reply CallToolResult * World)
    (mcp_sdk aport_sdk : bool)
    (enter_session : World → session_outcome * World)
    (self : AnthropicWithMCPPassport) (tool_use : ToolUse) (st : state World)
    (mcp_client : MCPClientWithPassport) (st0 : state World)
    (d : dict) (policy_id : string) (decision : PolicyDecision) (w' : World) :
  ensure_mcp_client mcp_sdk aport_sdk enter_session (anthropic_agent_id self)
    (anthropic_mcp_client self) st = (Ok tt, mcp_client, st0) →
  aport_client mcp_client = true →
  match tool_use_input tool_use with
  | Some l => store st !! l = Some d
  | None => d = ∅
  end →
  _get_policy_id_for_tool (tool_use_name tool_use) = Ok policy_id →
  verify_policy (world st0) (agent_id mcp_client) policy_id
    (_build_policy_context mcp_client (tool_use_name tool_use) d)
    = (Replied decision, w') →
  allow decision = false →
  let run := handle_tool_use verify_policy session_call_tool mcp_sdk aport_sdk
               enter_session self tool_use st in
  run.1.1 = Ok {| result_tool_use_id := tool_use_id tool_use;
                  result_content :=
                    match denial_message decision with
                    | Ok msg => "Policy denied: " +:+ msg
                    | Raise _ =>
                        "Error: 'dict' object has no attribute 'message'"
                    end |} ∧
  (∀ msg, denial_message decision = Ok msg →
     ∃ reasons_text, msg = "Policy denied: " +:+ reasons_text) ∧
  new_events st run.2 =
    [EVerify (agent_id mcp_client) policy_id (S (S (length (store st))))
       (_build_policy_context mcp_client (tool_use_name tool_use) d)
       (Replied decision)].
Proof.
  intros Hens Hc Hinput Hpid Hv Hallow run. unfold run, handle_tool_use.
  pose proof (ensure_mcp_client_frame mcp_sdk aport_sdk enter_session
                (anthropic_agent_id self) (anthropic_mcp_client self) st)
    as [Hst0 Htr0].
  rewrite Hens in Hst0, Htr0 |- *. cbn [fst snd] in Hst0, Htr0.
  rewrite route_tool_use_eq. cbv zeta.
  assert (Hid : _map_anthropic_tool_to_mcp_tool (tool_use_name tool_use)
                = tool_use_name tool_use).
  { unfold _map_anthropic_tool_to_mcp_tool. apply map_lookup_identity.
    unfold anthropic_tool_map. by repeat constructor. }
  rewrite Hid. rewrite call_tool_pure_eq by done. cbv zeta.
  cbn [store world trace]. unfold loc in *. rewrite Hst0, Htr0.
  match goal with
  | |- context [default ∅ (?objs !! ?input)] =>
      assert (Hd : default ∅ (objs !! input) = d);
      [|rewrite Hd]
  end.
  { destruct (tool_use_input tool_use) as [l|]; cbn [default from_option id].
    - rewrite lookup_app_l by (by eapply lookup_lt_Some). by rewrite Hinput.
    - subst d. by rewrite list_lookup_middle. }
  set (error := match denial_message decision with
                | Ok msg => PolicyDeniedError msg (DeniedByDecision decision)
                | Raise e => e
                end).
  assert (Hout : decision_outcome (Replied decision) = Raise error).
  { unfold error. simpl. rewrite Hallow. by destruct (denial_message decision). }
  rewrite (call_pure_refused_once _ _ _ _ _ _ _ _ _ _ _ policy_id
             (Replied decision) w' error) by done.
  cbn [fst snd emitted trace]. split; [|split].
  - f_equal. f_equal. unfold error.
    destruct (denial_message decision) as [msg|e] eqn:Hmsg; [done|].
    by rewrite (denial_message_raises _ _ Hmsg).
  - intros msg. unfold denial_message.
    destruct (reasons decision) as [|r rs]; [intros [= <-]; by eexists|].
    destruct (reason_messages (r :: rs)) as [ms|e]; [|done].
    intros [= <-]. by eexists.
  - unfold new_events. cbn [trace]. rewrite drop_app_length.
    by rewrite length_app, Nat.add_1_r.
Qed.

Lemma X19_witness :
  let tool_use := {| tool_use_id := Some "toolu_abc123";
                     tool_use_name := "merge_pull_request";
                     tool_use_input := Some 0%nat |} in
  let st : state unit := initial tt [merge_args] in
  ensure_mcp_client true true session_entered
    (anthropic_agent_id anthropic_wrapper)
    (anthropic_mcp_client anthropic_wrapper) st = (Ok tt, client, st) ∧
  aport_client client = true ∧
  store st !! 0%nat = Some merge_args ∧
  _get_policy_id_for_tool "merge_pull_request" = Ok "code.repository.merge.v1" ∧
  verify_deny_all tt (agent_id client) "code.repository.merge.v1"
    (_build_policy_context client "merge_pull_request" merge_args)
    = (Replied deny, tt) ∧
  allow deny = false ∧
  (handle_tool_use verify_deny_all (server_text "merged") true true
     session_entered anthropic_wrapper tool_use st).1.1 =
  Ok {| result_tool_use_id := Some "toolu_abc123";
        result_content := "Policy denied: Policy denied: limit exceeded" |}.
Proof.
  intros tool_use st.
  split; [reflexivity|]. split; [reflexivity|]. split; [reflexivity|].
  split; [reflexivity|]. split; [reflexivity|]. split; [reflexivity|].
  exact (proj1 (X19_tool_use_denial_text verify_deny_all (server_text "merged")
                  true true session_entered anthropic_wrapper tool_use st
                  client st merge_args "code.repository.merge.v1" deny tt
                  eq_refl eq_refl eq_refl eq_refl eq_refl eq_refl)).
Defined.

(** X20: no decision is reused from an earlier call.  From any state,
    a call with [skip_verification] unset, for a tool that has a policy
    and with [max_retries >= 1], begins by asking the authority about the
    context built from the caller's arguments: that verification is the
    first event of the call, before any dispatch or sleep. *)
Theorem X20_every_call_verifies_first {World : Type}
    (verify_policy : World → string → string → dict → reply PolicyDecision * World)
    (session_call_tool : World → string → dict → reply CallToolResult * World)
    (self : MCPClientWithPassport) (tool_name : string) (retry_on_denial : bool)
    (max_retries : Z) (retry_backoff : spec_float) (args : loc) (st : state World)
    (d : dict) (policy_id : string) :
  aport_client self = true → (1 <= max_retries)%Z →
  store st !! args = Some d →
  _get_policy_id_for_tool tool_name = Ok policy_id →
  let run := call_tool verify_policy session_call_tool self tool_name
               retry_on_denial max_retries retry_backoff false args st in
  let context := _build_policy_context self tool_name d in
  ∃ rest,
    new_events st run.2 =
    EVerify (agent_id self) policy_id (S (length (store st))) context
      (verify_policy (world st) (agent_id self) policy_id context).1 :: rest.
Proof.
  intros Hc Hm Hargs Hpid run context.
  destruct (call_tool_first_event verify_policy session_call_tool self
              tool_name retry_on_denial max_retries retry_backoff false args st
              policy_id) as [rest Hrest]; try done.
  exists rest. unfold run, context. rewrite Hrest, Hargs. done.
Qed.

Lemma X20_witness :
  let st : state unit := initial tt [merge_args] in
  let run := call_tool verify_deny_all (server_text "merged") client
               "merge_pull_request" false 3 one false 0%nat st in
  aport_client client = true ∧ (1 <= 3)%Z ∧
  store st !! 0%nat = Some merge_args ∧
  _get_policy_id_for_tool "merge_pull_request" = Ok "code.repository.merge.v1" ∧
  ∃ rest,
    new_events st run.2 =
    EVerify (agent_id client) "code.repository.merge.v1" 2%nat
      (_build_policy_context client "merge_pull_request" merge_args)
      (verify_deny_all tt (agent_id client) "code.repository.merge.v1"
         (_build_policy_context client "merge_pull_request" merge_args)).1
    :: rest.
Proof.
  intros st run.
  split; [reflexivity|]. split; [lia|]. split; [reflexivity|].
  split; [reflexivity|].
  apply (X20_every_call_verifies_first verify_deny_all (server_text "merged")
           client "merge_pull_request" false 3 one 0%nat st merge_args
           "code.repository.merge.v1"); [reflexivity|lia|reflexivity|reflexivity].
Defined.

(** X21: the retry on denial ends with the first halved value that the
    authority accepts.  For [process_refund] with an integer [amount], or
    [export_customer_data] with an integer [limit], of value
    [0 <= v < 2^53], with [retry_on_denial] set, an authority that
    decides by the value of that field and whose decisions have reasons
    that all carry a message (or no reasons), and an MCP session in
    whose results the scan finds no denial: when [v / 2^j] is the first
    of the values [v], [v / 2], [v / 4], ... that the authority accepts
    and [j < max_retries], the call returns a result after [j + 1]
    verifications, of the values [v / 2^m] for [m = 0, ..., j], after [j]
    sleeps and a single dispatch, which carries [v / 2^j]; no rejected
    value reaches the MCP session. *)
Theorem X21_halving_until_accepted {World : Type}
    (verify_policy : World → string → string → dict → reply PolicyDecision * World)
    (session_call_tool : World → string → dict → reply CallToolResult * World)
    (self : MCPClientWithPassport) (tool_name field : string)
    (max_retries : Z) (retry_backoff : spec_float) (args : loc) (st : state World)
    (d : dict) (v : Z) (accepts : Z → bool) (j : nat) :
  (tool_name = "process_refund" ∧ field = "amount") ∨
  (tool_name = "export_customer_data" ∧ field = "limit") →
  aport_client self = true → session self = true →
  (Z.of_nat j < max_retries <= 2 ^ 53)%Z →
  store st !! args = Some d → d !! field = Some (VInt v) → (0 <= v < 2 ^ 53)%Z →
  (∀ w policy_id c x, c !! field = Some (VInt x) →
     ∃ decision w',
       verify_policy w (agent_id self) policy_id c = (Replied decision, w') ∧
       allow decision = accepts x ∧ reasons_have_messages decision) →
  (∀ w a, ∃ result w',
     session_call_tool w tool_name a = (Replied result, w') ∧
     find_denial_text (content result) = None) →
  (∀ m : nat, (m < j)%nat → accepts (v / 2 ^ Z.of_nat m)%Z = false) →
  accepts (v / 2 ^ Z.of_nat j)%Z = true →
  let run := call_tool verify_policy session_call_tool self tool_name true
               max_retries retry_backoff false args st in
  (∃ result, run.1 = Ok result) ∧
  (λ c : dict, c !! field) <$> verified_contexts (new_events st run.2) =
    (λ m : nat, Some (VInt (v / 2 ^ Z.of_nat m))) <$> seq 0 (S j) ∧
  dispatched_arguments (new_events st run.2) =
    [attach_passport self (<[field := VInt (v / 2 ^ Z.of_nat j)]> d)] ∧
  length (sleeps (new_events st run.2)) = j.
Proof.
  intros Hred Hc Hs Hm Hargs Hd Hv Hauth Hcall Hden Hacc run. unfold run.
  destruct (reducible_mapped _ _ Hred) as [policy_id Hpid].
  rewrite call_tool_outcome, call_tool_new_events by done. rewrite Hargs.
  cbn [default from_option id]. unfold call_pure, range.
  destruct (run_pure_halving_until_allowed verify_policy session_call_tool self
              tool_name max_retries retry_backoff field policy_id accepts j
              v 0%nat (Z.to_nat max_retries) None d (S (length (store st)))
              (world st))
    as (result & fx & Hrun & Hctx & Hdisp & Hsl);
    [done|done|done|by intros w c x; apply Hauth|done|done|done|done|done|
     lia|lia|lia|].
  rewrite Hrun. cbn [fst snd]. split; [by exists result|]. done.
Qed.

Lemma X21_witness :
  let st : state unit := initial tt [refund_args] in
  let accepts := λ x : Z, negb (500000 <? x)%Z in
  let run := call_tool verify_threshold (server_text "refunded") client
               "process_refund" true 3 one false 0%nat st in
  aport_client client = true ∧ session client = true ∧
  (Z.of_nat 1 < 3 <= 2 ^ 53)%Z ∧
  store st !! 0%nat = Some refund_args ∧
  refund_args !! "amount" = Some (VInt 1000000) ∧
  (0 <= 1000000 < 2 ^ 53)%Z ∧
  accepts (1000000 / 2 ^ Z.of_nat 1)%Z = true ∧
  (∃ result, run.1 = Ok result) ∧
  (λ c : dict, c !! "amount") <$> verified_contexts (new_events st run.2) =
    (λ m : nat, Some (VInt (1000000 / 2 ^ Z.of_nat m))) <$> seq 0 2 ∧
  dispatched_arguments (new_events st run.2) =
    [attach_passport client
       (<["amount" := VInt (1000000 / 2 ^ Z.of_nat 1)]> refund_args)] ∧
  length (sleeps (new_events st run.2)) = 1%nat.
Proof.
  intros st accepts run.
  split; [reflexivity|]. split; [reflexivity|]. split; [simpl; lia|].
  split; [reflexivity|]. split; [reflexivity|]. split; [lia|].
  split; [reflexivity|].
  apply (X21_halving_until_accepted verify_threshold (server_text "refunded")
           client "process_refund" "amount" 3 one 0%nat st refund_args 1000000
           accepts 1).
  - left. split; reflexivity.
  - reflexivity.
  - reflexivity.
  - simpl. lia.
  - reflexivity.
  - reflexivity.
  - lia.
  - intros w policy_id c x Hx. unfold verify_threshold, accepts. rewrite Hx.
    destruct (500000 <? x)%Z; eexists _, _;
      (split; [reflexivity|]); (split; [reflexivity|]);
      repeat constructor; by eexists.
  - intros w a. eexists _, _. split; [reflexivity|]. vm_compute. reflexivity.
  - intros m Hlt. assert (m = 0%nat) as -> by lia. reflexivity.
  - reflexivity.
Defined.

(** X22: [messages_with_tools] of a wrapper that has an Anthropic
    client, once its MCP client is there (it was set, or its
    initialisation succeeded) and the first request is answered.  When
    the response does not stop for a tool use, it is returned as it is:
    no tool is run, whatever blocks the response holds, and the
    messages of the caller are left as they are.  When it stops for a
    tool use, every tool use block is answered exactly once and in
    order, each result under the id of its block; the messages of the
    caller are extended by the assistant message and by the message of
    these results; the loop makes at most one verification and one
    dispatch for each tool use and never sleeps; and the only exception
    that can leave the function is a failure of the second request. *)
Theorem X22_tool_uses_answered_in_order {World : Type}
    (verify_policy : World → string → string → dict → reply PolicyDecision * World)
    (session_call_tool : World → string → dict → reply CallToolResult * World)
    (mcp_sdk aport_sdk : bool)
    (enter_session : World → session_outcome * World)
    (messages_create : World → list message_param → reply Message * World)
    (self : AnthropicWithMCPPassport) (messages : list message_param)
    (st : state World) (mcp_client : MCPClientWithPassport) (st0 : state World)
    (response : Message) (w1 : World) :
  anthropic_client self = true →
  ensure_mcp_client mcp_sdk aport_sdk enter_session (anthropic_agent_id self)
    (anthropic_mcp_client self) st = (Ok tt, mcp_client, st0) →
  messages_create (world st0) messages = (Replied response, w1) →
  let run := messages_with_tools verify_policy session_call_tool mcp_sdk
               aport_sdk enter_session messages_create self messages st in
  (stop_reason response ≠ "tool_use"%string →
   run.1.1 = (Ok response, messages) ∧
   run.2 = {| store := store st; world := w1; trace := trace st |}) ∧
  (stop_reason response = "tool_use"%string →
   ∃ tool_results,
     run.1.1.2 = messages ++ [AssistantMessage (message_content response);
                              ToolResultsMessage tool_results] ∧
     result_tool_use_id <$> tool_results =
       Some <$> tool_use_ids (message_content response) ∧
     ((∃ final_response, run.1.1.1 = Ok final_response) ∨
      (∃ msg, run.1.1.1 = Raise (External msg))) ∧
     (length (verified_contexts (new_events st run.2))
        ≤ length (tool_use_ids (message_content response)))%nat ∧
     (length (dispatched_arguments (new_events st run.2))
        ≤ length (tool_use_ids (message_content response)))%nat ∧
     sleeps (new_events st run.2) = []).
Proof.
  intros Hclient Hens Hcreate run. unfold run, messages_with_tools.
  pose proof (ensure_mcp_client_frame mcp_sdk aport_sdk enter_session
                (anthropic_agent_id self) (anthropic_mcp_client self) st)
    as [Hst0 Htr0].
  rewrite Hclient, Hens in *. cbn [negb fst snd] in *.
  rewrite await_messages_create_eq, Hcreate. cbn [fst snd].
  set (self0 := {| anthropic_agent_id := anthropic_agent_id self;
                   anthropic_client := true;
                   anthropic_mcp_client := Some mcp_client |}).
  set (st1 := {| store := store st0; world := w1; trace := trace st0 |}).
  destruct (String.eqb_spec (stop_reason response) "tool_use") as [Hstop|Hstop].
  2:{ split; [|done]. intros _. cbn [fst snd]. split; [done|].
      unfold st1. by rewrite Hst0, Htr0. }
  split; [done|]. intros _.
  destruct (for_content_answers verify_policy session_call_tool mcp_sdk
              aport_sdk enter_session self0 mcp_client
              (message_content response) eq_refl [] st1)
    as (results & evs & st2 & Hfor & Hids & Htr & Hv & Hd & Hsl).
  rewrite Hfor. cbn [app]. rewrite await_messages_create_eq.
  exists results.
  assert (Hev : trace st2 = trace st ++ evs) by (by rewrite Htr, <- Htr0).
  destruct (messages_create (world st2) _).1 as [final_response|msg];
    cbn [fst snd]; (split; [done|]); (split; [done|]);
    rewrite (new_events_app st _ evs) by done; (split; [by eauto|done]).
Qed.

Lemma X22_witness :
  let response :=
    {| stop_reason := "tool_use";
       message_content :=
         [TextBlock "Merging the pull request.";
          ToolUseBlock "toolu_abc123" "merge_pull_request" merge_args] |} in
  let messages_create :=
    λ (w : unit) (messages : list message_param), (Replied response, w) in
  let messages := [CallerMessage "user" "Merge PR #1 in my-org/my-repo"] in
  let st : state unit := initial tt [] in
  let run := messages_with_tools verify_allow_all (server_text "merged")
               true true session_entered messages_create
               anthropic_wrapper_new messages st in
  anthropic_client anthropic_wrapper_new = true ∧
  ensure_mcp_client true true session_entered
    (anthropic_agent_id anthropic_wrapper_new)
    (anthropic_mcp_client anthropic_wrapper_new) st = (Ok tt, client, st) ∧
  messages_create (world st) messages = (Replied response, tt) ∧
  stop_reason response = "tool_use"%string ∧
  ∃ tool_results,
    run.1.1.2 = messages ++ [AssistantMessage (message_content response);
                             ToolResultsMessage tool_results] ∧
    result_tool_use_id <$> tool_results = [Some "toolu_abc123"%string].
Proof.
  intros response messages_create messages st run.
  split; [reflexivity|]. split; [reflexivity|]. split; [reflexivity|].
  split; [reflexivity|].
  destruct (proj2 (X22_tool_uses_answered_in_order verify_allow_all
                     (server_text "merged") true true session_entered
                     messages_create anthropic_wrapper_new messages
                     st client st response tt eq_refl eq_refl eq_refl) eq_refl)
    as (tool_results & Hmessages & Hids & _).
  exists tool_results. split; [exact Hmessages|exact Hids].
Defined.

(** X23: [chat_completion_with_tools] of a wrapper that has an OpenAI
    client, once its MCP client is there (it was set, or its
    initialisation succeeded) and the first request is answered.  The
    message of the response is appended to the messages of the caller in
    every case.  Without a function call the response is returned and
    nothing else happens.  With a function call whose arguments
    [json.loads] rejects, the failure of the decoder leaves the
    function, which it does outside the [try] of
    [handle_function_call]: no policy is verified and no tool is called.
    With arguments that decode, the function is handled once and its
    message is appended after that of the response; this makes at most
    three verifications and three dispatches, with sleeps of one second
    and then of two at most; and the only exception that can leave the
    function is a failure of the second request. *)
Theorem X23_chat_function_call_handled_once {World : Type}
    (verify_policy : World → string → string → dict → reply PolicyDecision * World)
    (session_call_tool : World → string → dict → reply CallToolResult * World)
    (mcp_sdk aport_sdk : bool)
    (enter_session : World → session_outcome * World)
    (chat_create : World → bool → list (gmap string string)
                   → reply ChatCompletion * World)
    (json_loads : string → reply dict)
    (self : OpenAIWithMCPPassport) (messages : list (gmap string string))
    (st : state World) (mcp_client : MCPClientWithPassport) (st0 : state World)
    (response : ChatCompletion) (w1 : World) :
  openai_client self = true →
  ensure_mcp_client mcp_sdk aport_sdk enter_session (openai_agent_id self)
    (openai_mcp_client self) st = (Ok tt, mcp_client, st0) →
  chat_create (world st0) true messages = (Replied response, w1) →
  let run := chat_completion_with_tools verify_policy session_call_tool
               mcp_sdk aport_sdk enter_session chat_create json_loads
               self messages st in
  let st1 := {| store := store st; world := w1; trace := trace st |} in
  (message_function_call response = None →
   run.1.1 = (Ok response, messages ++ [message_dump response]) ∧
   run.2 = st1) ∧
  (∀ function_call msg,
     message_function_call response = Some function_call →
     json_loads (function_call_arguments function_call) = Failed msg →
     run.1.1 = (Raise (External msg), messages ++ [message_dump response]) ∧
     run.2 = st1) ∧
  (∀ function_call entries,
     message_function_call response = Some function_call →
     json_loads (function_call_arguments function_call) = Replied entries →
     ∃ text,
       run.1.1.2 = messages ++
         [message_dump response;
          function_message (function_call_name function_call) text] ∧
       ((∃ final_response, run.1.1.1 = Ok final_response) ∨
        (∃ msg, run.1.1.1 = Raise (External msg))) ∧
       (length (verified_contexts (new_events st run.2)) ≤ 3)%nat ∧
       (length (dispatched_arguments (new_events st run.2)) ≤ 3)%nat ∧
       ∃ k, sleeps (new_events st run.2) = take k [one; two]).
Proof.
  intros Hclient Hens Hcreate run st1.
  pose proof (ensure_mcp_client_frame mcp_sdk aport_sdk enter_session
                (openai_agent_id self) (openai_mcp_client self) st)
    as [Hst0 Htr0].
  rewrite Hens in Hst0, Htr0. cbn [fst snd] in Hst0, Htr0.
  destruct self as [agent llm c].
  cbn [openai_client openai_agent_id openai_mcp_client] in *. subst llm.
  set (self0 := {| openai_agent_id := agent; openai_client := true;
                   openai_mcp_client := Some mcp_client |}).
  assert (Hrun : run =
    match message_function_call response with
    | Some function_call =>
        match json_loads (function_call_arguments function_call) with
        | Failed msg =>
            (Raise (External msg), messages ++ [message_dump response],
             self0, st1)
        | Replied entries =>
            let '(r, st2) :=
              route_function_call verify_policy session_call_tool mcp_client
                (function_call_name function_call) (length (store st))
                {| store := store st ++ [entries]; world := w1;
                   trace := trace st |} in
            match r with
            | Raise e =>
                (Raise e, messages ++ [message_dump response], self0, st2)
            | Ok function_result =>
                let messages2 :=
                  (messages ++ [message_dump response]) ++ [function_result] in
                (match (chat_create (world st2) false messages2).1 with
                 | Replied final_response => Ok final_response
                 | Failed msg => Raise (External msg)
                 end, messages2, self0,
                 {| store := store st2;
                    world := (chat_create (world st2) false messages2).2;
                    trace := trace st2 |})
            end
        end
    | None => (Ok response, messages ++ [message_dump response], self0, st1)
    end).
  { unfold run, chat_completion_with_tools.
    cbn [openai_client openai_agent_id openai_mcp_client negb].
    rewrite Hens. fold self0.
    rewrite await_chat_create_eq, Hcreate. cbn [fst snd].
    rewrite Hst0, Htr0. fold st1.
    destruct (message_function_call response) as [function_call|]; [|done].
    destruct (json_loads _) as [entries|msg]; [|done].
    cbn [store world trace st1].
    rewrite (handle_function_call_initialised _ _ _ _ _ _ mcp_client) by done.
    destruct (route_function_call _ _ _ _ _ _) as [[function_result|e] st2];
      [|done].
    rewrite await_chat_create_eq.
    by destruct (chat_create (world st2) false _).1. }
  rewrite Hrun. clear Hrun.
  split; [by intros ->|]. split.
  { intros function_call msg -> Hjson. by rewrite Hjson. }
  intros function_call entries -> Hjson. rewrite Hjson.
  destruct (route_function_call_attempts verify_policy session_call_tool
              mcp_client (function_call_name function_call)
              (length (store st))
              {| store := store st ++ [entries]; world := w1;
                 trace := trace st |})
    as (text & evs & Hr & Htr & _ & Hv & Hd & Hk).
  destruct (route_function_call _ _ _ _ _ _) as [r st2].
  cbn [fst snd trace] in Hr, Htr. subst r. cbv zeta.
  exists text. rewrite <- app_assoc. cbn [app fst snd].
  split; [done|]. rewrite (new_events_app st _ evs) by done.
  split; [|done].
  destruct (chat_create (world st2) false _).1 as [final_response|msg];
    by eauto.
Qed.

Lemma X23_witness :
  let response :=
    {| message_dump := {[ "role" := "assistant" ]};
       message_function_call :=
         Some {| function_call_name := "process_refund";
                 function_call_arguments := "{}" |} |} in
  let chat_create :=
    λ (w : unit) (with_functions : bool) (messages : list (gmap string string)),
      (Replied response, w) in
  let json_loads := λ text : string, Replied (refund_args : dict) in
  let messages : list (gmap string string) :=
    [{[ "role" := "user"; "content" := "Refund the order" ]}] in
  let st : state unit := initial tt [] in
  let run := chat_completion_with_tools verify_allow_all (server_text "refunded")
               true true session_entered chat_create json_loads
               openai_wrapper_new messages st in
  openai_client openai_wrapper_new = true ∧
  ensure_mcp_client true true session_entered
    (openai_agent_id openai_wrapper_new)
    (openai_mcp_client openai_wrapper_new) st = (Ok tt, client, st) ∧
  chat_create (world st) true messages = (Replied response, tt) ∧
  ∃ text,
    run.1.1.2 = messages ++
      [message_dump response; function_message "process_refund" text].
Proof.
  intros response chat_create json_loads messages st run.
  split; [reflexivity|]. split; [reflexivity|]. split; [reflexivity|].
  destruct (proj2 (proj2 (X23_chat_function_call_handled_once verify_allow_all
                            (server_text "refunded") true true session_entered
                            chat_create json_loads openai_wrapper_new messages
                            st client st response tt eq_refl eq_refl eq_refl))
              _ refund_args eq_refl eq_refl)
    as (text & Hmessages & _).
  exists text. exact Hmessages.
Defined.
